(** * hapmap2impute: HapMap to IMPUTE genotype conversion

    A shallow embedding of [hapmap2impute.py] and the properties of its
    conversion pipeline.

    Python 2 [str] values are byte strings and are modelled by [string];
    Python lists by [list]; the dictionary [dSnpId2NewCoord] by a
    [gmap string string]; the uncaught exceptions and [sys.exit] by the
    error type [exn].  The gzip layer is transparent to the program (it
    reads and writes text through it), so a file is modelled by its
    decompressed content.  The file system answers three questions of
    the program, each a parameter of its own: what opening a path for
    reading gives ([fs], a content or nothing), whether a path exists
    ([path_exists]) and whether a path can be opened for writing
    ([writable]).  The [verbose] prints go to standard output only and
    are left out. *)

From Stdlib Require Import ZArith Ascii DecimalString DecimalPos DecimalZ.
From stdpp Require Import gmap strings list.

Local Open Scope stdpp_scope.

(** ** Python built-ins used by the program *)

Module Py.

(** The line terminator ["\n"]. *)
Definition LF : ascii := "010"%char.

(** [s[:-1]]: all of [s] but its last character; [""[:-1]] is [""]. *)
Fixpoint slice_to_last (s : string) : string :=
  match s with
  | "" => ""
  | String c s' =>
      match s' with
      | "" => ""
      | String _ _ => String c (slice_to_last s')
      end
  end.

(** [h.readline()] on the unread content [s]: the next line with its
    terminator (or the unterminated rest, or [""] at the end of the file)
    and the content left unread. *)
Fixpoint readline (s : string) : string * string :=
  match s with
  | "" => ("", "")
  | String c s' =>
      if decide (c = LF) then (String c "", s')
      else let '(l, r) := readline s' in (String c l, r)
  end.

(** The successive results of [readline] up to the first [""]: what a
    [while True: line = h.readline(); if line == "": break] loop
    iterates over (lemma [readlines_readline]). *)
Fixpoint readlines (s : string) : list string :=
  match s with
  | "" => []
  | String c s' =>
      if decide (c = LF) then String c "" :: readlines s'
      else match readlines s' with
           | [] => [String c ""]
           | l :: ls => String c l :: ls
           end
  end.

(** [s.split()]: the maximal runs of non-whitespace characters. *)
Definition split (s : string) : list string := String.words s.

(** [s.rstrip()]: [s] without its trailing whitespace. *)
Fixpoint rstrip (s : string) : string :=
  match s with
  | "" => ""
  | String c s' =>
      match rstrip s' with
      | "" => if Ascii.is_space c then "" else String c ""
      | r => String c r
      end
  end.

(** [s.split(sep)] for a one-character separator: the pieces between
    the occurrences of [sep]; never an empty list. *)
Fixpoint split_sep (sep : ascii) (s : string) : list string :=
  match s with
  | "" => [""]
  | String c s' =>
      if decide (c = sep) then "" :: split_sep sep s'
      else match split_sep sep s' with
           | [] => [String c ""]
           | p :: ps => String c p :: ps
           end
  end.

(** [a in s] on strings: [a] occurs in [s] as a substring. *)
Fixpoint str_in (a s : string) : bool :=
  String.prefix a s ||
  match s with
  | "" => false
  | String _ s' => str_in a s'
  end.

(** [x in l] on a list of strings. *)
Definition list_in (x : string) (l : list string) : bool :=
  bool_decide (x ∈ l).

(** ["%i" % n]. *)
Definition format_int (n : Z) : string :=
  NilZero.string_of_int (Z.to_int n).

(** [s.replace(old, new)] for a non-empty [old]: every occurrence of
    [old], found from left to right without overlap, becomes [new].
    [skip] counts the characters of a matched occurrence still to drop. *)
Fixpoint replace_go (old new : string) (skip : nat) (s : string) : string :=
  match s with
  | "" => ""
  | String c s' =>
      match skip with
      | S k => replace_go old new k s'
      | O =>
          if String.prefix old s
          then new +:+ replace_go old new (String.length old - 1) s'
          else String c (replace_go old new 0 s')
      end
  end.
Definition replace (old new s : string) : string := replace_go old new 0 s.

(** [range(a, b)]. *)
Definition range (a b : nat) : list nat := seq a (b - a).

End Py.

(** ** Errors *)

(** The ways a run stops early: [sys.exit(code)] and the uncaught
    exceptions of the built-ins. *)
Inductive exn : Type :=
| SystemExit (code : Z)
| IOError
| IndexError
| ValueError.

Inductive result (A : Type) : Type :=
| Ok (a : A)
| Raise (e : exn).
Arguments Ok {A} a.
Arguments Raise {A} e.

Global Instance result_bind : MBind result := λ A B k r,
  match r with
  | Ok a => k a
  | Raise e => Raise e
  end.

(** [l[i]] *)
Definition getitem (l : list string) (i : nat) : result string :=
  match l !! i with
  | Some x => Ok x
  | None => Raise IndexError
  end.

(** [open(path)] / [gzip.open(path)] for reading: [fs] maps the paths that
    can be opened for reading to the content read; any other path (no
    such file, a directory, no permission) raises [IOError]. *)
Definition open (fs : gmap string string) (path : string) : result string :=
  match fs !! path with
  | Some content => Ok content
  | None => Raise IOError
  end.

(** [gzip.open(path, "w")]: the file is created or truncated and can be
    written to, or [IOError] is raised (a path in a directory that does
    not exist, a directory, no permission).  Which of the two happens is
    the file system's answer, the parameter [writable]. *)
Definition open_w (writable : string → bool) (path : string) : result unit :=
  if writable path then Ok tt else Raise IOError.

(** ** The program *)

(** The loop shared, to the letter, by [loadFileWithListOfSnpsToIgnore] and
    [loadFileWithListOfIndsToKeep]: append [line[:-1]] unless present. *)
Fixpoint load_lines (lines : list string) (acc : list string) : list string :=
  match lines with
  | [] => acc
  | line :: rest =>
      if negb (Py.list_in (Py.slice_to_last line) acc)
      then load_lines rest (acc ++ [Py.slice_to_last line])
      else load_lines rest acc
  end.

Definition loadFileWithListOfSnpsToIgnore
    (fs : gmap string string) (snpIgnoreFile : string) : result (list string) :=
  let lSnpsToIgnore := [] in
  if decide (snpIgnoreFile ≠ "") then
    snpIgnoreH ← open fs snpIgnoreFile;
    Ok (load_lines (Py.readlines snpIgnoreH) lSnpsToIgnore)
  else Ok lSnpsToIgnore.

(** The loop of [getNewSnpCoordinates] over the lines left to read. *)
Fixpoint snpCoord_lines (lSnpsToIgnore : list string) (lines : list string)
    (dSnpId2NewCoord : gmap string string) : result (gmap string string) :=
  match lines with
  | [] => Ok dSnpId2NewCoord
  | line :: rest =>
      let tok := Py.split (Py.slice_to_last line) in
      tok3 ← getitem tok 3;
      if Py.list_in tok3 lSnpsToIgnore
      then snpCoord_lines lSnpsToIgnore rest dSnpId2NewCoord
      else if decide (is_Some (dSnpId2NewCoord !! tok3))
      then Raise (SystemExit 1)
      else
        tok2 ← getitem tok 2;
        snpCoord_lines lSnpsToIgnore rest (<[tok3 := tok2]> dSnpId2NewCoord)
  end.

Definition getNewSnpCoordinates
    (fs : gmap string string) (snpCoordFile : string)
    (lSnpsToIgnore : list string) : result (gmap string string) :=
  let dSnpId2NewCoord : gmap string string := ∅ in
  if decide (snpCoordFile ≠ "") then
    snpCoordH ← open fs snpCoordFile;
    snpCoord_lines lSnpsToIgnore (Py.readlines snpCoordH) dSnpId2NewCoord
  else Ok dSnpId2NewCoord.

Definition loadFileWithListOfIndsToKeep
    (fs : gmap string string) (indsToKeepFile : string) : result (list string) :=
  let lIndsToKeep := [] in
  if decide (indsToKeepFile ≠ "") then
    indsToKeepH ← open fs indsToKeepFile;
    Ok (load_lines (Py.readlines indsToKeepH) lIndsToKeep)
  else Ok lIndsToKeep.

(** [inPattern.replace("CHR", "chr%i" % chrNb)] *)
Definition hmFile (inPattern : string) (chrNb : Z) : string :=
  Py.replace "CHR" ("chr" +:+ Py.format_int chrNb) inPattern.

(** First loop of [convertHapMapToImpute]: the header columns to keep. *)
Fixpoint header_idx (lToks lIndsToKeep : list string) (idxs : list nat)
    (lColIdxToKeep : list nat) : result (list nat) :=
  match idxs with
  | [] => Ok lColIdxToKeep
  | i :: rest =>
      indName ← getitem lToks i;
      if Py.list_in indName lIndsToKeep
      then header_idx lToks lIndsToKeep rest (lColIdxToKeep ++ [i])
      else header_idx lToks lIndsToKeep rest lColIdxToKeep
  end.

(** Second loop: the text of the header line. *)
Fixpoint header_txt (lToks : list string) (lColIdxToKeep : list nat)
    (idxs : list nat) (txt : string) : result string :=
  match idxs with
  | [] => Ok txt
  | i :: rest =>
      if bool_decide (i ∈ lColIdxToKeep)
      then tok ← getitem lToks i;
           header_txt lToks lColIdxToKeep rest (txt +:+ " " +:+ tok)
      else header_txt lToks lColIdxToKeep rest txt
  end.

(** Loop over the genotype calls of one data row. *)
Fixpoint row_calls (lToks : list string) (lColIdxToKeep : list nat)
    (a1 a2 : string) (idxs : list nat) (txt : string) : result string :=
  match idxs with
  | [] => Ok txt
  | i :: rest =>
      if negb (bool_decide (i ∈ lColIdxToKeep))
      then row_calls lToks lColIdxToKeep a1 a2 rest txt
      else
        call ← getitem lToks i;
        if String.eqb call (a1 +:+ a1)
        then row_calls lToks lColIdxToKeep a1 a2 rest (txt +:+ " 1 0 0")
        else if Py.str_in a1 call && Py.str_in a2 call
        then row_calls lToks lColIdxToKeep a1 a2 rest (txt +:+ " 0 1 0")
        else if String.eqb call (a2 +:+ a2)
        then row_calls lToks lColIdxToKeep a1 a2 rest (txt +:+ " 0 0 1")
        else row_calls lToks lColIdxToKeep a1 a2 rest (txt +:+ " 0 0 0")
  end.

(** The body of the loop over the data lines: [Ok None] is [continue],
    [Ok (Some s)] is [outH.write(s)]. *)
Definition convert_line (chrNb : Z) (lSnpsToIgnore : list string)
    (dSnpId2NewCoord : gmap string string) (lColIdxToKeep : list nat)
    (line : string) : result (option string) :=
  let lToks := Py.split (Py.slice_to_last line) in
  snpId ← getitem lToks 0;
  if Py.list_in snpId lSnpsToIgnore then Ok None
  else
    let txt := "chr" +:+ Py.format_int chrNb in
    let txt := txt +:+ " " +:+ snpId in
    coord ← match dSnpId2NewCoord !! snpId with
            | Some c => Ok c
            | None => getitem lToks 3
            end;
    let txt := txt +:+ " " +:+ coord in
    alleles ← getitem lToks 1;
    match Py.split_sep "/"%char alleles with
    | [a1; a2] =>
        let txt := txt +:+ " " +:+ a1 in
        let txt := txt +:+ " " +:+ a2 in
        txt ← row_calls lToks lColIdxToKeep a1 a2
                (Py.range 11 (length lToks)) txt;
        Ok (Some (txt +:+ String Py.LF ""))
    | _ => Raise ValueError
    end.

(** The loop over the data lines; [outH] is the sequence of strings
    written to the output so far. *)
Fixpoint convert_lines (chrNb : Z) (lSnpsToIgnore : list string)
    (dSnpId2NewCoord : gmap string string) (lColIdxToKeep : list nat)
    (lines : list string) (outH : list string) : list string * result unit :=
  match lines with
  | [] => (outH, Ok tt)
  | line :: rest =>
      match convert_line chrNb lSnpsToIgnore dSnpId2NewCoord lColIdxToKeep line with
      | Raise e => (outH, Raise e)
      | Ok None =>
          convert_lines chrNb lSnpsToIgnore dSnpId2NewCoord lColIdxToKeep rest outH
      | Ok (Some s) =>
          convert_lines chrNb lSnpsToIgnore dSnpId2NewCoord lColIdxToKeep rest
            (outH ++ [s])
      end
  end.

(** The header part of [convertHapMapToImpute]: the columns kept, and the
    header line when [isFirstFile]. *)
Definition convert_header (lIndsToKeep : list string) (isFirstFile : bool)
    (line : string) : result (list nat * option string) :=
  let lToks := Py.split (Py.rstrip line) in
  lColIdxToKeep ← header_idx lToks lIndsToKeep (Py.range 11 (length lToks)) [];
  if isFirstFile then
    txt ← header_txt lToks lColIdxToKeep (Py.range 11 (length lToks))
            "chr id coord a1 a2";
    Ok (lColIdxToKeep, Some (txt +:+ String Py.LF ""))
  else Ok (lColIdxToKeep, None).

Definition convertHapMapToImpute
    (fs : gmap string string) (inPattern : string) (chrNb : Z)
    (lSnpsToIgnore : list string) (dSnpId2NewCoord : gmap string string)
    (lIndsToKeep : list string) (outH : list string) (isFirstFile : bool)
    : list string * result unit :=
  match open fs (hmFile inPattern chrNb) with
  | Raise e => (outH, Raise e)
  | Ok hmH =>
      let '(line, hmH) := Py.readline hmH in
      match convert_header lIndsToKeep isFirstFile line with
      | Raise e => (outH, Raise e)
      | Ok (lColIdxToKeep, hdr) =>
          let outH := match hdr with Some s => outH ++ [s] | None => outH end in
          convert_lines chrNb lSnpsToIgnore dSnpId2NewCoord lColIdxToKeep
            (Py.readlines hmH) outH
      end
  end.

(** The configuration [setParamsFromCmdLine] hands to [main]. *)
Record params : Type := Params {
  inPattern : string;
  outFile : string;
  lChrs : list Z;
  snpCoordFile : string;
  snpIgnoreFile : string;
  indsToKeepFile : string
}.

(** The loop of [main] over the chromosomes. *)
Fixpoint main_chrs (fs : gmap string string) (inPattern : string)
    (lSnpsToIgnore : list string) (dSnpId2NewCoord : gmap string string)
    (lIndsToKeep : list string) (chrs : list Z) (outH : list string)
    (isFirstFile : bool) : list string * result unit :=
  match chrs with
  | [] => (outH, Ok tt)
  | chrNb :: rest =>
      match convertHapMapToImpute fs inPattern chrNb lSnpsToIgnore
              dSnpId2NewCoord lIndsToKeep outH isFirstFile with
      | (outH, Raise e) => (outH, Raise e)
      | (outH, Ok _) =>
          main_chrs fs inPattern lSnpsToIgnore dSnpId2NewCoord lIndsToKeep
            rest outH false
      end
  end.

(** [main] after [setParamsFromCmdLine].  The first component is the state
    of the output file: [None] as long as [gzip.open(outFile, "w")] has
    not opened it (the file is neither created nor truncated), [Some ws]
    once it is open, [ws] being the strings written to it, in order.
    Opening the output changes the file [outFile] and no other, and the
    chromosome files are read from [fs]: this is the run of the program
    whenever [outFile] is none of the chromosome files it reads. *)
Definition main (writable : string → bool) (fs : gmap string string) (p : params)
    : option (list string) * result unit :=
  match loadFileWithListOfSnpsToIgnore fs (snpIgnoreFile p) with
  | Raise e => (None, Raise e)
  | Ok lSnpsToIgnore =>
      match getNewSnpCoordinates fs (snpCoordFile p) lSnpsToIgnore with
      | Raise e => (None, Raise e)
      | Ok dSnpId2NewCoord =>
          match loadFileWithListOfIndsToKeep fs (indsToKeepFile p) with
          | Raise e => (None, Raise e)
          | Ok lIndsToKeep =>
              match open_w writable (outFile p) with
              | Raise e => (None, Raise e)
              | Ok _ =>
                  let '(outH, r) :=
                    main_chrs fs (inPattern p) lSnpsToIgnore dSnpId2NewCoord
                      lIndsToKeep (lChrs p) [] true in
                  (Some outH, r)
              end
          end
      end
  end.

(** ** Characters of a string, tokens and lines *)

Fixpoint all_chars (P : ascii → bool) (s : string) : bool :=
  match s with
  | "" => true
  | String c s' => P c && all_chars P s'
  end.

Definition not_space (c : ascii) : bool := negb (Ascii.is_space c).
Definition not_LF (c : ascii) : bool := negb (bool_decide (c = Py.LF)).

(** A token: a non-empty string without whitespace. *)
Definition is_token (t : string) : bool :=
  negb (bool_decide (t = "")) && all_chars not_space t.

(** A complete line: characters other than the terminator, then the
    terminator. *)
Fixpoint is_line (l : string) : bool :=
  match l with
  | "" => false
  | String c l' =>
      if decide (c = Py.LF) then bool_decide (l' = "") else is_line l'
  end.

(** The pieces [ls] put one after the other: the content of a file made
    of the lines [ls], the text made of the fields [ls]. *)
Definition concat_str (ls : list string) : string := foldr String.app "" ls.

(** ** The specification's dosage encoding *)

(** [a] occurs in [s]. *)
Definition is_substring (a s : string) : Prop := ∃ x y, s = x +:+ a +:+ y.

(** Decidability of [is_substring] rests on a few facts on strings. *)

Section strings.
Implicit Types s t u : string.

Lemma str_app_cons c s t : String c s +:+ t = String c (s +:+ t).
Proof. reflexivity. Qed.

Lemma str_app_nil_l s : "" +:+ s = s.
Proof. reflexivity. Qed.

Lemma str_app_nil_r s : s +:+ "" = s.
Proof. induction s as [|c s IH]; [done|]. by rewrite str_app_cons, IH. Qed.

Lemma str_app_assoc s t u : (s +:+ t) +:+ u = s +:+ t +:+ u.
Proof. induction s as [|c s IH]; [done|]. by rewrite !str_app_cons, IH. Qed.

Lemma str_app_length s t :
  String.length (s +:+ t) = String.length s + String.length t.
Proof. induction s as [|c s IH]; [done|]. rewrite str_app_cons. simpl. by rewrite IH. Qed.

Lemma str_app_eq_nil s t : s +:+ t = "" → s = "" ∧ t = "".
Proof. destruct s; [done|]. by rewrite str_app_cons. Qed.

Lemma str_app_inj_length s s' t t' :
  String.length s = String.length s' → s +:+ t = s' +:+ t' → s = s' ∧ t = t'.
Proof.
  revert s'. induction s as [|c s IH]; intros [|c' s'] Hlen Heq; try done.
  rewrite !str_app_cons in Heq. injection Heq as -> Heq.
  simpl in Hlen. injection Hlen as Hlen.
  by destruct (IH _ Hlen Heq) as [-> ->].
Qed.

(** Every non-empty string is a string followed by a last character. *)
Lemma snoc_cases s : s ≠ "" → ∃ t c, s = t +:+ String c "".
Proof.
  induction s as [|a s IH]; [done|]. intros _.
  destruct s as [|b s].
  - by exists "", a.
  - destruct IH as (t & c & ->); [done|]. by exists (String a t), c.
Qed.

Lemma slice_to_last_snoc t c : Py.slice_to_last (t +:+ String c "") = t.
Proof.
  induction t as [|a t IH]; [done|].
  rewrite str_app_cons. simpl. rewrite IH.
  destruct t; by rewrite ?str_app_cons.
Qed.

Lemma snoc_inj t t' c c' :
  t +:+ String c "" = t' +:+ String c' "" → t = t' ∧ c = c'.
Proof.
  revert t'. induction t as [|a t IH]; intros [|a' t']; rewrite ?str_app_cons, ?str_app_nil_l.
  - by intros [= ->].
  - intros [= -> H]. by destruct t'.
  - intros [= -> H]. by destruct t.
  - intros [= -> H]. by destruct (IH _ H) as [-> ->].
Qed.

Lemma prefix_spec a s : String.prefix a s = true ↔ ∃ y, s = a +:+ y.
Proof.
  revert s. induction a as [|c a IH]; intros s.
  - split; [|by destruct s]. intros _. by exists s.
  - destruct s as [|c' s]; simpl.
    + split; [done|]. by intros [y Hy].
    + destruct (ascii_dec c c') as [->|Hne]; cbn match.
      * split.
        -- intros [y Hy]%IH. exists y. by rewrite str_app_cons, Hy.
        -- intros [y Hy]. apply IH. exists y. rewrite str_app_cons in Hy. by simplify_eq.
      * split; [done|]. intros [y Hy]. rewrite str_app_cons in Hy. by simplify_eq.
Qed.

Lemma str_in_spec a s : Py.str_in a s = true ↔ ∃ x y, s = x +:+ a +:+ y.
Proof.
  induction s as [|c s IH].
  - cbn [Py.str_in]. rewrite orb_false_r, prefix_spec. split.
    + intros [y Hy]. by exists "", y.
    + intros (x & y & Hxy). symmetry in Hxy.
      apply str_app_eq_nil in Hxy as [-> [-> ->]%str_app_eq_nil]. by exists "".
  - cbn [Py.str_in]. rewrite orb_true_iff, IH, prefix_spec. split.
    + intros [[y Hy]|(x & y & Hxy)].
      * by exists "", y.
      * exists (String c x), y. by rewrite str_app_cons, Hxy.
    + intros (x & y & Hxy). destruct x as [|c' x].
      * left. by exists y.
      * right. rewrite str_app_cons in Hxy. simplify_eq. by exists x, y.
Qed.

End strings.

Global Instance is_substring_dec a s : Decision (is_substring a s).
Proof.
  refine (cast_if (decide (Py.str_in a s = true)));
    unfold is_substring; by rewrite <-str_in_spec.
Defined.

(** The encoding of a genotype call in the specification's words. *)
Definition dosage (a1 a2 call : string) : nat * nat * nat :=
  if decide (call = a1 +:+ a1) then (1, 0, 0)
  else if decide (is_substring a1 call ∧ is_substring a2 call) then (0, 1, 0)
  else if decide (call = a2 +:+ a2) then (0, 0, 1)
  else (0, 0, 0).

(** The three columns of a dosage triple as they stand in a row. *)
Definition show_dosage (t : nat * nat * nat) : string :=
  let '(x, y, z) := t in
  " " +:+ Py.format_int (Z.of_nat x) +:+
  " " +:+ Py.format_int (Z.of_nat y) +:+
  " " +:+ Py.format_int (Z.of_nat z).

(** ** The shape of the output *)

(** The columns of the row [lToks] that are written: those of
    [range(11, len(lToks))] listed in [lColIdxToKeep]. *)
Definition kept_columns (lColIdxToKeep : list nat) (lToks : list string) : list nat :=
  filter (λ i, i ∈ lColIdxToKeep) (Py.range 11 (length lToks)).

(** The header line for the individuals [names]. *)
Definition header_line (names : list string) : string :=
  "chr id coord a1 a2" +:+ concat_str ((λ n, " " +:+ n) <$> names)
  +:+ String Py.LF "".

(** The data row of a marker with its dosage triples. *)
Definition row_line (chrNb : Z) (snpId coord a1 a2 : string)
    (triples : list (nat * nat * nat)) : string :=
  ("chr" +:+ Py.format_int chrNb) +:+ " " +:+ snpId +:+ " " +:+ coord
  +:+ " " +:+ a1 +:+ " " +:+ a2
  +:+ concat_str (show_dosage <$> triples) +:+ String Py.LF "".

(** The individuals of the header line [line] that are kept. *)
Definition header_names (lIndsToKeep : list string) (line : string) : list string :=
  filter (λ t, t ∈ lIndsToKeep) (drop 11 (Py.split (Py.rstrip line))).

(** [s] is a data row written for some line of some chromosome. *)
Definition data_row (lSnpsToIgnore : list string)
    (dSnpId2NewCoord : gmap string string) (s : string) : Prop :=
  ∃ chrNb lColIdxToKeep line,
    convert_line chrNb lSnpsToIgnore dSnpId2NewCoord lColIdxToKeep line
    = Ok (Some s).

(** A line of the output is a header line when it starts with the five
    fixed labels. *)
Definition is_header_line (s : string) : bool :=
  String.prefix "chr id coord a1 a2" s.

(** The marker identifier of a line of the coordinate file as the
    program reads it: field 3 of [line[:-1]].  For a line that ends with
    the terminator this is field 3 of the line (lemma [split_slice_line]);
    a last line without terminator loses its last character first. *)
Definition marker (line : string) : option string :=
  Py.split (Py.slice_to_last line) !! 3.

(** A line of the coordinate file in which the program finds four fields
    or more, that is, [line[:-1]] has them. *)
Definition four_fields (line : string) : bool :=
  bool_decide (4 ≤ length (Py.split (Py.slice_to_last line))).

(** ** The command line *)

(** What [getopt.getopt(sys.argv[1:], ...)] gives: the exception
    [GetoptError], or the options read, each a name and a value, and the
    arguments left. *)
Inductive getopt_result : Type :=
| GetoptError
| GetoptOk (opts : list (string * string)) (args : list string).

(** [map(int, l)]; the built-in [int] on strings is a parameter [int]. *)
Fixpoint map_int (int : string → result Z) (l : list string) : result (list Z) :=
  match l with
  | [] => Ok []
  | a :: rest =>
      n ← int a;
      ns ← map_int int rest;
      Ok (n :: ns)
  end.

(** The loop of [setParamsFromCmdLine] over the options; [p] and
    [verbose] hold the values set so far. *)
Fixpoint set_opts (int : string → result Z) (opts : list (string * string))
    (p : params) (verbose : Z) : result (params * Z) :=
  match opts with
  | [] => Ok (p, verbose)
  | (o, a) :: rest =>
      if bool_decide (o ∈ ["-h"; "--help"]) then Raise (SystemExit 0)
      else if bool_decide (o ∈ ["-v"; "--verbose"]) then
        verbose ← int a;
        set_opts int rest p verbose
      else if bool_decide (o ∈ ["-i"; "--input"]) then
        set_opts int rest
          (Params a (outFile p) (lChrs p) (snpCoordFile p) (snpIgnoreFile p)
             (indsToKeepFile p)) verbose
      else if bool_decide (o ∈ ["-o"; "--output"]) then
        set_opts int rest
          (Params (inPattern p) a (lChrs p) (snpCoordFile p) (snpIgnoreFile p)
             (indsToKeepFile p)) verbose
      else if bool_decide (o ∈ ["-c"; "--chr"]) then
        lChrs ← map_int int (Py.split_sep "-" a);
        set_opts int rest
          (Params (inPattern p) (outFile p) lChrs (snpCoordFile p) (snpIgnoreFile p)
             (indsToKeepFile p)) verbose
      else if bool_decide (o ∈ ["-b"; "--bed"]) then
        set_opts int rest
          (Params (inPattern p) (outFile p) (lChrs p) a (snpIgnoreFile p)
             (indsToKeepFile p)) verbose
      else if bool_decide (o ∈ ["-s"; "--snp"]) then
        set_opts int rest
          (Params (inPattern p) (outFile p) (lChrs p) (snpCoordFile p) a
             (indsToKeepFile p)) verbose
      else if bool_decide (o ∈ ["-n"; "--na"]) then
        set_opts int rest
          (Params (inPattern p) (outFile p) (lChrs p) (snpCoordFile p)
             (snpIgnoreFile p) a) verbose
      else set_opts int rest p verbose
  end.

(** [setParamsFromCmdLine], from the result of [getopt.getopt] on: the
    parameters of [main] and [verbose].  The loop starts from the default
    values: empty paths, [range(1,23)], verbosity 1.  [os.path.exists] is
    the parameter [path_exists]: it is the file system's answer, true of
    the files that can be read but of directories and of files that
    cannot be opened as well, so nothing links it to [open]. *)
Definition setParamsFromCmdLine (int : string → result Z)
    (path_exists : string → bool) (g : getopt_result) : result (params * Z) :=
  match g with
  | GetoptError => Raise (SystemExit 2)
  | GetoptOk opts args =>
      '(p, verbose) ← set_opts int opts
        (Params "" "" (Z.of_nat <$> Py.range 1 23) "" "" "") 1%Z;
      if bool_decide (inPattern p = "") then Raise (SystemExit 1)
      else if bool_decide (outFile p = "") then Raise (SystemExit 1)
      else if bool_decide (snpIgnoreFile p ≠ "") && negb (path_exists (snpIgnoreFile p))
      then Raise (SystemExit 1)
      else if bool_decide (snpCoordFile p ≠ "") && negb (path_exists (snpCoordFile p))
      then Raise (SystemExit 1)
      else if bool_decide (indsToKeepFile p ≠ "") && negb (path_exists (indsToKeepFile p))
      then Raise (SystemExit 1)
      else Ok (p, verbose)
  end.

(** [int] on the strings made of decimal digits only, on which it is the
    number written; for the sample runs. *)
Definition int_of_digits (a : string) : result Z :=
  match NilEmpty.uint_of_string a with
  | Some Decimal.Nil | None => Raise ValueError
  | Some d => Ok (Z.of_uint d)
  end.

(** ** Reference functions for the further properties *)

(** The elements of [l] at their first occurrence, in order. *)
Fixpoint first_occurrences (l : list string) : list string :=
  match l with
  | [] => []
  | x :: l' => x :: filter (λ y, y ≠ x) (first_occurrences l')
  end.

(** The three fields of a dosage triple. *)
Definition dosage_fields (t : nat * nat * nat) : list string :=
  let '(x, y, z) := t in
  [Py.format_int (Z.of_nat x); Py.format_int (Z.of_nat y); Py.format_int (Z.of_nat z)].

(** The coordinate of a line of the coordinate file as the program reads
    it: field 2 of [line[:-1]]. *)
Definition new_coord (line : string) : option string :=
  Py.split (Py.slice_to_last line) !! 2.

(** A line of the coordinate file that names a marker outside the
    exclusion list. *)
Definition coord_line_kept (lSnpsToIgnore : list string) (line : string) : bool :=
  match marker line with
  | Some m => negb (Py.list_in m lSnpsToIgnore)
  | None => false
  end.

(** The chromosome label and the marker of the row a data line gives;
    none for a line whose marker is excluded. *)
Definition row_key (lSnpsToIgnore : list string) (chrNb : Z) (line : string)
    : option (list string) :=
  match Py.split (Py.slice_to_last line) !! 0 with
  | Some snpId =>
      if Py.list_in snpId lSnpsToIgnore then None
      else Some ["chr" +:+ Py.format_int chrNb; snpId]
  | None => None
  end.

(** The data lines of a chromosome file: all the lines but the first. *)
Definition data_lines (fs : gmap string string) (inPattern : string) (chrNb : Z)
    : list string :=
  match fs !! hmFile inPattern chrNb with
  | Some content => tail (Py.readlines content)
  | None => []
  end.

(** A data line with four tokens or more whose allele token has one
    slash. *)
Definition well_formed_row (line : string) : bool :=
  let lToks := Py.split (Py.slice_to_last line) in
  bool_decide (4 ≤ length lToks) &&
  bool_decide (length (Py.split_sep "/" (lToks !!! 1)) = 2).

(** The text of the dosage triples of the row a data line gives. *)
Definition calls_text (lColIdxToKeep : list nat) (line : string) : string :=
  let lToks := Py.split (Py.slice_to_last line) in
  match Py.split_sep "/" (lToks !!! 1) with
  | [a1; a2] =>
      concat_str ((λ i, show_dosage (dosage a1 a2 (lToks !!! i)))
                    <$> kept_columns lColIdxToKeep lToks)
  | _ => ""
  end.

(** The value of the last option of [opts] with a name among [names]. *)
Definition last_value (names : list string) (opts : list (string * string))
    : option string :=
  last (snd <$> filter (λ oa, oa.1 ∈ names) opts).

(** ** Sample files *)

(** [s] followed by the line terminator. *)
Definition ln (s : string) : string := s +:+ String Py.LF "".

Definition hm_header : string :=
  "rs# alleles chrom pos strand assembly# center protLSID assayLSID panelLSID QCcode NA1 NA2".

(** Chromosome 1: markers [rs1], [rs2], individuals [NA1], [NA2]. *)
Definition sample_chr1 : string :=
  concat_str [ln hm_header;
              ln "rs1 A/G chr1 100 + b36 c p a l QC+ AA AG";
              ln "rs2 C/T chr1 200 + b36 c p a l QC+ TT NN"].

Definition sample_chr2 : string :=
  concat_str [ln hm_header;
              ln "rs3 A/C chr2 300 + b36 c p a l QC+ CC AC"].

(** A coordinate file that names [rs1] on two lines. *)
Definition sample_coord_twice : string :=
  concat_str [ln "chr1 149 150 rs1"; ln "chr1 159 160 rs1"].

Definition sample_coord : string :=
  concat_str [ln "chr1 149 150 rs1"].

Definition sample_fs : gmap string string :=
  {[ "in_chr1.gz" := sample_chr1;
     "in_chr2.gz" := sample_chr2;
     "twice.bed.gz" := sample_coord_twice;
     "coord.bed.gz" := sample_coord;
     "ignore.txt" := ln "rs1";
     "keep.txt" := concat_str [ln "NA2"; ln "NA7"] ]}.

(** The sample directory: the sample files exist, and so does the
    directory [dir], which cannot be opened as a file. *)
Definition sample_exists (path : string) : bool :=
  bool_decide (is_Some (sample_fs !! path)) || bool_decide (path = "dir").

(** Every path but the directory [dir] can be opened for writing. *)
Definition sample_writable (path : string) : bool :=
  negb (bool_decide (path = "dir")).

(** * Lemmas *)

(** ** The built-ins on small inputs *)

Example slice_to_last_ex :
  Py.slice_to_last (ln "rs12") = "rs12" ∧ Py.slice_to_last "rs12" = "rs1" ∧
  Py.slice_to_last "" = "".
Proof. by vm_compute. Qed.

Example readlines_ex :
  Py.readlines (concat_str [ln "a b"; ln ""; "c"]) = [ln "a b"; ln ""; "c"] ∧
  Py.readlines "" = [].
Proof. by vm_compute. Qed.

Example split_ex :
  Py.split "  rs1   A/G chr1 " = ["rs1"; "A/G"; "chr1"] ∧
  Py.split (ln "") = [] ∧ Py.split "" = [].
Proof. by vm_compute. Qed.

Example rstrip_ex : Py.rstrip (ln " a b  ") = " a b" ∧ Py.rstrip "   " = "".
Proof. by vm_compute. Qed.

Example split_sep_ex :
  Py.split_sep "/" "A/G" = ["A"; "G"] ∧ Py.split_sep "/" "AG" = ["AG"] ∧
  Py.split_sep "/" "A/G/T" = ["A"; "G"; "T"] ∧ Py.split_sep "/" "/G" = [""; "G"].
Proof. by vm_compute. Qed.

Example str_in_ex :
  Py.str_in "A" "GA" = true ∧ Py.str_in "AG" "GA" = false ∧
  Py.str_in "" "GA" = true ∧ Py.str_in "GA" "A" = false.
Proof. by vm_compute. Qed.

Example hmFile_ex :
  hmFile "in/CHR/genotypes_CHR.txt.gz" 12 = "in/chr12/genotypes_chr12.txt.gz" ∧
  hmFile "genotypes.gz" 1 = "genotypes.gz" ∧
  Py.format_int (-3) = "-3" ∧ Py.format_int 0 = "0".
Proof. by vm_compute. Qed.

(** ** Tokens and [split] *)

Section chars.
Implicit Types s t u : string.

Lemma all_chars_app P s t :
  all_chars P (s +:+ t) = all_chars P s && all_chars P t.
Proof.
  induction s as [|c s IH]; [done|].
  rewrite str_app_cons. simpl. rewrite IH. by rewrite andb_assoc.
Qed.

Lemma all_chars_impl (P Q : ascii → bool) s :
  (∀ c, P c = true → Q c = true) → all_chars P s = true → all_chars Q s = true.
Proof.
  intros HPQ. induction s as [|c s IH]; [done|]. simpl.
  intros [? ?]%andb_true_iff. apply andb_true_iff. auto.
Qed.

Lemma not_space_not_LF c : not_space c = true → not_LF c = true.
Proof.
  unfold not_space, not_LF. intros H. apply negb_true_iff, bool_decide_eq_false.
  intros ->. done.
Qed.

Lemma all_chars_rev_app P s t :
  all_chars P (String.rev_app s t) = all_chars P s && all_chars P t.
Proof.
  revert t. induction s as [|c s IH]; intros t; [done|]. simpl.
  rewrite IH. simpl. by destruct (P c), (all_chars P s).
Qed.

Lemma is_token_spec t :
  is_token t = true ↔ t ≠ "" ∧ all_chars not_space t = true.
Proof.
  unfold is_token. rewrite andb_true_iff, negb_true_iff, bool_decide_eq_false. done.
Qed.

Lemma rev_app_nonempty s t : t ≠ "" → String.rev_app s t ≠ "".
Proof. revert t. induction s as [|c s IH]; intros t Ht; [done|]. simpl. by apply IH. Qed.

Lemma rev_token r :
  r ≠ "" → all_chars not_space r = true → is_token (String.rev r) = true.
Proof.
  intros Hne Hall. apply is_token_spec. split.
  - unfold String.rev.
    destruct r as [|c r]; [done|]. simpl. by apply rev_app_nonempty.
  - unfold String.rev. by rewrite all_chars_rev_app, Hall.
Qed.

Lemma rev_app_rev_app s t u :
  String.rev_app (String.rev_app s t) u = String.rev_app t (s +:+ u).
Proof. revert t u. induction s as [|c s IH]; intros t u; [done|]. simpl. by rewrite IH. Qed.

Lemma rev_rev_app s : String.rev (String.rev_app s "") = s.
Proof. unfold String.rev. by rewrite rev_app_rev_app, str_app_nil_r. Qed.


Lemma is_token_app s t :
  is_token s = true → all_chars not_space t = true → is_token (s +:+ t) = true.
Proof.
  rewrite !is_token_spec. intros [Hs Hs'] Ht. split.
  - by intros [? ?]%str_app_eq_nil.
  - by rewrite all_chars_app, Hs', Ht.
Qed.

Lemma is_token_all_chars t : is_token t = true → all_chars not_space t = true.
Proof. by intros [_ ?]%is_token_spec. Qed.

(** *** [split] *)

Lemma words_go_token t cur s :
  is_token t = true →
  String.words_go cur (t +:+ s)
  = String.words_go (Some (String.rev_app t (default "" cur))) s.
Proof.
  rewrite is_token_spec. intros [Hne Hall]. revert cur Hne Hall.
  induction t as [|a t IH]; intros cur Hne Hall; [done|].
  simpl in Hall. apply andb_true_iff in Hall as [Ha Hall].
  unfold not_space in Ha. apply negb_true_iff in Ha.
  rewrite str_app_cons. simpl. rewrite Ha.
  destruct t as [|b t].
  - rewrite str_app_nil_l. by destruct cur.
  - rewrite IH by done. by destruct cur.
Qed.

Lemma split_token_space t c s :
  is_token t = true → Ascii.is_space c = true →
  Py.split (t +:+ String c s) = t :: Py.split s.
Proof.
  intros Ht Hc. unfold Py.split, String.words.
  rewrite words_go_token by done. simpl. rewrite Hc. simpl.
  by rewrite rev_rev_app.
Qed.

Lemma split_token t : is_token t = true → Py.split t = [t].
Proof.
  intros Ht. unfold Py.split, String.words.
  rewrite <-(str_app_nil_r t) at 1. rewrite words_go_token by done. simpl.
  by rewrite rev_rev_app.
Qed.

Lemma split_space c s : Ascii.is_space c = true → Py.split (String c s) = Py.split s.
Proof. intros Hc. unfold Py.split, String.words. simpl. by rewrite Hc. Qed.

Lemma words_go_tokens cur s :
  (∀ r, cur = Some r → r ≠ "" ∧ all_chars not_space r = true) →
  Forall (λ t, is_token t = true) (String.words_go cur s).
Proof.
  revert cur. induction s as [|a s IH]; intros cur Hcur; simpl.
  - destruct cur as [r|]; simpl; [|done].
    destruct (Hcur r eq_refl) as [Hne Hall].
    by apply Forall_singleton, rev_token.
  - destruct (Ascii.is_space a) eqn:Ha.
    + apply Forall_app. split; [|by apply IH].
      destruct cur as [r|]; simpl; [|done].
      destruct (Hcur r eq_refl) as [Hne Hall].
      by apply Forall_singleton, rev_token.
    + apply IH. intros r [= <-]. split.
      * by destruct cur.
      * destruct cur as [r|]; simpl; unfold not_space at 1; rewrite Ha; simpl; [|done].
        by destruct (Hcur r eq_refl).
Qed.

Lemma split_tokens s : Forall (λ t, is_token t = true) (Py.split s).
Proof. apply words_go_tokens. done. Qed.

(** Whitespace at the end of a string adds no field. *)
Lemma words_go_snoc_space cur s c :
  Ascii.is_space c = true →
  String.words_go cur (s +:+ String c "") = String.words_go cur s.
Proof.
  intros Hc. revert cur. induction s as [|a s IH]; intros cur.
  - rewrite str_app_nil_l. simpl. rewrite Hc. simpl. apply (right_id_L [] (++)).
  - rewrite str_app_cons. simpl. by rewrite !IH.
Qed.

Lemma split_snoc_space s c :
  Ascii.is_space c = true → Py.split (s +:+ String c "") = Py.split s.
Proof. apply words_go_snoc_space. Qed.

End chars.

(** ** Reading a file line by line *)

Section lines.
Implicit Types s t l : string.

Lemma readline_nil s r : Py.readline s = ("", r) → s = "" ∧ r = "".
Proof.
  destruct s as [|c s]; simpl; [by intros [= <-]|].
  case_decide; [done|]. by destruct (Py.readline s).
Qed.

(** [readlines] lists what repeated calls of [readline] return. *)
Lemma readlines_readline s :
  Py.readlines s =
    match Py.readline s with
    | ("", _) => []
    | (l, r) => l :: Py.readlines r
    end.
Proof.
  induction s as [|c s IH]; [done|]. simpl.
  case_decide; [done|]. rewrite IH.
  destruct (Py.readline s) as [l r] eqn:Hrl.
  destruct l; [|done].
  by apply readline_nil in Hrl as [-> ->].
Qed.

Lemma readlines_nonempty s : Forall (λ l, l ≠ "") (Py.readlines s).
Proof.
  induction s as [|c s IH]; simpl; [done|].
  case_decide; [by constructor|].
  destruct (Py.readlines s); [by repeat constructor|].
  apply Forall_cons in IH as [_ ?]. by constructor.
Qed.

Lemma is_line_spec l :
  is_line l = true ↔
  ∃ b, l = b +:+ String Py.LF "" ∧ all_chars not_LF b = true.
Proof.
  induction l as [|c l IH]; simpl.
  - split; [done|]. intros (b & Hb & _). by destruct b.
  - case_decide as Hc.
    + rewrite bool_decide_eq_true. split.
      * intros ->. exists "". by rewrite Hc.
      * intros (b & Hb & Hall).
        by destruct b as [|a b]; rewrite ?str_app_nil_l, ?str_app_cons in Hb; simplify_eq.
    + rewrite IH. split.
      * intros (b & -> & Hall). exists (String c b). split; [done|].
        simpl. rewrite Hall. unfold not_LF. by rewrite bool_decide_eq_false_2.
      * intros (b & Hb & Hall).
        destruct b as [|a b]; rewrite ?str_app_nil_l, ?str_app_cons in Hb; simplify_eq.
        simpl in Hall. apply andb_true_iff in Hall as [_ Hall]. eauto.
Qed.

Lemma readlines_line l s :
  is_line l = true → Py.readlines (l +:+ s) = l :: Py.readlines s.
Proof.
  induction l as [|c l IH]; [done|]. simpl.
  case_decide.
  - by intros ->%bool_decide_eq_true.
  - intros Hl. by rewrite IH.
Qed.

Lemma readlines_concat_str_app ls s :
  forallb is_line ls = true →
  Py.readlines (concat_str ls +:+ s) = ls ++ Py.readlines s.
Proof.
  induction ls as [|l ls IH]; simpl; [done|].
  intros [Hl Hls]%andb_true_iff.
  by rewrite str_app_assoc, readlines_line, IH.
Qed.

Lemma readlines_concat_str ls :
  forallb is_line ls = true → Py.readlines (concat_str ls) = ls.
Proof.
  intros Hls. rewrite <-(str_app_nil_r (concat_str ls)).
  rewrite readlines_concat_str_app by done. apply (right_id_L [] (++)).
Qed.

(** Cutting the terminator of a complete line leaves its fields as they
    are: [line[:-1].split()] is [line.split()]. *)
Lemma split_slice_line l :
  is_line l = true → Py.split (Py.slice_to_last l) = Py.split l.
Proof.
  intros (b & -> & _)%is_line_spec.
  by rewrite slice_to_last_snoc, split_snoc_space.
Qed.

(** Every line read but the last one is a complete line. *)
Lemma readlines_complete s i l :
  Py.readlines s !! i = Some l → S i < length (Py.readlines s) → is_line l = true.
Proof.
  revert i l. induction s as [|c s IH]; intros i l; [done|]. simpl.
  case_decide as Hc.
  - destruct i as [|i]; simpl.
    + intros [= <-] _. simpl. by rewrite decide_True.
    + intros Hi Hlen. apply (IH i); [done|lia].
  - destruct (Py.readlines s) as [|l' ls] eqn:Hls; simpl.
    + destruct i; simpl; [lia|done].
    + destruct i as [|i]; simpl.
      * intros [= <-] Hlen. simpl. rewrite decide_False by done.
        apply (IH 0); [done|simpl; lia].
      * intros Hi Hlen. apply (IH (S i)); [done|simpl; lia].
Qed.

(** A last line without terminator is read as it stands. *)
Lemma readlines_unterminated t :
  t ≠ "" → all_chars not_LF t = true → Py.readlines t = [t].
Proof.
  induction t as [|c t IH]; [done|]. intros _ Hall. simpl in *.
  apply andb_true_iff in Hall as [Hc Hall].
  unfold not_LF in Hc. apply negb_true_iff, bool_decide_eq_false in Hc.
  rewrite decide_False by done.
  destruct t as [|b t]; [done|]. by rewrite IH.
Qed.

End lines.

(** ** The list loaders *)

Section loaders.
Implicit Types lines acc : list string.

Lemma list_in_spec x (l : list string) : Py.list_in x l = true ↔ x ∈ l.
Proof. apply bool_decide_eq_true. Qed.

Lemma load_lines_app lines1 lines2 acc :
  load_lines (lines1 ++ lines2) acc = load_lines lines2 (load_lines lines1 acc).
Proof.
  revert acc. induction lines1 as [|l lines1 IH]; intros acc; simpl; [done|].
  by destruct (negb _).
Qed.

Lemma load_lines_elem lines acc x :
  x ∈ load_lines lines acc ↔ x ∈ acc ∨ x ∈ Py.slice_to_last <$> lines.
Proof.
  revert acc. induction lines as [|l lines IH]; intros acc; simpl.
  - rewrite elem_of_nil. tauto.
  - destruct (Py.list_in (Py.slice_to_last l) acc) eqn:Hin; simpl;
      rewrite IH, elem_of_cons.
    + apply list_in_spec in Hin. split; [tauto|]. intros [?|[->|?]]; tauto.
    + rewrite elem_of_app, list_elem_of_singleton. tauto.
Qed.

(** A line whose identifier is already stored changes nothing. *)
Lemma load_lines_dup lines1 lines2 dup acc :
  dup ∈ lines1 →
  load_lines (lines1 ++ dup :: lines2) acc = load_lines (lines1 ++ lines2) acc.
Proof.
  intros Hdup. rewrite !load_lines_app. simpl.
  assert (Py.list_in (Py.slice_to_last dup) (load_lines lines1 acc) = true) as ->; [|done].
  apply list_in_spec, load_lines_elem. right. by apply list_elem_of_fmap_2.
Qed.

Lemma load_lines_NoDup lines acc : NoDup acc → NoDup (load_lines lines acc).
Proof.
  revert acc. induction lines as [|l lines IH]; intros acc Hacc; simpl; [done|].
  destruct (Py.list_in (Py.slice_to_last l) acc) eqn:Hin; simpl; [by apply IH|].
  apply IH, NoDup_app. split_and!; [done| |apply NoDup_singleton].
  intros x Hx ->%list_elem_of_singleton.
  apply list_in_spec in Hx. congruence.
Qed.

(** What is stored: the lines read, each without its last character. *)
Lemma load_lines_readlines content x :
  x ∈ load_lines (Py.readlines content) []
  ↔ ∃ c, x +:+ String c "" ∈ Py.readlines content.
Proof.
  rewrite load_lines_elem, elem_of_nil, list_elem_of_fmap. split.
  - intros [[]|(line & -> & Hline)].
    pose proof (readlines_nonempty content) as Hne. rewrite Forall_forall in Hne.
    destruct (snoc_cases line (Hne _ Hline)) as (t & c & ->).
    exists c. by rewrite slice_to_last_snoc.
  - intros [c Hc]. right. eexists. split; [|exact Hc].
    by rewrite slice_to_last_snoc.
Qed.

End loaders.

(** ** The converter *)

Section converter.
Implicit Types lToks : list string.
Implicit Types idxs : list nat.

Lemma getitem_Ok lToks i x : getitem lToks i = Ok x ↔ lToks !! i = Some x.
Proof. unfold getitem. destruct (lToks !! i); naive_solver. Qed.

Lemma getitem_lookup lToks i x : lToks !! i = Some x → getitem lToks i = Ok x.
Proof. apply getitem_Ok. Qed.

Lemma range_lt a b i : i ∈ Py.range a b → a ≤ i < b.
Proof. unfold Py.range. rewrite elem_of_seq. lia. Qed.

Lemma str_eqb_decide s t : String.eqb s t = bool_decide (s = t).
Proof.
  destruct (String.eqb_spec s t).
  - by rewrite bool_decide_eq_true_2.
  - by rewrite bool_decide_eq_false_2.
Qed.

(** One call, as the program encodes it, is the specification's triple. *)
Lemma call_text a1 a2 call :
  (if String.eqb call (a1 +:+ a1) then " 1 0 0"
   else if Py.str_in a1 call && Py.str_in a2 call then " 0 1 0"
   else if String.eqb call (a2 +:+ a2) then " 0 0 1"
   else " 0 0 0") = show_dosage (dosage a1 a2 call).
Proof.
  unfold dosage. rewrite !str_eqb_decide.
  destruct (decide (call = a1 +:+ a1)) as [->|H1].
  { by rewrite bool_decide_eq_true_2. }
  rewrite bool_decide_eq_false_2 by done.
  destruct (decide (is_substring a1 call ∧ is_substring a2 call)) as [[Ha Hb]|Hn].
  { apply str_in_spec in Ha, Hb. by rewrite Ha, Hb. }
  assert (Py.str_in a1 call && Py.str_in a2 call = false) as ->.
  { apply not_true_iff_false. intros [Ha Hb]%andb_true_iff.
    apply Hn. split; by apply str_in_spec. }
  destruct (decide (call = a2 +:+ a2)) as [->|H2].
  { by rewrite bool_decide_eq_true_2. }
  by rewrite bool_decide_eq_false_2.
Qed.

Lemma row_calls_spec lToks lColIdxToKeep a1 a2 idxs txt :
  Forall (λ i, i < length lToks) idxs →
  row_calls lToks lColIdxToKeep a1 a2 idxs txt
  = Ok (txt +:+ concat_str
          ((λ i, show_dosage (dosage a1 a2 (lToks !!! i)))
             <$> filter (λ i, i ∈ lColIdxToKeep) idxs)).
Proof.
  revert txt. induction idxs as [|i idxs IH]; intros txt Hlt.
  - simpl. by rewrite str_app_nil_r.
  - apply Forall_cons in Hlt as [Hi Hlt].
    cbn [row_calls]. rewrite filter_cons.
    destruct (decide (i ∈ lColIdxToKeep)) as [Hin|Hin].
    + rewrite bool_decide_eq_true_2 by done. cbn [negb].
      destruct (lookup_lt_is_Some_2 lToks i Hi) as [call Hcall].
      rewrite (getitem_lookup _ _ _ Hcall). cbn [mbind result_bind].
      rewrite fmap_cons. cbn [concat_str foldr].
      rewrite (list_lookup_total_correct _ _ _ Hcall), <-str_app_assoc.
      rewrite <-call_text.
      destruct (String.eqb call (a1 +:+ a1)); [by apply IH|].
      destruct (Py.str_in a1 call && Py.str_in a2 call); [by apply IH|].
      destruct (String.eqb call (a2 +:+ a2)); by apply IH.
    + rewrite bool_decide_eq_false_2 by done. cbn [negb]. by apply IH.
Qed.

Lemma range_Forall_lt a lToks : Forall (λ i, i < length lToks) (Py.range a (length lToks)).
Proof. apply Forall_forall. intros i Hi%range_lt. lia. Qed.

Lemma filter_ext_in {A} (P Q : A → Prop) `{!∀ x, Decision (P x), !∀ x, Decision (Q x)}
    (l : list A) :
  (∀ x, x ∈ l → P x ↔ Q x) → filter P l = filter Q l.
Proof.
  induction l as [|x l IH]; intros Hext; [done|].
  rewrite !filter_cons, IH by (intros; apply Hext; by right).
  destruct (decide (P x)), (decide (Q x)); try done;
    exfalso; specialize (Hext x (list_elem_of_here _ _)); tauto.
Qed.

Lemma filter_none {A} (P : A → Prop) `{!∀ x, Decision (P x)} (l : list A) :
  (∀ x, ¬ P x) → filter P l = [].
Proof.
  intros HP. induction l as [|x l IH]; [done|].
  by rewrite filter_cons_False.
Qed.

Lemma forallb_Forall {A} (f : A → bool) (l : list A) :
  forallb f l = true ↔ Forall (λ x, f x = true) l.
Proof.
  induction l as [|x l IH]; simpl; [by split|].
  rewrite andb_true_iff, Forall_cons, IH. done.
Qed.

Lemma filter_none_in {A} (P : A → Prop) `{!∀ x, Decision (P x)} (l : list A) :
  (∀ x, x ∈ l → ¬ P x) → filter P l = [].
Proof.
  induction l as [|x l IH]; intros HP; [done|].
  rewrite filter_cons_False by (apply HP; by left).
  apply IH. intros y Hy. apply HP. by right.
Qed.

(** The kept indices, filtered again by membership, are themselves. *)
Lemma filter_elem_of_filter {A} (P : A → Prop) `{!∀ x, Decision (P x), !EqDecision A}
    (l : list A) :
  filter (λ x, x ∈ filter P l) l = filter P l.
Proof. apply filter_ext_in. intros x Hx. rewrite list_elem_of_filter. tauto. Qed.

Lemma header_idx_spec lToks lIndsToKeep idxs acc :
  Forall (λ i, i < length lToks) idxs →
  header_idx lToks lIndsToKeep idxs acc
  = Ok (acc ++ filter (λ i, lToks !!! i ∈ lIndsToKeep) idxs).
Proof.
  revert acc. induction idxs as [|i idxs IH]; intros acc Hlt.
  - cbn [header_idx]. by rewrite filter_nil, app_nil_r.
  - apply Forall_cons in Hlt as [Hi Hlt]. cbn [header_idx].
    destruct (lookup_lt_is_Some_2 lToks i Hi) as [t Ht].
    rewrite (getitem_lookup _ _ _ Ht). cbn [mbind result_bind].
    rewrite filter_cons, (list_lookup_total_correct _ _ _ Ht).
    unfold Py.list_in. destruct (decide (t ∈ lIndsToKeep)).
    + rewrite bool_decide_eq_true_2, IH by done. by rewrite <-(assoc_L (++)).
    + by rewrite bool_decide_eq_false_2, IH.
Qed.

Lemma header_txt_spec lToks lColIdxToKeep idxs txt :
  Forall (λ i, i < length lToks) idxs →
  header_txt lToks lColIdxToKeep idxs txt
  = Ok (txt +:+ concat_str
          ((λ i, " " +:+ lToks !!! i) <$> filter (λ i, i ∈ lColIdxToKeep) idxs)).
Proof.
  revert txt. induction idxs as [|i idxs IH]; intros txt Hlt.
  - simpl. by rewrite str_app_nil_r.
  - apply Forall_cons in Hlt as [Hi Hlt]. cbn [header_txt].
    rewrite filter_cons. destruct (decide (i ∈ lColIdxToKeep)).
    + rewrite bool_decide_eq_true_2 by done.
      destruct (lookup_lt_is_Some_2 lToks i Hi) as [t Ht].
      rewrite (getitem_lookup _ _ _ Ht). cbn [mbind result_bind].
      rewrite IH by done. rewrite fmap_cons. cbn [concat_str foldr].
      by rewrite (list_lookup_total_correct _ _ _ Ht), !str_app_assoc.
    + rewrite bool_decide_eq_false_2 by done. by apply IH.
Qed.

(** Filtering the indices of a segment by the element they hold, then
    reading the elements, is filtering the segment. *)
Lemma lookup_filter_seq (P : string → Prop) `{!∀ x, Decision (P x)} pre suf :
  (λ i, (pre ++ suf) !!! i) <$>
    filter (λ i, P ((pre ++ suf) !!! i)) (seq (length pre) (length suf))
  = filter P suf.
Proof.
  revert pre. induction suf as [|x suf IH]; intros pre; [done|].
  cbn [length seq]. rewrite !filter_cons.
  assert ((pre ++ x :: suf) !!! length pre = x) as Hx.
  { apply list_lookup_total_correct, list_lookup_middle. done. }
  specialize (IH (pre ++ [x])). rewrite <-(assoc_L (++)) in IH. simpl in IH.
  rewrite length_app in IH. simpl in IH. rewrite Nat.add_1_r in IH.
  rewrite Hx. destruct (decide (P x)).
  - rewrite fmap_cons, Hx. by f_equal.
  - done.
Qed.

Lemma lookup_filter_range (P : string → Prop) `{!∀ x, Decision (P x)} lToks n :
  (λ i, lToks !!! i) <$> filter (λ i, P (lToks !!! i)) (Py.range n (length lToks))
  = filter P (drop n lToks).
Proof.
  destruct (decide (n ≤ length lToks)) as [Hle|Hgt].
  - pose proof (lookup_filter_seq P (take n lToks) (drop n lToks)) as Hseq.
    rewrite take_drop, length_take_le, length_drop in Hseq by done.
    exact Hseq.
  - unfold Py.range. replace (length lToks - n) with 0 by lia.
    by rewrite drop_ge by lia.
Qed.

Lemma concat_str_app (l1 l2 : list string) :
  concat_str (l1 ++ l2) = concat_str l1 +:+ concat_str l2.
Proof.
  induction l1 as [|x l1 IH]; [done|]. simpl. cbn [concat_str foldr] in *.
  by rewrite IH, str_app_assoc.
Qed.

Lemma convert_header_spec lIndsToKeep isFirstFile line :
  let lToks := Py.split (Py.rstrip line) in
  convert_header lIndsToKeep isFirstFile line
  = Ok (filter (λ i, lToks !!! i ∈ lIndsToKeep) (Py.range 11 (length lToks)),
        if isFirstFile
        then Some (header_line (filter (λ t, t ∈ lIndsToKeep) (drop 11 lToks)))
        else None).
Proof.
  intros lToks. unfold convert_header. fold lToks.
  rewrite header_idx_spec by apply range_Forall_lt. cbn [mbind result_bind app].
  destruct isFirstFile; [|done].
  rewrite header_txt_spec by apply range_Forall_lt. cbn [mbind result_bind].
  rewrite filter_elem_of_filter.
  rewrite <-(lookup_filter_range (λ t, t ∈ lIndsToKeep)).
  unfold header_line. by rewrite <-list_fmap_compose, str_app_assoc.
Qed.

(** The fields of a line made of tokens, one space before each but the
    first. *)
Lemma split_fields t names c rest :
  is_token t = true → Forall (λ n, is_token n = true) names →
  Ascii.is_space c = true →
  Py.split (t +:+ concat_str ((λ n, " " +:+ n) <$> names) +:+ String c rest)
  = t :: names ++ Py.split rest.
Proof.
  intros Ht Hnames Hc. revert t Ht.
  induction Hnames as [|n names Hn _ IH]; intros t Ht.
  - cbn [fmap list_fmap concat_str foldr]. rewrite str_app_nil_l.
    by apply split_token_space.
  - rewrite fmap_cons. cbn [concat_str foldr]. rewrite !str_app_assoc.
    change (" " +:+ n +:+ ?r) with (String " " (n +:+ r)).
    rewrite split_token_space by done. f_equal. by apply IH.
Qed.

Lemma split_header_line names :
  Forall (λ n, is_token n = true) names →
  Py.split (header_line names) = ["chr"; "id"; "coord"; "a1"; "a2"] ++ names.
Proof.
  intros Hnames. unfold header_line.
  change "chr id coord a1 a2"
    with ("chr" +:+ concat_str ((λ n, " " +:+ n) <$> ["id"; "coord"; "a1"; "a2"])).
  rewrite str_app_assoc, <-(str_app_assoc (concat_str _)), <-concat_str_app, <-fmap_app.
  rewrite split_fields; [|done| |done].
  - simpl. rewrite app_nil_r. done.
  - apply Forall_app. split; [|done]. by repeat constructor.
Qed.

(** *** The text of a data row *)

Lemma string_of_uint_not_space d :
  all_chars not_space (NilEmpty.string_of_uint d) = true.
Proof. induction d; simpl; by rewrite ?IHd. Qed.

Lemma format_int_not_space n : all_chars not_space (Py.format_int n) = true.
Proof.
  unfold Py.format_int, NilZero.string_of_int, NilZero.string_of_uint.
  destruct (Z.to_int n) as [d|d]; destruct d; try done;
    simpl; apply string_of_uint_not_space.
Qed.

Lemma format_int_cons n :
  ∃ c f, Py.format_int n = String c f ∧ not_space c = true.
Proof.
  pose proof (format_int_not_space n) as Hall.
  assert (Py.format_int n ≠ "") as Hne.
  { unfold Py.format_int, NilZero.string_of_int, NilZero.string_of_uint.
    destruct (Z.to_int n) as [d|d]; destruct d; done. }
  destruct (Py.format_int n) as [|c f]; [done|].
  simpl in Hall. apply andb_true_iff in Hall as [Hc _]. eauto.
Qed.

Lemma chr_token n : is_token ("chr" +:+ Py.format_int n) = true.
Proof. apply is_token_app; [done|]. apply format_int_not_space. Qed.

Lemma split_sep_chars P sep s :
  all_chars P s = true →
  Forall (λ t, all_chars P t = true) (Py.split_sep sep s).
Proof.
  induction s as [|c s IH]; simpl; [by repeat constructor|].
  intros [Hc Hs]%andb_true_iff. specialize (IH Hs).
  case_decide; [by constructor|].
  destruct (Py.split_sep sep s) as [|p ps].
  { repeat constructor. simpl. by rewrite Hc. }
  apply Forall_cons in IH as [Hp Hps]. constructor; [|done]. simpl. by rewrite Hc, Hp.
Qed.

(** What a line that is written was made of. *)
Lemma convert_line_Some chrNb lSnpsToIgnore dSnpId2NewCoord lColIdxToKeep line row :
  convert_line chrNb lSnpsToIgnore dSnpId2NewCoord lColIdxToKeep line = Ok (Some row) →
  let lToks := Py.split (Py.slice_to_last line) in
  ∃ snpId coord alleles a1 a2,
    lToks !! 0 = Some snpId ∧ (snpId ∉ lSnpsToIgnore) ∧
    match dSnpId2NewCoord !! snpId with
    | Some c => coord = c
    | None => lToks !! 3 = Some coord
    end ∧
    lToks !! 1 = Some alleles ∧ Py.split_sep "/"%char alleles = [a1; a2] ∧
    row = row_line chrNb snpId coord a1 a2
            ((λ i, dosage a1 a2 (lToks !!! i)) <$> kept_columns lColIdxToKeep lToks).
Proof.
  intros Hrow lToks. unfold convert_line in Hrow. fold lToks in Hrow.
  destruct (getitem lToks 0) as [snpId|] eqn:H0; cbn [mbind result_bind] in Hrow; [|done].
  apply getitem_Ok in H0.
  unfold Py.list_in in Hrow.
  destruct (decide (snpId ∈ lSnpsToIgnore)) as [Hign|Hign].
  { by rewrite bool_decide_eq_true_2 in Hrow. }
  rewrite bool_decide_eq_false_2 in Hrow by done.
  destruct (match dSnpId2NewCoord !! snpId with
            | Some c => Ok c
            | None => getitem lToks 3
            end) as [coord|] eqn:Hcoord; cbn [mbind result_bind] in Hrow; [|done].
  destruct (getitem lToks 1) as [alleles|] eqn:H1; cbn [mbind result_bind] in Hrow; [|done].
  apply getitem_Ok in H1.
  destruct (Py.split_sep "/"%char alleles) as [|a1 [|a2 [|? ?]]] eqn:Hsplit; try done.
  rewrite row_calls_spec in Hrow by apply range_Forall_lt.
  cbn [mbind result_bind] in Hrow. injection Hrow as <-.
  exists snpId, coord, alleles, a1, a2. split_and!; try done.
  - destruct (dSnpId2NewCoord !! snpId); [by injection Hcoord|by apply getitem_Ok].
  - unfold row_line, kept_columns. rewrite <-list_fmap_compose.
    by rewrite !str_app_assoc.
Qed.

(** The first three fields of a data row. *)
Lemma split_row_line chrNb snpId coord a1 a2 triples :
  is_token snpId = true → is_token coord = true →
  ∃ rest, Py.split (row_line chrNb snpId coord a1 a2 triples)
          = ("chr" +:+ Py.format_int chrNb) :: snpId :: coord :: rest.
Proof.
  intros Hid Hcoord. unfold row_line. eexists.
  change (" " +:+ snpId +:+ ?r) with (String " " (snpId +:+ r)).
  rewrite split_token_space by (done || apply chr_token).
  change (" " +:+ coord +:+ ?r) with (String " " (coord +:+ r)).
  rewrite split_token_space by done.
  change (" " +:+ a1 +:+ ?r) with (String " " (a1 +:+ r)).
  by rewrite split_token_space.
Qed.

Lemma data_row_not_header chrNb snpId coord a1 a2 triples :
  is_header_line (row_line chrNb snpId coord a1 a2 triples) = false.
Proof.
  unfold row_line, is_header_line.
  destruct (format_int_cons chrNb) as (c & f & -> & Hc).
  apply not_true_iff_false. intros [y Hy]%prefix_spec.
  rewrite !str_app_cons in Hy. by simplify_eq.
Qed.

Lemma header_line_is_header names : is_header_line (header_line names) = true.
Proof. unfold is_header_line, header_line. apply prefix_spec. eauto. Qed.

End converter.

(** ** Every string written is one line *)

Section written_lines.

Lemma is_line_intro b : all_chars not_LF b = true → is_line (b +:+ String Py.LF "") = true.
Proof. intros Hb. apply is_line_spec. eauto. Qed.

Lemma token_not_LF t : is_token t = true → all_chars not_LF t = true.
Proof.
  intros Ht%is_token_all_chars. revert Ht. apply all_chars_impl, not_space_not_LF.
Qed.

Lemma concat_str_chars P (ls : list string) :
  Forall (λ s, all_chars P s = true) ls → all_chars P (concat_str ls) = true.
Proof.
  induction 1 as [|s ls Hs _ IH]; [done|].
  change (all_chars P (s +:+ concat_str ls) = true).
  by rewrite all_chars_app, Hs, IH.
Qed.

Lemma format_int_not_LF n : all_chars not_LF (Py.format_int n) = true.
Proof. generalize (format_int_not_space n). apply all_chars_impl, not_space_not_LF. Qed.

Lemma show_dosage_not_LF t : all_chars not_LF (show_dosage t) = true.
Proof.
  destruct t as [[x y] z]. unfold show_dosage.
  by rewrite !all_chars_app, !format_int_not_LF.
Qed.

Lemma header_line_is_line names :
  Forall (λ n, is_token n = true) names → is_line (header_line names) = true.
Proof.
  intros Hnames. unfold header_line. rewrite <-str_app_assoc. apply is_line_intro.
  rewrite all_chars_app. apply andb_true_iff. split; [done|].
  apply concat_str_chars, Forall_fmap. eapply Forall_impl; [done|].
  intros n Hn. simpl. rewrite all_chars_app. by rewrite (token_not_LF n).
Qed.

Lemma row_line_is_line chrNb snpId coord a1 a2 triples :
  all_chars not_LF snpId = true → all_chars not_LF coord = true →
  all_chars not_LF a1 = true → all_chars not_LF a2 = true →
  is_line (row_line chrNb snpId coord a1 a2 triples) = true.
Proof.
  intros Hid Hcoord H1 H2. unfold row_line.
  rewrite <-!str_app_assoc. apply is_line_intro.
  rewrite !all_chars_app, Hid, Hcoord, H1, H2, format_int_not_LF.
  rewrite concat_str_chars; [done|].
  apply Forall_fmap, Forall_forall. intros t _. apply show_dosage_not_LF.
Qed.

Lemma header_names_tokens lIndsToKeep line :
  Forall (λ n, is_token n = true) (header_names lIndsToKeep line).
Proof.
  unfold header_names. apply Forall_forall. intros n [_ Hn]%list_elem_of_filter.
  apply subseteq_drop in Hn.
  by apply (proj1 (Forall_forall _ _) (split_tokens _)) in Hn.
Qed.

(** A data row is one line, is not a header line, and names in its second
    field a marker that is not excluded. *)
Lemma data_row_facts lSnpsToIgnore d s :
  map_Forall (λ _ v, is_token v = true) d →
  data_row lSnpsToIgnore d s →
  is_line s = true ∧ is_header_line s = false ∧
  ∃ snpId, Py.split s !! 1 = Some snpId ∧ snpId ∉ lSnpsToIgnore.
Proof.
  intros Hd (chrNb & keep & line & Hrow).
  apply convert_line_Some in Hrow
    as (snpId & coord & alleles & a1 & a2 & H0 & Hign & Hcoord & H1 & Hsplit & ->).
  pose proof (split_tokens (Py.slice_to_last line)) as Htoks.
  rewrite Forall_forall in Htoks.
  assert (is_token snpId = true) as Hid by (by eapply Htoks, list_elem_of_lookup_2).
  assert (is_token coord = true) as Hc.
  { destruct (d !! snpId) as [c|] eqn:Hlk.
    - subst. by apply (Hd snpId).
    - by eapply Htoks, list_elem_of_lookup_2. }
  assert (all_chars not_LF a1 = true ∧ all_chars not_LF a2 = true) as [Ha1 Ha2].
  { assert (is_token alleles = true) as Hal by (by eapply Htoks, list_elem_of_lookup_2).
    pose proof (split_sep_chars not_LF "/"%char alleles (token_not_LF _ Hal)) as Hp.
    rewrite Hsplit in Hp. apply Forall_cons in Hp as [? [? _]%Forall_cons]. done. }
  split_and!.
  - apply row_line_is_line; auto using token_not_LF.
  - apply data_row_not_header.
  - exists snpId. split; [|done].
    destruct (split_row_line chrNb snpId coord a1 a2
                ((λ i, dosage a1 a2 (Py.split (Py.slice_to_last line) !!! i))
                   <$> kept_columns keep (Py.split (Py.slice_to_last line))) Hid Hc)
      as [rest ->].
    done.
Qed.

End written_lines.

(** ** The coordinate loader *)

Section coordinates.
Implicit Types d : gmap string string.

Lemma snpCoord_lines_tokens lSnpsToIgnore lines d d' :
  snpCoord_lines lSnpsToIgnore lines d = Ok d' →
  map_Forall (λ _ v, is_token v = true) d →
  map_Forall (λ _ v, is_token v = true) d'.
Proof.
  revert d. induction lines as [|line lines IH]; intros d Hd' Hd.
  { by injection Hd' as <-. }
  cbn [snpCoord_lines] in Hd'.
  destruct (getitem _ 3) as [tok3|] eqn:H3; cbn [mbind result_bind] in Hd'; [|done].
  destruct (Py.list_in tok3 lSnpsToIgnore); [by eapply IH|].
  case_decide; [done|].
  destruct (getitem _ 2) as [tok2|] eqn:H2; cbn [mbind result_bind] in Hd'; [|done].
  eapply IH; [done|]. apply map_Forall_insert_2; [|done].
  apply getitem_Ok, list_elem_of_lookup_2 in H2.
  by apply (proj1 (Forall_forall _ _) (split_tokens _)) in H2.
Qed.

Lemma getNewSnpCoordinates_tokens fs snpCoordFile lSnpsToIgnore d :
  getNewSnpCoordinates fs snpCoordFile lSnpsToIgnore = Ok d →
  map_Forall (λ _ v, is_token v = true) d.
Proof.
  unfold getNewSnpCoordinates. case_decide.
  - destruct (open fs snpCoordFile); cbn [mbind result_bind]; [|done].
    intros Hd. eapply snpCoord_lines_tokens; [done|]. apply map_Forall_empty.
  - intros [= <-]. apply map_Forall_empty.
Qed.

Lemma four_fields_getitem line :
  four_fields line = true →
  ∃ tok3 tok2, getitem (Py.split (Py.slice_to_last line)) 3 = Ok tok3 ∧
               getitem (Py.split (Py.slice_to_last line)) 2 = Ok tok2 ∧
               marker line = Some tok3.
Proof.
  unfold four_fields, marker. intros Hlen%bool_decide_eq_true.
  destruct (lookup_lt_is_Some_2 (Py.split (Py.slice_to_last line)) 3) as [tok3 H3]; [lia|].
  destruct (lookup_lt_is_Some_2 (Py.split (Py.slice_to_last line)) 2) as [tok2 H2]; [lia|].
  exists tok3, tok2. by rewrite !(getitem_lookup _ _ _ H3), !(getitem_lookup _ _ _ H2).
Qed.

(** On a complete line the program finds the fields of the line. *)
Lemma marker_line line : is_line line = true → marker line = Py.split line !! 3.
Proof. intros Hline. unfold marker. by rewrite split_slice_line. Qed.

Lemma four_fields_line line :
  is_line line = true → four_fields line = bool_decide (4 ≤ length (Py.split line)).
Proof. intros Hline. unfold four_fields. by rewrite split_slice_line. Qed.

(** A marker already in the dictionary and met again stops the run. *)
Lemma snpCoord_lines_known lSnpsToIgnore lines d m line :
  forallb four_fields lines = true →
  m ∉ lSnpsToIgnore → is_Some (d !! m) →
  line ∈ lines → marker line = Some m →
  snpCoord_lines lSnpsToIgnore lines d = Raise (SystemExit 1).
Proof.
  intros Hwf Hm. revert d. induction lines as [|l lines IH]; intros d Hd Hin Hline.
  { by apply elem_of_nil in Hin. }
  cbn [forallb] in Hwf. apply andb_true_iff in Hwf as [Hl Hwf].
  destruct (four_fields_getitem l Hl) as (tok3 & tok2 & H3 & H2 & Hmark).
  cbn [snpCoord_lines]. rewrite H3. cbn [mbind result_bind]. unfold Py.list_in.
  apply elem_of_cons in Hin.
  destruct (decide (tok3 ∈ lSnpsToIgnore)) as [Hign|Hign].
  - rewrite bool_decide_eq_true_2 by done.
    destruct Hin as [->|Hin]; [congruence|]. by apply IH.
  - rewrite bool_decide_eq_false_2 by done.
    case_decide as Hk; [done|]. rewrite H2. cbn [mbind result_bind].
    destruct Hin as [->|Hin].
    + exfalso. apply Hk. congruence.
    + apply IH; try done. destruct (decide (tok3 = m)) as [->|].
      * by rewrite lookup_insert_eq.
      * by rewrite lookup_insert_ne.
Qed.

(** A marker on two lines stops the run. *)
Lemma snpCoord_lines_twice lSnpsToIgnore lines d m i j li lj :
  forallb four_fields lines = true →
  m ∉ lSnpsToIgnore → i < j →
  lines !! i = Some li → lines !! j = Some lj →
  marker li = Some m → marker lj = Some m →
  snpCoord_lines lSnpsToIgnore lines d = Raise (SystemExit 1).
Proof.
  intros Hwf Hm. revert d i j.
  induction lines as [|l lines IH]; intros d i j Hij Hi Hj Hli Hlj; [done|].
  cbn [forallb] in Hwf. apply andb_true_iff in Hwf as [Hl Hwf].
  destruct (four_fields_getitem l Hl) as (tok3 & tok2 & H3 & H2 & Hmark).
  destruct j as [|j]; [lia|]. cbn [lookup list_lookup] in Hj.
  cbn [snpCoord_lines]. rewrite H3. cbn [mbind result_bind]. unfold Py.list_in.
  destruct (decide (tok3 ∈ lSnpsToIgnore)) as [Hign|Hign].
  - rewrite bool_decide_eq_true_2 by done.
    destruct i as [|i]; [simpl in Hi; congruence|].
    apply (IH Hwf d i j); try done. lia.
  - rewrite bool_decide_eq_false_2 by done.
    case_decide as Hk; [done|]. rewrite H2. cbn [mbind result_bind].
    destruct i as [|i].
    + simpl in Hi. simplify_eq.
      apply (snpCoord_lines_known _ _ _ m lj); try done.
      * by rewrite lookup_insert_eq.
      * by eapply list_elem_of_lookup_2.
    + apply (IH Hwf _ i j); try done. lia.
Qed.

(** Lines after the one that stops the run are never read. *)
Lemma snpCoord_lines_app_raise lSnpsToIgnore lines1 lines2 d e :
  snpCoord_lines lSnpsToIgnore lines1 d = Raise e →
  snpCoord_lines lSnpsToIgnore (lines1 ++ lines2) d = Raise e.
Proof.
  revert d. induction lines1 as [|l lines1 IH]; intros d; [done|].
  cbn [app snpCoord_lines].
  destruct (getitem _ 3) as [tok3|]; cbn [mbind result_bind]; [|done].
  destruct (Py.list_in tok3 lSnpsToIgnore); [by apply IH|].
  case_decide; [done|].
  destruct (getitem _ 2) as [tok2|]; cbn [mbind result_bind]; [|done].
  by apply IH.
Qed.

End coordinates.

(** ** The driver *)

Section driver.
Implicit Types outH rows : list string.

Lemma convert_lines_out chrNb lSnpsToIgnore d lColIdxToKeep lines outH :
  ∃ rows,
    (convert_lines chrNb lSnpsToIgnore d lColIdxToKeep lines outH).1 = outH ++ rows ∧
    Forall (data_row lSnpsToIgnore d) rows.
Proof.
  revert outH. induction lines as [|line lines IH]; intros outH.
  { exists []. by rewrite app_nil_r. }
  cbn [convert_lines].
  destruct (convert_line chrNb lSnpsToIgnore d lColIdxToKeep line) as [[s|]|e] eqn:Hline.
  - destruct (IH (outH ++ [s])) as (rows & -> & Hrows).
    exists (s :: rows). split; [by rewrite <-(assoc_L (++))|].
    constructor; [|done]. by exists chrNb, lColIdxToKeep, line.
  - apply IH.
  - exists []. by rewrite app_nil_r.
Qed.

Lemma convertHapMapToImpute_missing fs inPattern chrNb lSnpsToIgnore d
    lIndsToKeep outH isFirstFile :
  fs !! hmFile inPattern chrNb = None →
  convertHapMapToImpute fs inPattern chrNb lSnpsToIgnore d lIndsToKeep outH isFirstFile
  = (outH, Raise IOError).
Proof. intros Hfs. unfold convertHapMapToImpute, open. by rewrite Hfs. Qed.

(** A later chromosome adds data rows only. *)
Lemma convertHapMapToImpute_rows fs inPattern chrNb lSnpsToIgnore d lIndsToKeep outH :
  ∃ rows,
    (convertHapMapToImpute fs inPattern chrNb lSnpsToIgnore d lIndsToKeep outH false).1
    = outH ++ rows ∧
    Forall (data_row lSnpsToIgnore d) rows.
Proof.
  unfold convertHapMapToImpute.
  destruct (open fs (hmFile inPattern chrNb)) as [hmH|e].
  - destruct (Py.readline hmH) as [line rest].
    rewrite convert_header_spec. apply convert_lines_out.
  - exists []. by rewrite app_nil_r.
Qed.

(** The first chromosome adds the header line, then data rows. *)
Lemma convertHapMapToImpute_first fs inPattern chrNb lSnpsToIgnore d lIndsToKeep
    outH content :
  fs !! hmFile inPattern chrNb = Some content →
  ∃ rows,
    (convertHapMapToImpute fs inPattern chrNb lSnpsToIgnore d lIndsToKeep outH true).1
    = outH ++ header_line (header_names lIndsToKeep (Py.readline content).1) :: rows ∧
    Forall (data_row lSnpsToIgnore d) rows.
Proof.
  intros Hfs. unfold convertHapMapToImpute, open. rewrite Hfs.
  destruct (Py.readline content) as [line rest].
  rewrite convert_header_spec.
  match goal with |- context [convert_lines ?c ?i ?d ?k ?l ?o] =>
    destruct (convert_lines_out c i d k l o) as (rows & -> & Hrows) end.
  exists rows. split; [|done]. by rewrite <-(assoc_L (++)).
Qed.

Lemma main_chrs_rows fs inPattern lSnpsToIgnore d lIndsToKeep chrs outH :
  ∃ rows,
    (main_chrs fs inPattern lSnpsToIgnore d lIndsToKeep chrs outH false).1
    = outH ++ rows ∧
    Forall (data_row lSnpsToIgnore d) rows.
Proof.
  revert outH. induction chrs as [|chrNb chrs IH]; intros outH.
  { exists []. by rewrite app_nil_r. }
  cbn [main_chrs].
  destruct (convertHapMapToImpute_rows fs inPattern chrNb lSnpsToIgnore d
              lIndsToKeep outH) as (rows & Hout & Hrows).
  destruct (convertHapMapToImpute _ _ _ _ _ _ _ _) as [outH' [[]|e]]; simpl in Hout; subst.
  - destruct (IH (outH ++ rows)) as (rows' & -> & Hrows').
    exists (rows ++ rows'). split; [by rewrite (assoc_L (++))|]. by apply Forall_app.
  - by exists rows.
Qed.

Lemma main_chrs_first fs inPattern lSnpsToIgnore d lIndsToKeep chrNb chrs outH content :
  fs !! hmFile inPattern chrNb = Some content →
  ∃ rows,
    (main_chrs fs inPattern lSnpsToIgnore d lIndsToKeep (chrNb :: chrs) outH true).1
    = outH ++ header_line (header_names lIndsToKeep (Py.readline content).1) :: rows ∧
    Forall (data_row lSnpsToIgnore d) rows.
Proof.
  intros Hfs. cbn [main_chrs].
  destruct (convertHapMapToImpute_first fs inPattern chrNb lSnpsToIgnore d
              lIndsToKeep outH content Hfs) as (rows & Hout & Hrows).
  destruct (convertHapMapToImpute _ _ _ _ _ _ _ _) as [outH' [[]|e]]; simpl in Hout; subst.
  - match goal with |- context [main_chrs ?f ?p ?i ?d ?k ?c ?o false] =>
      destruct (main_chrs_rows f p i d k c o) as (rows' & -> & Hrows') end.
    exists (rows ++ rows'). split; [|by apply Forall_app].
    by rewrite <-!(assoc_L (++)).
  - by exists rows.
Qed.

(** The output of a run: nothing when the first chromosome file is
    missing or no chromosome is asked for, else the header line of the
    first chromosome file and data rows. *)
Lemma main_out writable fs p out r :
  main writable fs p = (Some out, r) →
  ∃ lSnpsToIgnore d lIndsToKeep,
    loadFileWithListOfSnpsToIgnore fs (snpIgnoreFile p) = Ok lSnpsToIgnore ∧
    getNewSnpCoordinates fs (snpCoordFile p) lSnpsToIgnore = Ok d ∧
    loadFileWithListOfIndsToKeep fs (indsToKeepFile p) = Ok lIndsToKeep ∧
    match lChrs p with
    | [] => out = [] ∧ r = Ok tt
    | chrNb :: _ =>
        match fs !! hmFile (inPattern p) chrNb with
        | None => out = [] ∧ r = Raise IOError
        | Some content =>
            ∃ rows,
              out = header_line (header_names lIndsToKeep (Py.readline content).1)
                    :: rows ∧
              Forall (data_row lSnpsToIgnore d) rows
        end
    end.
Proof.
  unfold main. intros Hmain.
  destruct (loadFileWithListOfSnpsToIgnore _ _) as [lSnpsToIgnore|] eqn:Hign; [|done].
  destruct (getNewSnpCoordinates _ _ _) as [d|] eqn:Hd; [|done].
  destruct (loadFileWithListOfIndsToKeep _ _) as [lIndsToKeep|] eqn:Hinds; [|done].
  destruct (open_w writable (outFile p)); [|done].
  exists lSnpsToIgnore, d, lIndsToKeep. split_and!; try done.
  destruct (lChrs p) as [|chrNb chrs].
  { simpl in Hmain. by simplify_eq. }
  destruct (fs !! hmFile (inPattern p) chrNb) as [content|] eqn:Hfs.
  - destruct (main_chrs_first fs (inPattern p) lSnpsToIgnore d lIndsToKeep chrNb
                chrs [] content Hfs) as (rows & Hout & Hrows).
    destruct (main_chrs _ _ _ _ _ _ _ _) as [outH r']. simpl in Hout.
    simplify_eq. by exists rows.
  - cbn [main_chrs] in Hmain.
    rewrite convertHapMapToImpute_missing in Hmain by done. by simplify_eq.
Qed.

End driver.

(** * The claims *)

(** C1.  With no individual-inclusion file (empty path) the program keeps
    no individual column at all, where the specification keeps every one:
    the loader returns the empty list, the header line is the five fixed
    labels alone whatever the input header, and on the sample files the
    rows carry no dosage triple. *)
Theorem C1_no_inclusion_file_keeps_no_individual :
  (∀ fs, loadFileWithListOfIndsToKeep fs "" = Ok []) ∧
  (∀ line, convert_header [] true line = Ok ([], Some (ln "chr id coord a1 a2"))) ∧
  main sample_writable sample_fs (Params "in_CHR.gz" "out.gz" [1%Z] "" "" "")
  = (Some [ln "chr id coord a1 a2"; ln "chr1 rs1 100 A G"; ln "chr1 rs2 200 C T"],
     Ok tt).
Proof.
  split_and!.
  - done.
  - intros line. rewrite convert_header_spec. f_equal. f_equal.
    + apply filter_none. intros i. apply not_elem_of_nil.
    + f_equal. rewrite filter_none; [done|]. intros t. apply not_elem_of_nil.
  - by vm_compute.
Qed.

(** C2, as stated, fails.  In [twice.bed.gz] the marker [rs1] stands on
    two lines, but [rs1] is also in the exclusion list, so both lines are
    skipped before the test for a known key: the run does not stop and
    the output is written.  When a line with fewer than four fields
    comes before the second of the two lines, the run stops there on
    [IndexError], not on [sys.exit(1)].  And when the second of the two
    lines is the last of the file and has no terminator, [line[:-1]]
    takes the last character of the marker away: [rs1] and [rs] are two
    keys, the run does not stop and the output is written. *)
Lemma C2_counterexample_marker_twice_no_exit :
  Py.readlines sample_coord_twice
  = [ln "chr1 149 150 rs1"; ln "chr1 159 160 rs1"] ∧
  Py.split (ln "chr1 149 150 rs1") !! 3 = Some "rs1" ∧
  Py.split (ln "chr1 159 160 rs1") !! 3 = Some "rs1" ∧
  marker (ln "chr1 149 150 rs1") = Some "rs1" ∧
  marker (ln "chr1 159 160 rs1") = Some "rs1" ∧
  main sample_writable sample_fs
    (Params "in_CHR.gz" "out.gz" [1%Z] "twice.bed.gz" "ignore.txt" "")
  = (Some [ln "chr id coord a1 a2"; ln "chr1 rs2 200 C T"], Ok tt) ∧
  main sample_writable
    (<["twice.bed.gz" :=
         concat_str [ln "chr1 149 150 rs1"; ln ""; ln "chr1 159 160 rs1"]]> sample_fs)
    (Params "in_CHR.gz" "out.gz" [1%Z] "twice.bed.gz" "" "")
  = (None, Raise IndexError) ∧
  Py.readlines (ln "chr1 149 150 rs1" +:+ "chr1 159 160 rs1")
  = [ln "chr1 149 150 rs1"; "chr1 159 160 rs1"] ∧
  Py.split "chr1 159 160 rs1" !! 3 = Some "rs1" ∧
  marker "chr1 159 160 rs1" = Some "rs" ∧
  getNewSnpCoordinates
    {[ "twice.bed.gz" := ln "chr1 149 150 rs1" +:+ "chr1 159 160 rs1" ]}
    "twice.bed.gz" []
  = Ok {[ "rs1" := "150"; "rs" := "160" ]} ∧
  main sample_writable
    (<["twice.bed.gz" := ln "chr1 149 150 rs1" +:+ "chr1 159 160 rs1"]> sample_fs)
    (Params "in_CHR.gz" "out.gz" [1%Z] "twice.bed.gz" "" "")
  = (Some [ln "chr id coord a1 a2"; ln "chr1 rs1 150 A G"; ln "chr1 rs2 200 C T"],
     Ok tt).
Proof. by vm_compute. Qed.

(** C2, amended.  The lines of the coordinate-override file are taken as
    the program reads them, each without its last character
    ([line[:-1]]): for a line that ends with a newline, as every line but
    a last line without terminator does, these are the fields of the
    line itself ([marker_line], [four_fields_line],
    [readlines_complete]).  Whenever a
    marker identifier that is not in the exclusion list is the fourth
    field of two lines so taken, every line up to the second of them
    having four fields or more, loading stops the run with
    [sys.exit(1)], and this happens before the output file is opened,
    whether it can be opened or not. *)
Theorem C2_marker_twice_stops_before_output
    writable fs p lSnpsToIgnore content m i j li lj :
  loadFileWithListOfSnpsToIgnore fs (snpIgnoreFile p) = Ok lSnpsToIgnore →
  snpCoordFile p ≠ "" →
  fs !! snpCoordFile p = Some content →
  i < j →
  Py.readlines content !! i = Some li →
  Py.readlines content !! j = Some lj →
  forallb four_fields (take (S j) (Py.readlines content)) = true →
  marker li = Some m → marker lj = Some m →
  m ∉ lSnpsToIgnore →
  getNewSnpCoordinates fs (snpCoordFile p) lSnpsToIgnore = Raise (SystemExit 1) ∧
  main writable fs p = (None, Raise (SystemExit 1)).
Proof.
  intros Hign Hpath Hfs Hij Hi Hj Hwf Hli Hlj Hm.
  assert (getNewSnpCoordinates fs (snpCoordFile p) lSnpsToIgnore
          = Raise (SystemExit 1)) as Hload.
  { unfold getNewSnpCoordinates, open. rewrite decide_True, Hfs by done.
    cbn [mbind result_bind].
    rewrite <-(take_drop (S j) (Py.readlines content)).
    apply snpCoord_lines_app_raise.
    apply (snpCoord_lines_twice _ _ _ m i j li lj); try done.
    - rewrite lookup_take_lt by lia. done.
    - rewrite lookup_take_lt by lia. done. }
  split; [done|]. unfold main. by rewrite Hign, Hload.
Qed.

Lemma C2_marker_twice_witness :
  main sample_writable sample_fs (Params "in_CHR.gz" "out.gz" [1%Z] "twice.bed.gz" "" "")
  = (None, Raise (SystemExit 1)).
Proof.
  refine (proj2 (C2_marker_twice_stops_before_output sample_writable sample_fs
            (Params "in_CHR.gz" "out.gz" [1%Z] "twice.bed.gz" "" "")
            [] sample_coord_twice "rs1" 0 1
            (ln "chr1 149 150 rs1") (ln "chr1 159 160 rs1")
            _ _ _ _ _ _ _ _ _ _)).
  - reflexivity.
  - simpl. discriminate.
  - vm_compute. reflexivity.
  - lia.
  - vm_compute. reflexivity.
  - vm_compute. reflexivity.
  - vm_compute. reflexivity.
  - vm_compute. reflexivity.
  - vm_compute. reflexivity.
  - apply not_elem_of_nil.
Defined.

(** C3.  A run over a non-empty chromosome list that completes, or that
    at least opens the first chromosome's file, leaves exactly one header
    line in the output: the strings written are the lines of the output
    file, the first one is the header line, made while the first
    chromosome is processed, and no line after it is a header line. *)
Theorem C3_exactly_one_header_line writable fs p chrNb chrs out r :
  lChrs p = chrNb :: chrs →
  main writable fs p = (Some out, r) →
  r = Ok tt ∨ is_Some (fs !! hmFile (inPattern p) chrNb) →
  ∃ hdr rows,
    out = hdr :: rows ∧
    Py.readlines (concat_str out) = hdr :: rows ∧
    is_header_line hdr = true ∧
    Forall (λ s, is_header_line s = false) rows ∧
    length (filter (λ s, is_header_line s = true) (Py.readlines (concat_str out))) = 1.
Proof.
  intros Hchrs Hmain Hrun.
  apply main_out in Hmain as (ign & d & inds & _ & Hd & _ & Hout).
  apply getNewSnpCoordinates_tokens in Hd. rewrite Hchrs in Hout.
  destruct (fs !! hmFile (inPattern p) chrNb) as [content|].
  2: { destruct Hout as [_ ->]. by destruct Hrun as [?|[? ?]]. }
  destruct Hout as (rows & -> & Hrows).
  set (hdr := header_line _).
  assert (Forall (λ s, is_line s = true ∧ is_header_line s = false) rows) as Hfacts.
  { eapply Forall_impl; [exact Hrows|]. intros s Hs.
    destruct (data_row_facts _ _ _ Hd Hs) as (? & ? & _). done. }
  assert (Py.readlines (concat_str (hdr :: rows)) = hdr :: rows) as Hlines.
  { apply readlines_concat_str. cbn [forallb]. apply andb_true_iff. split.
    - apply header_line_is_line, header_names_tokens.
    - apply forallb_Forall. eapply Forall_impl; [exact Hfacts|]. by intros s [? _]. }
  exists hdr, rows. split_and!; try done.
  - apply header_line_is_header.
  - eapply Forall_impl; [exact Hfacts|]. by intros s [_ ?].
  - rewrite Hlines, filter_cons_True by apply header_line_is_header.
    rewrite filter_none_in; [done|].
    rewrite Forall_forall in Hfacts. intros s Hs. destruct (Hfacts s Hs). congruence.
Qed.

Lemma C3_one_header_witness :
  ∃ hdr rows,
    [ln "chr id coord a1 a2 NA2"; ln "chr1 rs1 100 A G 0 1 0";
     ln "chr1 rs2 200 C T 0 0 0"; ln "chr2 rs3 300 A C 0 1 0"] = hdr :: rows ∧
    Py.readlines (concat_str
      [ln "chr id coord a1 a2 NA2"; ln "chr1 rs1 100 A G 0 1 0";
       ln "chr1 rs2 200 C T 0 0 0"; ln "chr2 rs3 300 A C 0 1 0"]) = hdr :: rows ∧
    is_header_line hdr = true ∧
    Forall (λ s, is_header_line s = false) rows ∧
    length (filter (λ s, is_header_line s = true) (Py.readlines (concat_str
      [ln "chr id coord a1 a2 NA2"; ln "chr1 rs1 100 A G 0 1 0";
       ln "chr1 rs2 200 C T 0 0 0"; ln "chr2 rs3 300 A C 0 1 0"]))) = 1.
Proof.
  apply (C3_exactly_one_header_line sample_writable sample_fs
           (Params "in_CHR.gz" "out.gz" [1%Z; 2%Z] "" "" "keep.txt") 1 [2%Z] _ (Ok tt)).
  - reflexivity.
  - vm_compute. reflexivity.
  - left. reflexivity.
Defined.

(** C4.  In every data row written, the third field (the coordinate) is
    the override value when the marker identifier, which is the first
    token of the input line and the second field of the row, is a key of
    the coordinate dictionary, and is otherwise the token of index 3 of
    the input line. *)
Theorem C4_coordinate_column
    fs coordFile chrNb lSnpsToIgnore d lColIdxToKeep line row :
  getNewSnpCoordinates fs coordFile lSnpsToIgnore = Ok d →
  convert_line chrNb lSnpsToIgnore d lColIdxToKeep line = Ok (Some row) →
  ∃ snpId,
    Py.split (Py.slice_to_last line) !! 0 = Some snpId ∧
    Py.split row !! 1 = Some snpId ∧
    Py.split row !! 2 =
      match d !! snpId with
      | Some c => Some c
      | None => Py.split (Py.slice_to_last line) !! 3
      end.
Proof.
  intros Hd%getNewSnpCoordinates_tokens Hrow.
  apply convert_line_Some in Hrow
    as (snpId & coord & alleles & a1 & a2 & H0 & Hign & Hcoord & H1 & Hsplit & ->).
  pose proof (split_tokens (Py.slice_to_last line)) as Htoks.
  rewrite Forall_forall in Htoks.
  assert (is_token snpId = true) as Hid by (by eapply Htoks, list_elem_of_lookup_2).
  assert (is_token coord = true) as Hc.
  { destruct (d !! snpId) as [c|] eqn:Hlk.
    - subst. by apply (Hd snpId).
    - by eapply Htoks, list_elem_of_lookup_2. }
  exists snpId. split; [done|].
  destruct (split_row_line chrNb snpId coord a1 a2
              ((λ i, dosage a1 a2 (Py.split (Py.slice_to_last line) !!! i))
                 <$> kept_columns lColIdxToKeep (Py.split (Py.slice_to_last line)))
              Hid Hc) as [rest ->].
  split; [done|]. cbn [lookup list_lookup].
  destruct (d !! snpId); by subst.
Qed.

Lemma C4_coordinate_witness :
  ∃ snpId,
    Py.split (Py.slice_to_last (ln "rs1 A/G chr1 100 + b36 c p a l QC+ AA AG")) !! 0
    = Some snpId ∧
    Py.split (ln "chr1 rs1 150 A G 1 0 0 0 1 0") !! 1 = Some snpId ∧
    Py.split (ln "chr1 rs1 150 A G 1 0 0 0 1 0") !! 2 =
      match ({[ "rs1" := "150" ]} : gmap string string) !! snpId with
      | Some c => Some c
      | None =>
          Py.split (Py.slice_to_last (ln "rs1 A/G chr1 100 + b36 c p a l QC+ AA AG")) !! 3
      end.
Proof.
  apply (C4_coordinate_column sample_fs "coord.bed.gz" 1 [] {[ "rs1" := "150" ]} [11; 12]).
  - vm_compute. reflexivity.
  - vm_compute. reflexivity.
Defined.

(** C5.  In every data row written, each kept column (the indices of
    [range(11, len(lToks))] that are in [lColIdxToKeep], in order) gives
    the triple of the specification's cascade: (1,0,0) for a call equal to
    a1+a1, else (0,1,0) for a call that has a1 and a2 as substrings, else
    (0,0,1) for a call equal to a2+a2, else (0,0,0).  With a1 = A and
    a2 = G the calls AA, AG, GG and -- give 1 0 0, 0 1 0, 0 0 1 and
    0 0 0. *)
Theorem C5_genotype_encoding :
  (∀ chrNb lSnpsToIgnore d lColIdxToKeep line row,
     convert_line chrNb lSnpsToIgnore d lColIdxToKeep line = Ok (Some row) →
     let lToks := Py.split (Py.slice_to_last line) in
     ∃ snpId coord alleles a1 a2,
       lToks !! 1 = Some alleles ∧
       Py.split_sep "/"%char alleles = [a1; a2] ∧
       row = row_line chrNb snpId coord a1 a2
               ((λ i, dosage a1 a2 (lToks !!! i))
                  <$> kept_columns lColIdxToKeep lToks)) ∧
  (∀ lToks lColIdxToKeep a1 a2 txt,
     row_calls lToks lColIdxToKeep a1 a2 (Py.range 11 (length lToks)) txt
     = Ok (txt +:+ concat_str
             ((λ i, show_dosage (dosage a1 a2 (lToks !!! i)))
                <$> kept_columns lColIdxToKeep lToks))) ∧
  show_dosage <$> [(1, 0, 0); (0, 1, 0); (0, 0, 1); (0, 0, 0)]
  = [" 1 0 0"; " 0 1 0"; " 0 0 1"; " 0 0 0"] ∧
  dosage "A" "G" <$> ["AA"; "AG"; "GA"; "GG"; "--"]
  = [(1, 0, 0); (0, 1, 0); (0, 1, 0); (0, 0, 1); (0, 0, 0)] ∧
  convert_line 1 [] ∅ [11; 12; 13; 14]
    (ln "rs1 A/G chr1 100 + b36 c p a l QC+ AA AG GG --")
  = Ok (Some (ln "chr1 rs1 100 A G 1 0 0 0 1 0 0 0 1 0 0 0")).
Proof.
  split_and!.
  - intros chrNb lSnpsToIgnore d lColIdxToKeep line row Hrow lToks.
    apply convert_line_Some in Hrow
      as (snpId & coord & alleles & a1 & a2 & H0 & Hign & Hcoord & H1 & Hsplit & ->).
    by exists snpId, coord, alleles, a1, a2.
  - intros. apply row_calls_spec, range_Forall_lt.
  - by vm_compute.
  - by vm_compute.
  - by vm_compute.
Qed.

Lemma C5_genotype_encoding_witness :
  let lToks :=
    Py.split (Py.slice_to_last (ln "rs1 A/G chr1 100 + b36 c p a l QC+ AA AG GG --")) in
  ∃ snpId coord alleles a1 a2,
    lToks !! 1 = Some alleles ∧
    Py.split_sep "/"%char alleles = [a1; a2] ∧
    ln "chr1 rs1 100 A G 1 0 0 0 1 0 0 0 1 0 0 0"
    = row_line 1 snpId coord a1 a2
        ((λ i, dosage a1 a2 (lToks !!! i)) <$> kept_columns [11; 12; 13; 14] lToks).
Proof.
  apply (proj1 C5_genotype_encoding 1%Z [] ∅ [11; 12; 13; 14]
           (ln "rs1 A/G chr1 100 + b36 c p a l QC+ AA AG GG --")).
  vm_compute. reflexivity.
Defined.

(** C6.  A line whose marker identifier (token 0) is in the exclusion
    list is skipped whole, whatever the rest of the line, the chromosome,
    the dictionary and the kept columns; and in the output of a run, be it
    complete or stopped by an error, every line other than the header
    line names in its second field a marker that is not in the exclusion
    list. *)
Theorem C6_excluded_markers_absent writable fs p lSnpsToIgnore out r :
  loadFileWithListOfSnpsToIgnore fs (snpIgnoreFile p) = Ok lSnpsToIgnore →
  main writable fs p = (Some out, r) →
  (∀ m chrNb d lColIdxToKeep line,
     m ∈ lSnpsToIgnore →
     Py.split (Py.slice_to_last line) !! 0 = Some m →
     convert_line chrNb lSnpsToIgnore d lColIdxToKeep line = Ok None) ∧
  Forall (λ s, is_header_line s = false →
               ∃ snpId, Py.split s !! 1 = Some snpId ∧ snpId ∉ lSnpsToIgnore) out.
Proof.
  intros Hload Hmain. split.
  - intros m chrNb d lColIdxToKeep line Hm H0. unfold convert_line.
    rewrite (getitem_lookup _ _ _ H0). cbn [mbind result_bind].
    unfold Py.list_in. by rewrite bool_decide_eq_true_2.
  - apply main_out in Hmain as (ign & d & inds & Hign & Hd & _ & Hout).
    rewrite Hload in Hign. injection Hign as <-.
    apply getNewSnpCoordinates_tokens in Hd.
    destruct (lChrs p) as [|chrNb chrs]; [by destruct Hout as [-> _]|].
    destruct (fs !! hmFile (inPattern p) chrNb) as [content|];
      [|by destruct Hout as [-> _]].
    destruct Hout as (rows & -> & Hrows). constructor.
    + by rewrite header_line_is_header.
    + eapply Forall_impl; [exact Hrows|]. intros s Hs _.
      by destruct (data_row_facts _ _ _ Hd Hs) as (_ & _ & ?).
Qed.

Lemma C6_excluded_markers_witness :
  (∀ m chrNb d lColIdxToKeep line,
     m ∈ ["rs1"] →
     Py.split (Py.slice_to_last line) !! 0 = Some m →
     convert_line chrNb ["rs1"] d lColIdxToKeep line = Ok None) ∧
  Forall (λ s, is_header_line s = false →
               ∃ snpId, Py.split s !! 1 = Some snpId ∧ snpId ∉ ["rs1"])
    [ln "chr id coord a1 a2 NA2"; ln "chr1 rs2 200 C T 0 0 0";
     ln "chr2 rs3 300 A C 0 1 0"].
Proof.
  apply (C6_excluded_markers_absent sample_writable sample_fs
           (Params "in_CHR.gz" "out.gz" [1%Z; 2%Z] "" "ignore.txt" "keep.txt")
           ["rs1"] _ (Ok tt)).
  - vm_compute. reflexivity.
  - vm_compute. reflexivity.
Defined.

(** C7.  When an inclusion file is given, the header line written is the
    five fixed labels followed by the individual columns of the first
    chromosome's header line (its tokens from index 11 on) that are in
    the inclusion list, in the order of that header line; the inclusion
    list holds the lines of the inclusion file, each without its last
    character. *)
Theorem C7_header_individuals writable fs p indsToKeep chrNb chrs content out r :
  indsToKeepFile p ≠ "" →
  fs !! indsToKeepFile p = Some indsToKeep →
  lChrs p = chrNb :: chrs →
  fs !! hmFile (inPattern p) chrNb = Some content →
  main writable fs p = (Some out, r) →
  ∃ lIndsToKeep hdr rows,
    loadFileWithListOfIndsToKeep fs (indsToKeepFile p) = Ok lIndsToKeep ∧
    (∀ t, t ∈ lIndsToKeep ↔ ∃ c, t +:+ String c "" ∈ Py.readlines indsToKeep) ∧
    out = hdr :: rows ∧
    Py.split hdr =
      ["chr"; "id"; "coord"; "a1"; "a2"] ++
      filter (λ t, t ∈ lIndsToKeep)
        (drop 11 (Py.split (Py.rstrip (Py.readline content).1))).
Proof.
  intros Hpath Hinds Hchrs Hfs Hmain.
  apply main_out in Hmain as (ign & d & inds & _ & _ & Hload & Hout).
  rewrite Hchrs, Hfs in Hout. destruct Hout as (rows & -> & _).
  exists inds. eexists _, rows. split_and!; try done.
  - unfold loadFileWithListOfIndsToKeep, open in Hload.
    rewrite decide_True, Hinds in Hload by done. cbn [mbind result_bind] in Hload.
    injection Hload as <-. apply load_lines_readlines.
  - rewrite split_header_line by apply header_names_tokens. done.
Qed.

Lemma C7_header_individuals_witness :
  ∃ lIndsToKeep hdr rows,
    loadFileWithListOfIndsToKeep sample_fs "keep.txt" = Ok lIndsToKeep ∧
    (∀ t, t ∈ lIndsToKeep
          ↔ ∃ c, t +:+ String c "" ∈ Py.readlines (concat_str [ln "NA2"; ln "NA7"])) ∧
    [ln "chr id coord a1 a2 NA2"; ln "chr1 rs1 100 A G 0 1 0";
     ln "chr1 rs2 200 C T 0 0 0"] = hdr :: rows ∧
    Py.split hdr =
      ["chr"; "id"; "coord"; "a1"; "a2"] ++
      filter (λ t, t ∈ lIndsToKeep)
        (drop 11 (Py.split (Py.rstrip (Py.readline sample_chr1).1))).
Proof.
  apply (C7_header_individuals sample_writable sample_fs
           (Params "in_CHR.gz" "out.gz" [1%Z] "" "" "keep.txt")
           (concat_str [ln "NA2"; ln "NA7"]) 1 [] sample_chr1 _ (Ok tt)).
  - simpl. discriminate.
  - vm_compute. reflexivity.
  - reflexivity.
  - vm_compute. reflexivity.
  - vm_compute. reflexivity.
Defined.

(** C8.  Adding to an exclusion-list or inclusion-list file, at a line
    boundary, a line that already stands among the complete lines before
    that place never is an error and leaves the loaded list as it was, so
    every membership test gives the same result. *)
Theorem C8_duplicate_lines_collapse fs path ls dup rest :
  path ≠ "" →
  forallb is_line ls = true →
  dup ∈ ls →
  ∃ l,
    loadFileWithListOfSnpsToIgnore (<[path := concat_str ls +:+ rest]> fs) path = Ok l ∧
    loadFileWithListOfSnpsToIgnore (<[path := concat_str ls +:+ dup +:+ rest]> fs) path
    = Ok l ∧
    loadFileWithListOfIndsToKeep (<[path := concat_str ls +:+ rest]> fs) path = Ok l ∧
    loadFileWithListOfIndsToKeep (<[path := concat_str ls +:+ dup +:+ rest]> fs) path
    = Ok l.
Proof.
  intros Hpath Hls Hdup.
  assert (is_line dup = true) as Hline.
  { apply forallb_Forall in Hls. rewrite Forall_forall in Hls. by apply Hls. }
  exists (load_lines (ls ++ Py.readlines rest) []).
  unfold loadFileWithListOfSnpsToIgnore, loadFileWithListOfIndsToKeep, open.
  rewrite !decide_True, !lookup_insert_eq by done. cbn [mbind result_bind].
  rewrite !readlines_concat_str_app, readlines_line by done.
  by rewrite load_lines_dup.
Qed.

Lemma C8_duplicate_lines_witness :
  ∃ l,
    loadFileWithListOfSnpsToIgnore
      (<["ignore.txt" := concat_str [ln "rs1"; ln "rs2"] +:+ ln "rs3"]> sample_fs)
      "ignore.txt" = Ok l ∧
    loadFileWithListOfSnpsToIgnore
      (<["ignore.txt" := concat_str [ln "rs1"; ln "rs2"] +:+ ln "rs1" +:+ ln "rs3"]>
         sample_fs)
      "ignore.txt" = Ok l ∧
    loadFileWithListOfIndsToKeep
      (<["ignore.txt" := concat_str [ln "rs1"; ln "rs2"] +:+ ln "rs3"]> sample_fs)
      "ignore.txt" = Ok l ∧
    loadFileWithListOfIndsToKeep
      (<["ignore.txt" := concat_str [ln "rs1"; ln "rs2"] +:+ ln "rs1" +:+ ln "rs3"]>
         sample_fs)
      "ignore.txt" = Ok l.
Proof.
  apply (C8_duplicate_lines_collapse sample_fs "ignore.txt"
           [ln "rs1"; ln "rs2"] (ln "rs1") (ln "rs3")).
  - discriminate.
  - vm_compute. reflexivity.
  - apply list_elem_of_here.
Defined.

(** C9.  Both list loaders store, for every line read, the line without
    its last character: an identifier is in the loaded list exactly when
    it is some line read with the last character taken off.  So when the
    last line of the file has no terminator, it is stored short of its own
    last character, and the identifier as written is in the list only if a
    complete line of the file names it too. *)
Theorem C9_stored_identifier_lacks_last_character fs path content :
  path ≠ "" →
  fs !! path = Some content →
  ∃ l,
    loadFileWithListOfSnpsToIgnore fs path = Ok l ∧
    loadFileWithListOfIndsToKeep fs path = Ok l ∧
    (∀ x, x ∈ l ↔ ∃ c, x +:+ String c "" ∈ Py.readlines content) ∧
    (∀ ls t c,
       content = concat_str ls +:+ t +:+ String c "" →
       forallb is_line ls = true →
       all_chars not_LF (t +:+ String c "") = true →
       t ∈ l ∧
       (t +:+ String c "" ∈ l → (t +:+ String c "") +:+ String Py.LF "" ∈ ls)).
Proof.
  intros Hpath Hfs. exists (load_lines (Py.readlines content) []).
  unfold loadFileWithListOfSnpsToIgnore, loadFileWithListOfIndsToKeep, open.
  rewrite !decide_True, Hfs by done. cbn [mbind result_bind].
  pose proof (load_lines_readlines content) as Hmem.
  split_and!; try done.
  intros ls t c -> Hls Hlast.
  assert (Py.readlines (concat_str ls +:+ t +:+ String c "")
          = ls ++ [t +:+ String c ""]) as Hlines.
  { rewrite readlines_concat_str_app by done. f_equal.
    apply readlines_unterminated; [|done]. by intros [_ ?]%str_app_eq_nil. }
  split.
  - apply Hmem. exists c. rewrite Hlines, elem_of_app, list_elem_of_singleton. by right.
  - intros [c' Hc']%Hmem. rewrite Hlines, elem_of_app, list_elem_of_singleton in Hc'.
    destruct Hc' as [Hin|Heq].
    + apply forallb_Forall in Hls. rewrite Forall_forall in Hls.
      destruct (proj1 (is_line_spec _) (Hls _ Hin)) as (b & Hb & _).
      apply snoc_inj in Hb as [_ ->]. done.
    + exfalso. apply (f_equal String.length) in Heq.
      rewrite !str_app_length in Heq. simpl in Heq. lia.
Qed.

Lemma C9_stored_identifier_witness :
  ∃ l,
    loadFileWithListOfSnpsToIgnore {[ "ignore.txt" := ln "rs1" +:+ "rs2" ]} "ignore.txt"
    = Ok l ∧
    loadFileWithListOfIndsToKeep {[ "ignore.txt" := ln "rs1" +:+ "rs2" ]} "ignore.txt"
    = Ok l ∧
    (∀ x, x ∈ l ↔ ∃ c, x +:+ String c "" ∈ Py.readlines (ln "rs1" +:+ "rs2")) ∧
    (∀ ls t c,
       ln "rs1" +:+ "rs2" = concat_str ls +:+ t +:+ String c "" →
       forallb is_line ls = true →
       all_chars not_LF (t +:+ String c "") = true →
       t ∈ l ∧
       (t +:+ String c "" ∈ l → (t +:+ String c "") +:+ String Py.LF "" ∈ ls)).
Proof.
  apply (C9_stored_identifier_lacks_last_character
           {[ "ignore.txt" := ln "rs1" +:+ "rs2" ]} "ignore.txt").
  - discriminate.
  - vm_compute. reflexivity.
Defined.

(** C10.  The test for a heterozygous call comes before the test for a
    call equal to a2+a2: when a1 and a2 differ and a1 occurs in a2, a
    kept call equal to a2+a2 is written as 0 1 0 (the specification's
    cascade gives (0,1,0) as well), not as 0 0 1. *)
Theorem C10_heterozygous_test_first lToks lColIdxToKeep a1 a2 i txt :
  a1 ≠ a2 →
  is_substring a1 a2 →
  i ∈ lColIdxToKeep →
  lToks !! i = Some (a2 +:+ a2) →
  row_calls lToks lColIdxToKeep a1 a2 [i] txt = Ok (txt +:+ " 0 1 0") ∧
  row_calls lToks lColIdxToKeep a1 a2 [i] txt ≠ Ok (txt +:+ " 0 0 1") ∧
  dosage a1 a2 (a2 +:+ a2) = (0, 1, 0).
Proof.
  intros Hne (x & y & Hsub) Hi Hcall.
  assert (dosage a1 a2 (a2 +:+ a2) = (0, 1, 0)) as Hdos.
  { unfold dosage. rewrite decide_False.
    - rewrite decide_True; [done|]. split.
      + exists x, (y +:+ a2). by rewrite Hsub at 1; rewrite !str_app_assoc.
      + by exists "", a2.
    - intros Heq. apply Hne.
      assert (String.length a2 = String.length a1) as Hlen.
      { apply (f_equal String.length) in Heq. rewrite !str_app_length in Heq. lia. }
      symmetry. by destruct (str_app_inj_length _ _ _ _ Hlen Heq). }
  assert (row_calls lToks lColIdxToKeep a1 a2 [i] txt = Ok (txt +:+ " 0 1 0")) as Hrow.
  { rewrite row_calls_spec.
    - rewrite filter_cons_True, filter_nil by done. cbn [fmap list_fmap concat_str foldr].
      rewrite (list_lookup_total_correct _ _ _ Hcall), Hdos. by rewrite str_app_nil_r.
    - apply Forall_singleton. by eapply lookup_lt_Some. }
  split_and!; try done.
  rewrite Hrow. intros [= Heq]. apply (inj (String.app txt)) in Heq. done.
Qed.

Lemma C10_heterozygous_test_witness :
  row_calls (replicate 11 "x" ++ ["ATAT"]) [11] "A" "AT" [11] "chr1 rs9 5 A AT"
  = Ok ("chr1 rs9 5 A AT" +:+ " 0 1 0") ∧
  row_calls (replicate 11 "x" ++ ["ATAT"]) [11] "A" "AT" [11] "chr1 rs9 5 A AT"
  ≠ Ok ("chr1 rs9 5 A AT" +:+ " 0 0 1") ∧
  dosage "A" "AT" ("AT" +:+ "AT") = (0, 1, 0).
Proof.
  apply (C10_heterozygous_test_first (replicate 11 "x" ++ ["ATAT"]) [11] "A" "AT" 11).
  - discriminate.
  - exists "", "T". reflexivity.
  - apply list_elem_of_here.
  - reflexivity.
Defined.

(** * Further properties *)

Example setParams_ex :
  setParamsFromCmdLine int_of_digits sample_exists
    (GetoptOk [("-i", "in_CHR.gz"); ("--output", "out.gz"); ("-c", "1-17-3");
               ("-n", "keep.txt"); ("-v", "0")] [])
  = Ok (Params "in_CHR.gz" "out.gz" [1; 17; 3]%Z "" "" "keep.txt", 0%Z) ∧
  setParamsFromCmdLine int_of_digits sample_exists
    (GetoptOk [("-i", "in_CHR.gz"); ("-o", "out.gz")] [])
  = Ok (Params "in_CHR.gz" "out.gz" (Z.of_nat <$> seq 1 22) "" "" "", 1%Z) ∧
  setParamsFromCmdLine int_of_digits sample_exists
    (GetoptOk [("-i", "in_CHR.gz"); ("-o", "out.gz"); ("-s", "none.txt")] [])
  = Raise (SystemExit 1) ∧
  setParamsFromCmdLine int_of_digits sample_exists
    (GetoptOk [("-c", "1-"); ("-h", "")] [])
  = Raise ValueError.
Proof. by vm_compute. Qed.

(** A path that exists need not open: the directory [dir] passes the
    check of [setParamsFromCmdLine], and [open] then stops the run; and
    an output path that cannot be opened stops it after the loaders. *)
Example unreadable_ex :
  setParamsFromCmdLine int_of_digits sample_exists
    (GetoptOk [("-i", "in_CHR.gz"); ("-o", "out.gz"); ("-s", "dir")] [])
  = Ok (Params "in_CHR.gz" "out.gz" (Z.of_nat <$> seq 1 22) "" "dir" "", 1%Z) ∧
  main sample_writable sample_fs (Params "in_CHR.gz" "out.gz" [1%Z] "" "dir" "")
  = (None, Raise IOError) ∧
  main sample_writable sample_fs (Params "in_CHR.gz" "dir" [1%Z] "" "" "")
  = (None, Raise IOError).
Proof. by vm_compute. Qed.

(** ** The list loaders, in full *)

Section loaders_more.
Implicit Types lines acc : list string.

Lemma filter_filter_ne (acc : list string) x (l : list string) :
  x ∈ acc →
  filter (λ y, y ∉ acc) (filter (λ y, y ≠ x) l) = filter (λ y, y ∉ acc) l.
Proof.
  intros Hx. apply list_filter_filter_l. by intros y Hy ->.
Qed.

Lemma load_lines_first_occurrences lines acc :
  load_lines lines acc
  = acc ++ filter (λ y, y ∉ acc) (first_occurrences (Py.slice_to_last <$> lines)).
Proof.
  revert acc. induction lines as [|line lines IH]; intros acc.
  { simpl. by rewrite filter_nil, app_nil_r. }
  cbn [load_lines fmap list_fmap first_occurrences]. unfold Py.list_in.
  rewrite filter_cons.
  destruct (decide (Py.slice_to_last line ∈ acc)) as [Hin|Hin].
  - rewrite bool_decide_eq_true_2 by done. cbn [negb].
    rewrite decide_False by (intros Hn; by apply Hn).
    rewrite IH. by rewrite filter_filter_ne.
  - rewrite bool_decide_eq_false_2 by done. cbn [negb].
    rewrite decide_True by done.
    rewrite IH, <-(assoc_L (++)). cbn [app]. do 2 f_equal.
    rewrite list_filter_filter. apply filter_ext_in. intros y _.
    rewrite elem_of_app, list_elem_of_singleton. tauto.
Qed.

Lemma first_occurrences_NoDup (l : list string) : NoDup (first_occurrences l).
Proof.
  induction l as [|x l IH]; [constructor|]. cbn [first_occurrences].
  constructor.
  - rewrite list_elem_of_filter. tauto.
  - by apply NoDup_filter.
Qed.

Lemma first_occurrences_elem (l : list string) x : x ∈ first_occurrences l ↔ x ∈ l.
Proof.
  induction l as [|y l IH]; [done|]. cbn [first_occurrences].
  rewrite !elem_of_cons, list_elem_of_filter, IH.
  destruct (decide (x = y)); tauto.
Qed.

End loaders_more.

(** X1.  Both list loaders return the lines read, each without its last
    character, at their first occurrence and in the order of the file:
    the list has no repetition and holds every such identifier. *)
Theorem X1_loaders_first_occurrences fs path content :
  path ≠ "" →
  fs !! path = Some content →
  ∃ l,
    loadFileWithListOfSnpsToIgnore fs path = Ok l ∧
    loadFileWithListOfIndsToKeep fs path = Ok l ∧
    l = first_occurrences (Py.slice_to_last <$> Py.readlines content) ∧
    NoDup l ∧
    ∀ line, line ∈ Py.readlines content → Py.slice_to_last line ∈ l.
Proof.
  intros Hpath Hfs. eexists. 
  unfold loadFileWithListOfSnpsToIgnore, loadFileWithListOfIndsToKeep, open.
  rewrite !decide_True, Hfs by done. cbn [mbind result_bind].
  rewrite load_lines_first_occurrences. cbn [app].
  assert (∀ l : list string, filter (λ y, y ∉ []) l = l) as Hall.
  { intros l. induction l as [|x l IH]; [done|].
    rewrite filter_cons_True by apply not_elem_of_nil. by rewrite IH. }
  rewrite Hall. split_and!; try done.
  - apply first_occurrences_NoDup.
  - intros line Hline. apply first_occurrences_elem. by apply list_elem_of_fmap_2.
Qed.

Lemma X1_loaders_witness :
  ∃ l,
    loadFileWithListOfSnpsToIgnore
      {[ "ignore.txt" := concat_str [ln "rs2"; ln "rs1"; ln "rs2"; ln "rs3"; "rs1"] ]}
      "ignore.txt" = Ok l ∧
    loadFileWithListOfIndsToKeep
      {[ "ignore.txt" := concat_str [ln "rs2"; ln "rs1"; ln "rs2"; ln "rs3"; "rs1"] ]}
      "ignore.txt" = Ok l ∧
    l = first_occurrences
          (Py.slice_to_last
             <$> Py.readlines (concat_str [ln "rs2"; ln "rs1"; ln "rs2"; ln "rs3"; "rs1"])) ∧
    NoDup l ∧
    ∀ line,
      line ∈ Py.readlines (concat_str [ln "rs2"; ln "rs1"; ln "rs2"; ln "rs3"; "rs1"]) →
      Py.slice_to_last line ∈ l.
Proof.
  apply (X1_loaders_first_occurrences
           {[ "ignore.txt" := concat_str [ln "rs2"; ln "rs1"; ln "rs2"; ln "rs3"; "rs1"] ]}
           "ignore.txt").
  - discriminate.
  - vm_compute. reflexivity.
Defined.

Example first_occurrences_ex :
  first_occurrences ["rs2"; "rs1"; "rs2"; "rs3"; "rs"] = ["rs2"; "rs1"; "rs3"; "rs"].
Proof. by vm_compute. Qed.

(** ** The coordinate loader, in full *)

Section coordinates_more.
Implicit Types d : gmap string string.
Implicit Types lines : list string.

Lemma snpCoord_lines_app lSnpsToIgnore lines1 lines2 d :
  snpCoord_lines lSnpsToIgnore (lines1 ++ lines2) d
  = (d1 ← snpCoord_lines lSnpsToIgnore lines1 d;
     snpCoord_lines lSnpsToIgnore lines2 d1).
Proof.
  revert d. induction lines1 as [|l lines1 IH]; intros d; [done|].
  cbn [app snpCoord_lines].
  destruct (getitem _ 3) as [tok3|]; cbn [mbind result_bind]; [|done].
  destruct (Py.list_in tok3 lSnpsToIgnore); [by apply IH|].
  case_decide; [done|].
  destruct (getitem _ 2) as [tok2|]; cbn [mbind result_bind]; [|done].
  by apply IH.
Qed.

(** The only errors of the loop. *)
Lemma snpCoord_lines_errors lSnpsToIgnore lines d e :
  snpCoord_lines lSnpsToIgnore lines d = Raise e →
  e = SystemExit 1 ∨ e = IndexError.
Proof.
  revert d. induction lines as [|l lines IH]; intros d; [done|].
  cbn [snpCoord_lines]. unfold getitem.
  destruct (_ !! 3) as [tok3|]; cbn [mbind result_bind]; [|intros [= <-]; by right].
  destruct (Py.list_in tok3 lSnpsToIgnore); [by apply IH|].
  case_decide; [intros [= <-]; by left|].
  destruct (_ !! 2) as [tok2|]; cbn [mbind result_bind]; [|intros [= <-]; by right].
  by apply IH.
Qed.

(** One step of the loop when it goes on. *)
Lemma snpCoord_lines_cons_Ok lSnpsToIgnore line lines d d' :
  snpCoord_lines lSnpsToIgnore (line :: lines) d = Ok d' →
  ∃ m c,
    marker line = Some m ∧ new_coord line = Some c ∧
    if decide (m ∈ lSnpsToIgnore)
    then snpCoord_lines lSnpsToIgnore lines d = Ok d'
    else d !! m = None ∧ snpCoord_lines lSnpsToIgnore lines (<[m := c]> d) = Ok d'.
Proof.
  cbn [snpCoord_lines]. unfold getitem, marker, new_coord, Py.list_in.
  destruct (Py.split (Py.slice_to_last line) !! 3) as [m|] eqn:H3;
    cbn [mbind result_bind]; [|done].
  destruct (lookup_lt_is_Some_2 (Py.split (Py.slice_to_last line)) 2) as [c H2].
  { apply lookup_lt_Some in H3. lia. }
  rewrite H2. intros Hd'. exists m, c. split_and!; try done.
  destruct (decide (m ∈ lSnpsToIgnore)).
  - by rewrite bool_decide_eq_true_2 in Hd'.
  - rewrite bool_decide_eq_false_2 in Hd' by done.
    case_decide as Hk; [done|]. split; [|done].
    by apply eq_None_not_Some.
Qed.

Lemma snpCoord_lines_preserved lSnpsToIgnore lines d d' m c :
  snpCoord_lines lSnpsToIgnore lines d = Ok d' →
  d !! m = Some c → d' !! m = Some c.
Proof.
  revert d. induction lines as [|line lines IH]; intros d Hd' Hm.
  { by injection Hd' as <-. }
  apply snpCoord_lines_cons_Ok in Hd' as (k & v & _ & _ & Hstep).
  destruct (decide (k ∈ lSnpsToIgnore)).
  - by eapply IH.
  - destruct Hstep as [Hk Hstep]. eapply IH; [done|].
    rewrite lookup_insert_ne; [done|]. intros ->. congruence.
Qed.

Lemma snpCoord_lines_lookup lSnpsToIgnore lines d d' m c :
  snpCoord_lines lSnpsToIgnore lines d = Ok d' →
  d' !! m = Some c ↔
  d !! m = Some c ∨
  ((m ∉ lSnpsToIgnore) ∧
   ∃ line, line ∈ lines ∧ marker line = Some m ∧ new_coord line = Some c).
Proof.
  revert d. induction lines as [|line lines IH]; intros d Hd'.
  { injection Hd' as <-. split; [by left|]. intros [?|(_ & l & []%elem_of_nil & _)]. done. }
  pose proof Hd' as Hfull.
  apply snpCoord_lines_cons_Ok in Hd' as (k & v & Hk & Hv & Hstep).
  destruct (decide (k ∈ lSnpsToIgnore)) as [Hign|Hign].
  - rewrite (IH _ Hstep). split.
    + intros [?|(Hm & l & Hl & ?)]; [by left|]. right. split; [done|].
      exists l. split; [by right|done].
    + intros [?|(Hm & l & Hl & Hlm & Hlc)]; [by left|]. right. split; [done|].
      exists l. split; [|done]. apply elem_of_cons in Hl as [->|Hl]; [|done].
      congruence.
  - destruct Hstep as [Hfresh Hstep]. rewrite (IH _ Hstep). split.
    + intros [Hins|(Hm & l & Hl & ?)].
      * destruct (decide (k = m)) as [->|Hne].
        -- rewrite lookup_insert_eq in Hins. injection Hins as ->.
           right. split; [done|]. exists line. split; [by left|done].
        -- rewrite lookup_insert_ne in Hins by done. by left.
      * right. split; [done|]. exists l. split; [by right|done].
    + intros [Hm|(Hm & l & Hl & Hlm & Hlc)].
      * left. rewrite lookup_insert_ne; [done|]. intros ->. congruence.
      * apply elem_of_cons in Hl as [->|Hl].
        -- left. assert (k = m) as -> by congruence.
           assert (v = c) as -> by congruence. by rewrite lookup_insert_eq.
        -- right. split; [done|]. by exists l.
Qed.

End coordinates_more.

(** X2.  The lines of the coordinate file are taken as the program reads
    them, each without its last character ([line[:-1]]; for a line that
    ends with a newline its fields are those of the line itself, lemma
    [split_slice_line]).  When the coordinate file loads, the dictionary
    maps a marker to a coordinate exactly when the marker is not in the
    exclusion list and some line so taken has it as field 3 and the
    coordinate as field 2; a marker of the exclusion list is never a
    key. *)
Theorem X2_coordinates_lookup fs snpCoordFile lSnpsToIgnore content d :
  snpCoordFile ≠ "" →
  fs !! snpCoordFile = Some content →
  getNewSnpCoordinates fs snpCoordFile lSnpsToIgnore = Ok d →
  (∀ m c,
     d !! m = Some c ↔
     (m ∉ lSnpsToIgnore) ∧
     ∃ line, line ∈ Py.readlines content ∧
             marker line = Some m ∧ new_coord line = Some c) ∧
  (∀ m, m ∈ lSnpsToIgnore → d !! m = None).
Proof.
  intros Hpath Hfs. unfold getNewSnpCoordinates, open.
  rewrite decide_True, Hfs by done. cbn [mbind result_bind]. intros Hd.
  assert (∀ m c,
            d !! m = Some c ↔
            (m ∉ lSnpsToIgnore) ∧
            ∃ line, line ∈ Py.readlines content ∧
                    marker line = Some m ∧ new_coord line = Some c) as Hlk.
  { intros m c. rewrite (snpCoord_lines_lookup _ _ _ _ m c Hd), lookup_empty.
    split; [by intros [?|?]|by right]. }
  split; [done|]. intros m Hm. apply eq_None_not_Some. intros [c Hc].
  apply Hlk in Hc as [Hn _]. done.
Qed.

Lemma X2_coordinates_witness :
  (∀ m c,
     ({[ "rs2" := "250" ]} : gmap string string) !! m = Some c ↔
     (m ∉ ["rs1"]) ∧
     ∃ line, line ∈ Py.readlines (concat_str [ln "chr1 149 150 rs1"; ln "chr1 249 250 rs2"]) ∧
             marker line = Some m ∧ new_coord line = Some c) ∧
  (∀ m, m ∈ ["rs1"] → ({[ "rs2" := "250" ]} : gmap string string) !! m = None).
Proof.
  apply (X2_coordinates_lookup
           {[ "c.bed.gz" := concat_str [ln "chr1 149 150 rs1"; ln "chr1 249 250 rs2"] ]}
           "c.bed.gz" ["rs1"]).
  - discriminate.
  - vm_compute. reflexivity.
  - vm_compute. reflexivity.
Defined.

Section coordinates_count.
Implicit Types d : gmap string string.
Implicit Types lines : list string.

Lemma snpCoord_lines_Ok_four_fields lSnpsToIgnore lines d d' :
  snpCoord_lines lSnpsToIgnore lines d = Ok d' →
  forallb four_fields lines = true.
Proof.
  revert d. induction lines as [|line lines IH]; intros d Hd'; [done|].
  cbn [forallb]. apply andb_true_iff.
  apply snpCoord_lines_cons_Ok in Hd' as (k & v & Hk & _ & Hstep). split.
  - unfold four_fields. apply bool_decide_eq_true. unfold marker in Hk.
    apply lookup_lt_Some in Hk. lia.
  - destruct (decide (k ∈ lSnpsToIgnore)); [by eapply IH|].
    destruct Hstep as [_ Hstep]. by eapply IH.
Qed.

Lemma snpCoord_lines_size lSnpsToIgnore lines d d' :
  snpCoord_lines lSnpsToIgnore lines d = Ok d' →
  size d' = size d + length (filter (λ l, coord_line_kept lSnpsToIgnore l = true) lines).
Proof.
  revert d. induction lines as [|line lines IH]; intros d Hd'.
  { injection Hd' as <-. rewrite filter_nil. simpl. lia. }
  apply snpCoord_lines_cons_Ok in Hd' as (k & v & Hk & _ & Hstep).
  assert (coord_line_kept lSnpsToIgnore line = negb (bool_decide (k ∈ lSnpsToIgnore)))
    as Hkept by (unfold coord_line_kept; by rewrite Hk).
  destruct (decide (k ∈ lSnpsToIgnore)).
  - rewrite bool_decide_eq_true_2 in Hkept by done.
    rewrite filter_cons_False by (rewrite Hkept; done). by apply IH.
  - rewrite bool_decide_eq_false_2 in Hkept by done.
    rewrite filter_cons_True by done. destruct Hstep as [Hfresh Hstep].
    rewrite (IH _ Hstep), map_size_insert_None by done. simpl. lia.
Qed.

End coordinates_count.

(** X3.  The lines of the coordinate file are taken as the program reads
    them, each without its last character ([line[:-1]]).  When the
    coordinate file loads, no marker outside the exclusion list is field
    3 of two lines so taken, every line so taken has four fields or
    more, and the dictionary has one entry per line whose field 3, so
    taken, is a marker outside the exclusion list (the count the program
    prints). *)
Theorem X3_coordinates_loaded_distinct fs snpCoordFile lSnpsToIgnore content d :
  snpCoordFile ≠ "" →
  fs !! snpCoordFile = Some content →
  getNewSnpCoordinates fs snpCoordFile lSnpsToIgnore = Ok d →
  (∀ i j li lj m,
     i < j →
     Py.readlines content !! i = Some li → Py.readlines content !! j = Some lj →
     marker li = Some m → marker lj = Some m → m ∈ lSnpsToIgnore) ∧
  forallb four_fields (Py.readlines content) = true ∧
  size d = length (filter (λ l, coord_line_kept lSnpsToIgnore l = true)
                     (Py.readlines content)).
Proof.
  intros Hpath Hfs. unfold getNewSnpCoordinates, open.
  rewrite decide_True, Hfs by done. cbn [mbind result_bind]. intros Hd.
  pose proof (snpCoord_lines_Ok_four_fields _ _ _ _ Hd) as Hwf.
  split_and!; try done.
  - intros i j li lj m Hij Hi Hj Hli Hlj.
    destruct (decide (m ∈ lSnpsToIgnore)) as [|Hm]; [done|]. exfalso.
    rewrite (snpCoord_lines_twice _ _ _ m i j li lj Hwf Hm Hij Hi Hj Hli Hlj) in Hd.
    done.
  - rewrite (snpCoord_lines_size _ _ _ _ Hd), map_size_empty. done.
Qed.

Lemma X3_coordinates_loaded_witness :
  let content :=
    concat_str [ln "chr1 149 150 rs1"; ln "chr1 249 250 rs2"; ln "chr1 159 160 rs1";
                ln "chr1 349 350 rs3"] in
  (∀ i j li lj m,
     i < j →
     Py.readlines content !! i = Some li →
     Py.readlines content !! j = Some lj →
     marker li = Some m → marker lj = Some m → m ∈ ["rs1"]) ∧
  forallb four_fields (Py.readlines content) = true ∧
  size ({[ "rs2" := "250"; "rs3" := "350" ]} : gmap string string)
  = length (filter (λ l, coord_line_kept ["rs1"] l = true) (Py.readlines content)).
Proof.
  apply (X3_coordinates_loaded_distinct
           {[ "c.bed.gz" :=
                concat_str [ln "chr1 149 150 rs1"; ln "chr1 249 250 rs2";
                            ln "chr1 159 160 rs1"; ln "chr1 349 350 rs3"] ]}
           "c.bed.gz" ["rs1"]).
  - discriminate.
  - vm_compute. reflexivity.
  - vm_compute. reflexivity.
Defined.

Section coordinates_exclusion.
Implicit Types d : gmap string string.

Lemma snpCoord_lines_filter lSnpsToIgnore lines d d' :
  snpCoord_lines [] lines d = Ok d' →
  snpCoord_lines lSnpsToIgnore lines (filter (λ kv, kv.1 ∉ lSnpsToIgnore) d)
  = Ok (filter (λ kv, kv.1 ∉ lSnpsToIgnore) d').
Proof.
  revert d. induction lines as [|line lines IH]; intros d Hd'.
  { by injection Hd' as <-. }
  apply snpCoord_lines_cons_Ok in Hd' as (k & v & Hk & Hv & Hstep).
  rewrite decide_False in Hstep by apply not_elem_of_nil.
  destruct Hstep as [Hfresh Hstep].
  cbn [snpCoord_lines]. unfold marker in Hk. unfold new_coord in Hv.
  rewrite (getitem_lookup _ _ _ Hk). cbn [mbind result_bind]. unfold Py.list_in.
  specialize (IH _ Hstep).
  destruct (decide (k ∈ lSnpsToIgnore)) as [Hign|Hign].
  - rewrite bool_decide_eq_true_2 by done.
    rewrite map_filter_insert_False in IH by (simpl; tauto).
    by rewrite delete_id in IH.
  - rewrite bool_decide_eq_false_2 by done.
    rewrite decide_False.
    + rewrite (getitem_lookup _ _ _ Hv). cbn [mbind result_bind].
      by rewrite map_filter_insert_True in IH.
    + intros [c Hc]. apply map_lookup_filter_Some in Hc as [Hc _]. congruence.
Qed.

End coordinates_exclusion.

(** X4.  Excluding markers only takes entries out of the dictionary: when
    the coordinate file loads with no exclusion, it loads with any
    exclusion list, and gives the same dictionary without the keys that
    are in the list. *)
Theorem X4_exclusion_filters_coordinates fs snpCoordFile lSnpsToIgnore d :
  getNewSnpCoordinates fs snpCoordFile [] = Ok d →
  getNewSnpCoordinates fs snpCoordFile lSnpsToIgnore
  = Ok (filter (λ kv, kv.1 ∉ lSnpsToIgnore) d).
Proof.
  unfold getNewSnpCoordinates. case_decide.
  - destruct (open fs snpCoordFile) as [content|]; cbn [mbind result_bind]; [|done].
    intros Hd. apply (snpCoord_lines_filter lSnpsToIgnore) in Hd.
    by rewrite map_filter_empty in Hd.
  - intros [= <-]. by rewrite map_filter_empty.
Qed.

Lemma X4_exclusion_filters_witness :
  getNewSnpCoordinates
    {[ "c.bed.gz" := concat_str [ln "chr1 149 150 rs1"; ln "chr1 249 250 rs2"] ]}
    "c.bed.gz" ["rs1"]
  = Ok (filter (λ kv, kv.1 ∉ ["rs1"])
          ({[ "rs1" := "150"; "rs2" := "250" ]} : gmap string string)).
Proof.
  apply (X4_exclusion_filters_coordinates
           {[ "c.bed.gz" := concat_str [ln "chr1 149 150 rs1"; ln "chr1 249 250 rs2"] ]}
           "c.bed.gz" ["rs1"]).
  vm_compute. reflexivity.
Defined.

(** X5.  A line of the coordinate file with fewer than four fields (a
    blank line, say), met after lines that load, stops the run on
    [IndexError], whatever follows it, and the output file is not
    opened. *)
Theorem X5_short_coordinate_line writable fs p lSnpsToIgnore content pre bad post d :
  loadFileWithListOfSnpsToIgnore fs (snpIgnoreFile p) = Ok lSnpsToIgnore →
  snpCoordFile p ≠ "" →
  fs !! snpCoordFile p = Some content →
  Py.readlines content = pre ++ bad :: post →
  snpCoord_lines lSnpsToIgnore pre ∅ = Ok d →
  four_fields bad = false →
  getNewSnpCoordinates fs (snpCoordFile p) lSnpsToIgnore = Raise IndexError ∧
  main writable fs p = (None, Raise IndexError).
Proof.
  intros Hign Hpath Hfs Hlines Hpre Hbad.
  assert (getNewSnpCoordinates fs (snpCoordFile p) lSnpsToIgnore = Raise IndexError)
    as Hload.
  { unfold getNewSnpCoordinates, open. rewrite decide_True, Hfs by done.
    cbn [mbind result_bind]. rewrite Hlines, snpCoord_lines_app, Hpre.
    cbn [mbind result_bind snpCoord_lines]. unfold getitem.
    rewrite (lookup_ge_None_2 _ 3); [reflexivity|].
    unfold four_fields in Hbad. apply bool_decide_eq_false in Hbad. lia. }
  split; [done|]. unfold main. by rewrite Hign, Hload.
Qed.

Lemma X5_short_coordinate_line_witness :
  main sample_writable
    (<["c.bed.gz" := concat_str [ln "chr1 149 150 rs1"; ln ""; ln "chr1 149 150 rs1"]]>
       sample_fs)
    (Params "in_CHR.gz" "out.gz" [1%Z] "c.bed.gz" "" "")
  = (None, Raise IndexError).
Proof.
  refine (proj2 (X5_short_coordinate_line sample_writable
            (<["c.bed.gz" := concat_str [ln "chr1 149 150 rs1"; ln "";
                                         ln "chr1 149 150 rs1"]]> sample_fs)
            (Params "in_CHR.gz" "out.gz" [1%Z] "c.bed.gz" "" "")
            [] (concat_str [ln "chr1 149 150 rs1"; ln ""; ln "chr1 149 150 rs1"])
            [ln "chr1 149 150 rs1"] (ln "") [ln "chr1 149 150 rs1"]
            {[ "rs1" := "150" ]} _ _ _ _ _ _)).
  - reflexivity.
  - simpl. discriminate.
  - vm_compute. reflexivity.
  - vm_compute. reflexivity.
  - vm_compute. reflexivity.
  - vm_compute. reflexivity.
Defined.

(** ** The command line *)

Section cmdline.
Variable int : string → result Z.
Implicit Types opts : list (string * string).

Lemma last_cons_default (a : string) (l : list string) :
  last (a :: l) = Some (default a (last l)).
Proof.
  revert a. induction l as [|b l IH]; intros a; [done|].
  by rewrite last_cons_cons, IH.
Qed.

Lemma last_value_cons names o a opts :
  last_value names ((o, a) :: opts)
  = if decide (o ∈ names) then Some (default a (last_value names opts))
    else last_value names opts.
Proof.
  unfold last_value. rewrite filter_cons. cbn [fst].
  repeat case_decide; try done.
  rewrite fmap_cons. cbn [snd]. apply last_cons_default.
Qed.

Lemma map_int_length l ns : map_int int l = Ok ns → length ns = length l.
Proof.
  revert ns. induction l as [|a l IH]; intros ns; [by intros [= <-]|].
  cbn [map_int]. destruct (int a); cbn [mbind result_bind]; [|done].
  destruct (map_int int l); cbn [mbind result_bind]; [|done].
  intros [= <-]. simpl. by rewrite (IH _ eq_refl).
Qed.

Lemma split_sep_length sep s : 0 < length (Py.split_sep sep s).
Proof.
  induction s as [|c s IH]; simpl; [lia|].
  case_decide; simpl; [lia|]. destruct (Py.split_sep sep s); simpl; lia.
Qed.

(** Closes a goal in which an option name is in two of the lists of
    names. *)
Ltac names_clash :=
  exfalso;
  solve
    [ contradiction
    | repeat match goal with
      | H : _ ∈ _ :: _ |- _ => apply elem_of_cons in H; destruct H as [H|H]
      | H : _ ∈ [] |- _ => by apply elem_of_nil in H
      end; simplify_eq ].

(** What the loop over the options leaves, field by field. *)
Lemma set_opts_Ok opts p verbose p' verbose' :
  set_opts int opts p verbose = Ok (p', verbose') →
  last_value ["-h"; "--help"] opts = None ∧
  inPattern p' = default (inPattern p) (last_value ["-i"; "--input"] opts) ∧
  outFile p' = default (outFile p) (last_value ["-o"; "--output"] opts) ∧
  snpCoordFile p' = default (snpCoordFile p) (last_value ["-b"; "--bed"] opts) ∧
  snpIgnoreFile p' = default (snpIgnoreFile p) (last_value ["-s"; "--snp"] opts) ∧
  indsToKeepFile p' = default (indsToKeepFile p) (last_value ["-n"; "--na"] opts) ∧
  match last_value ["-c"; "--chr"] opts with
  | Some a => map_int int (Py.split_sep "-" a) = Ok (lChrs p')
  | None => lChrs p' = lChrs p
  end ∧
  match last_value ["-v"; "--verbose"] opts with
  | Some a => int a = Ok verbose'
  | None => verbose' = verbose
  end.
Proof.
  revert p verbose. induction opts as [|[o a] opts IH]; intros p verbose Hset.
  { injection Hset as <- <-. done. }
  cbn [set_opts] in Hset. rewrite !last_value_cons.
  repeat match type of Hset with
  | context [bool_decide (o ∈ ?l)] =>
      destruct (decide (o ∈ l));
      [rewrite (bool_decide_eq_true_2 (o ∈ l)) in Hset by done
      |rewrite (bool_decide_eq_false_2 (o ∈ l)) in Hset by done]
  | (_ ← int ?a; _) = _ =>
      destruct (int a) eqn:?; cbn [mbind result_bind] in Hset
  | (_ ← map_int int ?l; _) = _ =>
      destruct (map_int int l) eqn:?; cbn [mbind result_bind] in Hset
  end; try discriminate Hset;
  apply IH in Hset as (H1 & H2 & H3 & H4 & H5 & H6 & H7 & H8);
  cbn [inPattern outFile lChrs snpCoordFile snpIgnoreFile indsToKeepFile] in *;
  repeat match goal with
  | |- context [decide (o ∈ ?l)] =>
      destruct (decide (o ∈ l));
      [try names_clash|]
  end;
  split_and!; try done;
  repeat match goal with
  | |- context [last_value ?n opts] => destruct (last_value n opts)
  end; simpl in *; congruence.
Qed.

Lemma set_opts_app opts1 opts2 p verbose :
  set_opts int (opts1 ++ opts2) p verbose
  = ('(p1, verbose1) ← set_opts int opts1 p verbose;
     set_opts int opts2 p1 verbose1).
Proof.
  revert p verbose. induction opts1 as [|[o a] opts1 IH]; intros p verbose; [done|].
  cbn [app set_opts].
  repeat match goal with
  | |- context [bool_decide (o ∈ ?l)] =>
      destruct (bool_decide (o ∈ l)); [try done|]
  end; try apply IH.
  - destruct (int a); cbn [mbind result_bind]; [apply IH|done].
  - destruct (map_int int _); cbn [mbind result_bind]; [apply IH|done].
Qed.

Lemma load_path_Ok fs path :
  path = "" ∨ is_Some (fs !! path) →
  (∃ l, loadFileWithListOfSnpsToIgnore fs path = Ok l) ∧
  (∃ l, loadFileWithListOfIndsToKeep fs path = Ok l).
Proof.
  unfold loadFileWithListOfSnpsToIgnore, loadFileWithListOfIndsToKeep, open.
  intros [->|[content Hc]].
  - split; by eexists.
  - rewrite Hc. case_decide; split; by eexists.
Qed.

Lemma getNewSnpCoordinates_errors fs path lSnpsToIgnore e :
  path = "" ∨ is_Some (fs !! path) →
  getNewSnpCoordinates fs path lSnpsToIgnore = Raise e →
  e = SystemExit 1 ∨ e = IndexError.
Proof.
  unfold getNewSnpCoordinates, open. intros [->|[content Hc]]; [done|].
  rewrite Hc. case_decide; [|done]. cbn [mbind result_bind].
  apply snpCoord_lines_errors.
Qed.

(** What the checks after the loop leave. *)
Lemma setParamsFromCmdLine_Ok path_exists g p verbose :
  setParamsFromCmdLine int path_exists g = Ok (p, verbose) →
  ∃ opts args,
    g = GetoptOk opts args ∧
    set_opts int opts (Params "" "" (Z.of_nat <$> Py.range 1 23) "" "" "") 1%Z
    = Ok (p, verbose) ∧
    inPattern p ≠ "" ∧ outFile p ≠ "" ∧
    (snpIgnoreFile p = "" ∨ path_exists (snpIgnoreFile p) = true) ∧
    (snpCoordFile p = "" ∨ path_exists (snpCoordFile p) = true) ∧
    (indsToKeepFile p = "" ∨ path_exists (indsToKeepFile p) = true).
Proof.
  unfold setParamsFromCmdLine. destruct g as [|opts args]; [done|].
  destruct (set_opts int opts _ _) as [[p' verbose']|] eqn:Hset;
    cbn [mbind result_bind]; [|done].
  destruct (path_exists (snpIgnoreFile p')) eqn:Hign,
    (path_exists (snpCoordFile p')) eqn:Hcoord,
    (path_exists (indsToKeepFile p')) eqn:Hinds;
    repeat (case_bool_decide; cbn [negb andb]; try done).
  all: intros [= <- <-]; exists opts, args; split_and!; try done.
  all: try (by left); try (by right).
  all: match goal with
       | |- ?x = "" ∨ _ => destruct (decide (x = "")); [by left|done]
       end.
Qed.

End cmdline.

(** X6.  The parameters [setParamsFromCmdLine] returns name an input
    pattern, an output file and at least one chromosome, and every
    filter file they name passes [os.path.exists].  A path that exists
    need not open (a directory does not), so the check alone does not
    keep the loaders from [IOError].  When the filter paths that exist
    can be opened for reading, the two list loaders do not fail, and a
    run of [main] on these parameters that stops before the output is
    open stops on the coordinate file, with [sys.exit(1)] or
    [IndexError], or on the opening of the output, with [IOError]. *)
Theorem X6_checked_parameters int path_exists writable fs g p verbose :
  setParamsFromCmdLine int path_exists g = Ok (p, verbose) →
  (∀ path, path ∈ [snpIgnoreFile p; snpCoordFile p; indsToKeepFile p] →
           path_exists path = true → is_Some (fs !! path)) →
  inPattern p ≠ "" ∧ outFile p ≠ "" ∧ lChrs p ≠ [] ∧
  Forall (λ path, path = "" ∨ path_exists path = true)
    [snpIgnoreFile p; snpCoordFile p; indsToKeepFile p] ∧
  (∃ l, loadFileWithListOfSnpsToIgnore fs (snpIgnoreFile p) = Ok l) ∧
  (∃ l, loadFileWithListOfIndsToKeep fs (indsToKeepFile p) = Ok l) ∧
  (∀ r, main writable fs p = (None, r) →
        r = Raise (SystemExit 1) ∨ r = Raise IndexError ∨
        (r = Raise IOError ∧ writable (outFile p) = false)).
Proof.
  intros Hset Hopen.
  apply setParamsFromCmdLine_Ok in Hset
    as (opts & args & -> & Hset & Hin & Hout & Hign & Hcoord & Hinds).
  assert (∀ path, path ∈ [snpIgnoreFile p; snpCoordFile p; indsToKeepFile p] →
                  path = "" ∨ path_exists path = true →
                  path = "" ∨ is_Some (fs !! path)) as Hread.
  { intros path Hpath [->|Hex]; [by left|]. right. by apply Hopen. }
  assert (snpIgnoreFile p = "" ∨ is_Some (fs !! snpIgnoreFile p)) as Hign'.
  { apply Hread; [|done]. apply list_elem_of_here. }
  assert (snpCoordFile p = "" ∨ is_Some (fs !! snpCoordFile p)) as Hcoord'.
  { apply Hread; [|done]. apply list_elem_of_further, list_elem_of_here. }
  assert (indsToKeepFile p = "" ∨ is_Some (fs !! indsToKeepFile p)) as Hinds'.
  { apply Hread; [|done]. do 2 apply list_elem_of_further. apply list_elem_of_here. }
  destruct (load_path_Ok fs _ Hign') as [[lign Hlign] _].
  destruct (load_path_Ok fs _ Hinds') as [_ [linds Hlinds]].
  split_and!; try done; [| |by eexists|by eexists|].
  - apply set_opts_Ok in Hset as (_ & _ & _ & _ & _ & _ & Hchrs & _).
    destruct (last_value _ opts) as [a|].
    + apply map_int_length in Hchrs.
      pose proof (split_sep_length "-" a). destruct (lChrs p); [simpl in *; lia|done].
    + by rewrite Hchrs.
  - repeat (apply Forall_cons; split; [done|]). apply Forall_nil_2.
  - intros r. unfold main. rewrite Hlign.
    destruct (getNewSnpCoordinates _ _ _) as [d|e] eqn:Hd.
    + rewrite Hlinds. unfold open_w. destruct (writable (outFile p)).
      * by destruct (main_chrs _ _ _ _ _ _ _ _).
      * intros [= <-]. by right; right.
    + intros [= <-]. apply (getNewSnpCoordinates_errors _ _ _ _ Hcoord') in Hd.
      by destruct Hd as [->| ->]; [left|right; left].
Qed.

Lemma X6_checked_parameters_witness :
  let p := Params "in_CHR.gz" "out.gz" [1; 17; 3]%Z "twice.bed.gz" "" "keep.txt" in
  inPattern p ≠ "" ∧ outFile p ≠ "" ∧ lChrs p ≠ [] ∧
  Forall (λ path, path = "" ∨ sample_exists path = true)
    [snpIgnoreFile p; snpCoordFile p; indsToKeepFile p] ∧
  (∃ l, loadFileWithListOfSnpsToIgnore sample_fs (snpIgnoreFile p) = Ok l) ∧
  (∃ l, loadFileWithListOfIndsToKeep sample_fs (indsToKeepFile p) = Ok l) ∧
  (∀ r, main sample_writable sample_fs p = (None, r) →
        r = Raise (SystemExit 1) ∨ r = Raise IndexError ∨
        (r = Raise IOError ∧ sample_writable (outFile p) = false)).
Proof.
  apply (X6_checked_parameters int_of_digits sample_exists sample_writable sample_fs
           (GetoptOk [("-i", "in_CHR.gz"); ("--output", "out.gz"); ("-c", "1-17-3");
                      ("-n", "keep.txt"); ("--bed", "twice.bed.gz")] []) _ 1%Z).
  - vm_compute. reflexivity.
  - intros path Hpath Hex. cbn in Hpath.
    repeat (apply elem_of_cons in Hpath as [->|Hpath]).
    + vm_compute in Hex. discriminate.
    + vm_compute. eexists. reflexivity.
    + vm_compute. eexists. reflexivity.
    + by apply elem_of_nil in Hpath.
Defined.

(** X7.  When the options are accepted, none of them asks for the help,
    each path is the value of the last option that sets it, or empty when
    no option does, the chromosomes are the numbers read by [int] in the
    value of the last [-c] option cut at its hyphens, or 1 to 22 when
    there is none, and the verbosity is the last [-v] value, or 1. *)
Theorem X7_last_option_wins int path_exists opts args p verbose :
  setParamsFromCmdLine int path_exists (GetoptOk opts args) = Ok (p, verbose) →
  last_value ["-h"; "--help"] opts = None ∧
  inPattern p = default "" (last_value ["-i"; "--input"] opts) ∧
  outFile p = default "" (last_value ["-o"; "--output"] opts) ∧
  snpCoordFile p = default "" (last_value ["-b"; "--bed"] opts) ∧
  snpIgnoreFile p = default "" (last_value ["-s"; "--snp"] opts) ∧
  indsToKeepFile p = default "" (last_value ["-n"; "--na"] opts) ∧
  match last_value ["-c"; "--chr"] opts with
  | Some a => map_int int (Py.split_sep "-" a) = Ok (lChrs p)
  | None => lChrs p = Z.of_nat <$> seq 1 22
  end ∧
  match last_value ["-v"; "--verbose"] opts with
  | Some a => int a = Ok verbose
  | None => verbose = 1%Z
  end.
Proof.
  intros Hset.
  apply setParamsFromCmdLine_Ok in Hset as (opts' & args' & [= <- <-] & Hset & _).
  by apply set_opts_Ok in Hset.
Qed.

Lemma X7_last_option_wins_witness :
  let opts := [("-i", "x_CHR.gz"); ("-o", "out.gz"); ("-c", "2"); ("--input", "in_CHR.gz");
               ("--chr", "1-17-3"); ("-n", "keep.txt")] in
  let p := Params "in_CHR.gz" "out.gz" [1; 17; 3]%Z "" "" "keep.txt" in
  last_value ["-h"; "--help"] opts = None ∧
  inPattern p = default "" (last_value ["-i"; "--input"] opts) ∧
  outFile p = default "" (last_value ["-o"; "--output"] opts) ∧
  snpCoordFile p = default "" (last_value ["-b"; "--bed"] opts) ∧
  snpIgnoreFile p = default "" (last_value ["-s"; "--snp"] opts) ∧
  indsToKeepFile p = default "" (last_value ["-n"; "--na"] opts) ∧
  match last_value ["-c"; "--chr"] opts with
  | Some a => map_int int_of_digits (Py.split_sep "-" a) = Ok (lChrs p)
  | None => lChrs p = Z.of_nat <$> seq 1 22
  end ∧
  match last_value ["-v"; "--verbose"] opts with
  | Some a => int_of_digits a = Ok 1%Z
  | None => 1%Z = 1%Z
  end.
Proof.
  apply (X7_last_option_wins int_of_digits sample_exists _ []).
  vm_compute. reflexivity.
Defined.

(** X8.  An option that asks for the help ends the run with status 0 as
    soon as the loop reaches it, when the options before it are
    accepted: the options after it are not read and no check is made, so
    a missing input pattern or a missing file is not reported. *)
Theorem X8_help_exits_first int path_exists opts1 o a opts2 args p1 verbose1 :
  set_opts int opts1 (Params "" "" (Z.of_nat <$> Py.range 1 23) "" "" "") 1%Z
  = Ok (p1, verbose1) →
  o ∈ ["-h"; "--help"] →
  setParamsFromCmdLine int path_exists (GetoptOk (opts1 ++ (o, a) :: opts2) args)
  = Raise (SystemExit 0).
Proof.
  intros Hset Ho. unfold setParamsFromCmdLine.
  rewrite set_opts_app, Hset. cbn [mbind result_bind set_opts].
  by rewrite bool_decide_eq_true_2.
Qed.

Lemma X8_help_exits_first_witness :
  setParamsFromCmdLine int_of_digits sample_exists
    (GetoptOk ([("-v", "2"); ("-s", "none.txt")] ++ ("--help", "") :: [("-c", "x")]) [])
  = Raise (SystemExit 0).
Proof.
  apply (X8_help_exits_first int_of_digits sample_exists [("-v", "2"); ("-s", "none.txt")]
           "--help" "" [("-c", "x")] []
           (Params "" "" (Z.of_nat <$> Py.range 1 23) "" "none.txt" "") 2%Z).
  - vm_compute. reflexivity.
  - apply list_elem_of_further, list_elem_of_here.
Defined.

(** ** The rows written, in order *)

Section rows_in_order.
Implicit Types outH rows lines : list string.
Implicit Types d : gmap string string.

Lemma readlines_tail s : Py.readlines (Py.readline s).2 = tail (Py.readlines s).
Proof.
  rewrite (readlines_readline s). destruct (Py.readline s) as [l r] eqn:Hrl.
  destruct l; [|done]. by apply readline_nil in Hrl as [_ ->].
Qed.

Lemma convert_lines_app chrNb lSnpsToIgnore d lColIdxToKeep lines1 lines2 outH :
  convert_lines chrNb lSnpsToIgnore d lColIdxToKeep (lines1 ++ lines2) outH
  = match convert_lines chrNb lSnpsToIgnore d lColIdxToKeep lines1 outH with
    | (outH1, Ok _) =>
        convert_lines chrNb lSnpsToIgnore d lColIdxToKeep lines2 outH1
    | (outH1, Raise e) => (outH1, Raise e)
    end.
Proof.
  revert outH. induction lines1 as [|line lines1 IH]; intros outH; [done|].
  cbn [app convert_lines].
  by destruct (convert_line _ _ _ _ line) as [[s|]|e].
Qed.

(** A line that is skipped names an excluded marker. *)
Lemma convert_line_None chrNb lSnpsToIgnore d lColIdxToKeep line :
  convert_line chrNb lSnpsToIgnore d lColIdxToKeep line = Ok None →
  row_key lSnpsToIgnore chrNb line = None.
Proof.
  unfold convert_line, row_key, getitem.
  destruct (_ !! 0) as [snpId|]; cbn [mbind result_bind]; [|done].
  destruct (Py.list_in snpId lSnpsToIgnore); [done|].
  destruct (match d !! snpId with Some c => _ | None => _ end);
    cbn [mbind result_bind]; [|done].
  destruct (_ !! 1); cbn [mbind result_bind]; [|done].
  destruct (Py.split_sep _ _) as [|a1 [|a2 [|? ?]]]; try done.
  by destruct (row_calls _ _ _ _ _ _).
Qed.

(** The first two fields of a row written are the chromosome label and
    the marker of the line. *)
Lemma convert_line_key chrNb lSnpsToIgnore d lColIdxToKeep line row :
  map_Forall (λ _ v, is_token v = true) d →
  convert_line chrNb lSnpsToIgnore d lColIdxToKeep line = Ok (Some row) →
  row_key lSnpsToIgnore chrNb line = Some (take 2 (Py.split row)).
Proof.
  intros Hd Hrow.
  apply convert_line_Some in Hrow
    as (snpId & coord & alleles & a1 & a2 & H0 & Hign & Hcoord & H1 & Hsplit & ->).
  pose proof (split_tokens (Py.slice_to_last line)) as Htoks.
  rewrite Forall_forall in Htoks.
  assert (is_token snpId = true) as Hid by (by eapply Htoks, list_elem_of_lookup_2).
  assert (is_token coord = true) as Hc.
  { destruct (d !! snpId) as [c|] eqn:Hlk.
    - subst. by apply (Hd snpId).
    - by eapply Htoks, list_elem_of_lookup_2. }
  destruct (split_row_line chrNb snpId coord a1 a2
              ((λ i, dosage a1 a2 (Py.split (Py.slice_to_last line) !!! i))
                 <$> kept_columns lColIdxToKeep (Py.split (Py.slice_to_last line)))
              Hid Hc) as [rest ->].
  unfold row_key, Py.list_in. rewrite H0. by rewrite bool_decide_eq_false_2.
Qed.

Lemma convert_lines_Ok_keys chrNb lSnpsToIgnore d lColIdxToKeep lines outH out :
  map_Forall (λ _ v, is_token v = true) d →
  convert_lines chrNb lSnpsToIgnore d lColIdxToKeep lines outH = (out, Ok tt) →
  ∃ rows,
    out = outH ++ rows ∧
    (λ s, take 2 (Py.split s)) <$> rows = omap (row_key lSnpsToIgnore chrNb) lines.
Proof.
  intros Hd. revert outH. induction lines as [|line lines IH]; intros outH Hout.
  { injection Hout as <-. exists []. by rewrite app_nil_r. }
  cbn [convert_lines] in Hout. cbn [omap list_omap].
  destruct (convert_line _ _ _ _ line) as [[s|]|e] eqn:Hline; [| |done].
  - apply IH in Hout as (rows & -> & Hkeys).
    exists (s :: rows). split; [by rewrite <-(assoc_L (++))|].
    rewrite (convert_line_key _ _ _ _ _ _ Hd Hline), fmap_cons. by f_equal.
  - apply IH in Hout as (rows & -> & Hkeys).
    exists rows. split; [done|]. by rewrite (convert_line_None _ _ _ _ _ Hline).
Qed.

Lemma convertHapMapToImpute_Ok_keys fs inPattern chrNb lSnpsToIgnore d lIndsToKeep
    outH isFirstFile out :
  map_Forall (λ _ v, is_token v = true) d →
  convertHapMapToImpute fs inPattern chrNb lSnpsToIgnore d lIndsToKeep outH isFirstFile
  = (out, Ok tt) →
  ∃ hdr rows,
    out = outH ++ hdr ++ rows ∧
    length hdr = (if isFirstFile then 1 else 0) ∧
    (λ s, take 2 (Py.split s)) <$> rows
    = omap (row_key lSnpsToIgnore chrNb) (data_lines fs inPattern chrNb).
Proof.
  intros Hd. unfold convertHapMapToImpute, open, data_lines.
  destruct (fs !! hmFile inPattern chrNb) as [content|]; [|done].
  rewrite <-readlines_tail.
  destruct (Py.readline content) as [line rest]. rewrite convert_header_spec.
  cbn [snd]. intros Hout.
  apply (convert_lines_Ok_keys _ _ _ _ _ _ _ Hd) in Hout as (rows & -> & Hkeys).
  destruct isFirstFile.
  - eexists [_], rows. by rewrite <-(assoc_L (++)).
  - by exists [], rows.
Qed.

Lemma main_chrs_Ok_keys fs inPattern lSnpsToIgnore d lIndsToKeep chrs outH
    isFirstFile out :
  map_Forall (λ _ v, is_token v = true) d →
  main_chrs fs inPattern lSnpsToIgnore d lIndsToKeep chrs outH isFirstFile
  = (out, Ok tt) →
  ∃ hdr rows,
    out = outH ++ hdr ++ rows ∧
    length hdr = (if isFirstFile then length (take 1 chrs) else 0) ∧
    (λ s, take 2 (Py.split s)) <$> rows
    = chrs ≫= (λ chrNb, omap (row_key lSnpsToIgnore chrNb)
                            (data_lines fs inPattern chrNb)).
Proof.
  intros Hd. revert outH isFirstFile.
  induction chrs as [|chrNb chrs IH]; intros outH isFirstFile Hout.
  { injection Hout as <-. exists [], []. rewrite !app_nil_r. by destruct isFirstFile. }
  cbn [main_chrs] in Hout.
  destruct (convertHapMapToImpute _ _ _ _ _ _ _ _) as [outH1 [[]|e]] eqn:Hconv; [|done].
  apply (convertHapMapToImpute_Ok_keys _ _ _ _ _ _ _ _ _ Hd) in Hconv
    as (hdr & rows & -> & Hhdr & Hkeys).
  apply IH in Hout as (hdr' & rows' & -> & Hhdr' & Hkeys').
  destruct hdr' as [|? ?]; [|done].
  exists hdr, (rows ++ rows'). split_and!.
  - by rewrite <-!(assoc_L (++)).
  - by destruct isFirstFile.
  - rewrite fmap_app, Hkeys, Hkeys'. done.
Qed.

End rows_in_order.

(** X9.  In a run that completes, the data rows stand in the output in
    the order of the chromosome list and, within a chromosome, in the
    order of the lines of its file: after the header line there is one
    row for each data line whose marker is not excluded, in that order,
    headed by the chromosome label and the marker of the line. *)
Theorem X9_rows_in_input_order writable fs p lSnpsToIgnore out :
  loadFileWithListOfSnpsToIgnore fs (snpIgnoreFile p) = Ok lSnpsToIgnore →
  main writable fs p = (Some out, Ok tt) →
  length (take 1 out) = length (take 1 (lChrs p)) ∧
  (λ s, take 2 (Py.split s)) <$> drop 1 out
  = lChrs p ≫= (λ chrNb, omap (row_key lSnpsToIgnore chrNb)
                           (data_lines fs (inPattern p) chrNb)).
Proof.
  intros Hign. unfold main. rewrite Hign.
  destruct (getNewSnpCoordinates _ _ _) as [d|] eqn:Hd; [|done].
  destruct (loadFileWithListOfIndsToKeep _ _) as [inds|]; [|done].
  destruct (open_w writable (outFile p)); [|done].
  destruct (main_chrs _ _ _ _ _ _ _ _) as [outH r] eqn:Hmain.
  intros [= <- ->].
  apply getNewSnpCoordinates_tokens in Hd.
  apply (main_chrs_Ok_keys _ _ _ _ _ _ _ _ _ Hd) in Hmain
    as (hdr & rows & -> & Hhdr & Hkeys).
  cbn [app]. destruct (lChrs p) as [|chrNb chrs]; simpl in Hhdr.
  - destruct hdr; [|done]. apply fmap_nil_inv in Hkeys as ->. done.
  - by destruct hdr as [|h [|? ?]].
Qed.

Lemma X9_rows_in_input_order_witness :
  length (take 1 [ln "chr id coord a1 a2 NA2"; ln "chr2 rs3 300 A C 0 1 0";
                  ln "chr1 rs2 200 C T 0 0 0"])
  = length (take 1 [2%Z; 1%Z]) ∧
  (λ s, take 2 (Py.split s))
    <$> drop 1 [ln "chr id coord a1 a2 NA2"; ln "chr2 rs3 300 A C 0 1 0";
                ln "chr1 rs2 200 C T 0 0 0"]
  = [2%Z; 1%Z] ≫= (λ chrNb, omap (row_key ["rs1"] chrNb)
                             (data_lines sample_fs "in_CHR.gz" chrNb)).
Proof.
  apply (X9_rows_in_input_order sample_writable sample_fs
           (Params "in_CHR.gz" "out.gz" [2%Z; 1%Z] "" "ignore.txt" "keep.txt")).
  - vm_compute. reflexivity.
  - vm_compute. reflexivity.
Defined.

(** ** The fields of a data row *)

Section row_fields.
Implicit Types lToks : list string.

Lemma format_int_token n : is_token (Py.format_int n) = true.
Proof.
  destruct (format_int_cons n) as (c & f & Heq & Hc).
  apply is_token_spec. split; [by rewrite Heq|]. apply format_int_not_space.
Qed.

Lemma show_dosage_fields t :
  show_dosage t = concat_str ((λ n, " " +:+ n) <$> dosage_fields t).
Proof.
  destruct t as [[x y] z]. unfold show_dosage, dosage_fields.
  cbn [fmap list_fmap concat_str foldr]. by rewrite !str_app_assoc, str_app_nil_r.
Qed.

Lemma concat_str_show_dosage (triples : list (nat * nat * nat)) :
  concat_str (show_dosage <$> triples)
  = concat_str ((λ n, " " +:+ n) <$> (triples ≫= dosage_fields)).
Proof.
  induction triples as [|t triples IH]; [done|].
  rewrite fmap_cons. cbn [concat_str foldr]. fold (concat_str (show_dosage <$> triples)).
  rewrite IH, show_dosage_fields.
  change ((t :: triples) ≫= dosage_fields)
    with (dosage_fields t ++ (triples ≫= dosage_fields)).
  by rewrite fmap_app, concat_str_app.
Qed.

Lemma dosage_fields_tokens (triples : list (nat * nat * nat)) :
  Forall (λ n, is_token n = true) (triples ≫= dosage_fields).
Proof.
  induction triples as [|[[x y] z] triples IH]; [constructor|].
  change (((x, y, z) :: triples) ≫= dosage_fields)
    with (dosage_fields (x, y, z) ++ (triples ≫= dosage_fields)).
  apply Forall_app. split; [|done].
  repeat constructor; apply format_int_token.
Qed.

Lemma dosage_fields_length (triples : list (nat * nat * nat)) :
  length (triples ≫= dosage_fields) = 3 * length triples.
Proof.
  induction triples as [|[[x y] z] triples IH]; [done|].
  change (((x, y, z) :: triples) ≫= dosage_fields)
    with (dosage_fields (x, y, z) ++ (triples ≫= dosage_fields)).
  rewrite length_app, IH. simpl. lia.
Qed.

Lemma dosage_fields_bits a1 a2 (calls : list string) :
  Forall (λ f, f = "0" ∨ f = "1") ((dosage a1 a2 <$> calls) ≫= dosage_fields).
Proof.
  induction calls as [|call calls IH]; [constructor|].
  rewrite fmap_cons.
  change ((dosage a1 a2 call :: (dosage a1 a2 <$> calls)) ≫= dosage_fields)
    with (dosage_fields (dosage a1 a2 call) ++ ((dosage a1 a2 <$> calls) ≫= dosage_fields)).
  apply Forall_app. split; [|done]. unfold dosage.
  repeat case_decide; repeat constructor; (by left) || (by right).
Qed.

(** All the fields of a data row whose alleles are not empty. *)
Lemma split_row_line_all chrNb snpId coord a1 a2 triples :
  is_token snpId = true → is_token coord = true →
  is_token a1 = true → is_token a2 = true →
  Py.split (row_line chrNb snpId coord a1 a2 triples)
  = ("chr" +:+ Py.format_int chrNb) :: snpId :: coord :: a1 :: a2
    :: (triples ≫= dosage_fields).
Proof.
  intros Hid Hcoord H1 H2. unfold row_line.
  rewrite concat_str_show_dosage.
  pose proof (split_fields ("chr" +:+ Py.format_int chrNb)
                (snpId :: coord :: a1 :: a2 :: (triples ≫= dosage_fields))
                Py.LF "" (chr_token chrNb)) as Hsplit.
  rewrite !fmap_cons in Hsplit. cbn [concat_str foldr] in Hsplit.
  fold (concat_str ((λ n, " " +:+ n) <$> (triples ≫= dosage_fields))) in Hsplit.
  rewrite !str_app_assoc in Hsplit. rewrite !str_app_assoc.
  rewrite Hsplit; [by rewrite app_nil_r| |done].
  repeat (constructor; [done|]). apply dosage_fields_tokens.
Qed.

End row_fields.

(** X10.  A data row written for a line whose two alleles are not empty
    has, as whitespace-delimited fields, the chromosome label, the
    marker, the coordinate, the two alleles, then three fields, each 0 or
    1, per kept column of the line: 5 + 3k fields for k kept columns. *)
Theorem X10_row_fields fs coordFile chrNb lSnpsToIgnore d lColIdxToKeep line row :
  getNewSnpCoordinates fs coordFile lSnpsToIgnore = Ok d →
  convert_line chrNb lSnpsToIgnore d lColIdxToKeep line = Ok (Some row) →
  let lToks := Py.split (Py.slice_to_last line) in
  ∃ snpId coord a1 a2,
    lToks !! 0 = Some snpId ∧
    Py.split_sep "/" (lToks !!! 1) = [a1; a2] ∧
    (a1 ≠ "" → a2 ≠ "" →
     Py.split row
     = ("chr" +:+ Py.format_int chrNb) :: snpId :: coord :: a1 :: a2
       :: (((λ i, dosage a1 a2 (lToks !!! i)) <$> kept_columns lColIdxToKeep lToks)
             ≫= dosage_fields) ∧
     length (Py.split row) = 5 + 3 * length (kept_columns lColIdxToKeep lToks) ∧
     Forall (λ f, f = "0" ∨ f = "1") (drop 5 (Py.split row))).
Proof.
  intros Hd%getNewSnpCoordinates_tokens Hrow lToks.
  apply convert_line_Some in Hrow
    as (snpId & coord & alleles & a1 & a2 & H0 & Hign & Hcoord & H1 & Hsplit & ->).
  fold lToks in H0, Hcoord, H1 |- *.
  pose proof (split_tokens (Py.slice_to_last line)) as Htoks.
  fold lToks in Htoks. rewrite Forall_forall in Htoks.
  assert (is_token snpId = true) as Hid by (by eapply Htoks, list_elem_of_lookup_2).
  assert (is_token coord = true) as Hc.
  { destruct (d !! snpId) as [c|] eqn:Hlk.
    - subst. by apply (Hd snpId).
    - by eapply Htoks, list_elem_of_lookup_2. }
  assert (is_token alleles = true) as Hal by (by eapply Htoks, list_elem_of_lookup_2).
  pose proof (split_sep_chars not_space "/"%char alleles (is_token_all_chars _ Hal)) as Hp.
  rewrite Hsplit in Hp. apply Forall_cons in Hp as [Hs1 [Hs2 _]%Forall_cons].
  exists snpId, coord, a1, a2. split_and!; [done|..].
  { by rewrite (list_lookup_total_correct _ _ _ H1). }
  intros Hne1 Hne2.
  assert (is_token a1 = true) as Ht1 by (by apply is_token_spec).
  assert (is_token a2 = true) as Ht2 by (by apply is_token_spec).
  rewrite split_row_line_all by done. split_and!; [done| |].
  - cbn [length]. rewrite dosage_fields_length, length_fmap. lia.
  - cbn [drop].
    replace ((λ i, dosage a1 a2 (lToks !!! i)) <$> kept_columns lColIdxToKeep lToks)
      with (dosage a1 a2 <$> ((λ i, lToks !!! i) <$> kept_columns lColIdxToKeep lToks))
      by (by rewrite <-list_fmap_compose).
    apply dosage_fields_bits.
Qed.

Lemma X10_row_fields_witness :
  let lToks :=
    Py.split (Py.slice_to_last (ln "rs1 A/G chr1 100 + b36 c p a l QC+ AA AG")) in
  ∃ snpId coord a1 a2,
    lToks !! 0 = Some snpId ∧
    Py.split_sep "/" (lToks !!! 1) = [a1; a2] ∧
    (a1 ≠ "" → a2 ≠ "" →
     Py.split (ln "chr1 rs1 150 A G 1 0 0 0 1 0")
     = ("chr" +:+ Py.format_int 1) :: snpId :: coord :: a1 :: a2
       :: (((λ i, dosage a1 a2 (lToks !!! i)) <$> kept_columns [11; 12] lToks)
             ≫= dosage_fields) ∧
     length (Py.split (ln "chr1 rs1 150 A G 1 0 0 0 1 0"))
     = 5 + 3 * length (kept_columns [11; 12] lToks) ∧
     Forall (λ f, f = "0" ∨ f = "1")
       (drop 5 (Py.split (ln "chr1 rs1 150 A G 1 0 0 0 1 0")))).
Proof.
  apply (X10_row_fields sample_fs "coord.bed.gz" 1 [] {[ "rs1" := "150" ]} [11; 12]).
  - vm_compute. reflexivity.
  - vm_compute. reflexivity.
Defined.

(** ** Header and rows of one file *)

Section alignment.
Implicit Types lToks hToks : list string.

(** The columns kept for a row as long as the header line are the
    columns kept for the header line. *)
Lemma kept_columns_header (lIndsToKeep : list string) hToks lToks :
  length lToks = length hToks →
  kept_columns
    (filter (λ i, hToks !!! i ∈ lIndsToKeep) (Py.range 11 (length hToks))) lToks
  = filter (λ i, hToks !!! i ∈ lIndsToKeep) (Py.range 11 (length hToks)).
Proof.
  intros Hlen. unfold kept_columns. rewrite Hlen. apply filter_elem_of_filter.
Qed.

Lemma header_cols_length (lIndsToKeep : list string) hToks :
  length (filter (λ i, hToks !!! i ∈ lIndsToKeep) (Py.range 11 (length hToks)))
  = length (filter (λ t, t ∈ lIndsToKeep) (drop 11 hToks)).
Proof.
  rewrite <-(lookup_filter_range (λ t, t ∈ lIndsToKeep)). by rewrite length_fmap.
Qed.

End alignment.

(** X11.  Within one file, a data row written for a line that has as many
    tokens as the header line, and alleles that are not empty, has three
    dosage fields for each individual the header keeps: 5 + 3n fields
    where the header line written for that file has 5 + n. *)
Theorem X11_rows_match_header
    fs coordFile chrNb lSnpsToIgnore d lIndsToKeep hline lColIdxToKeep hdr line row :
  getNewSnpCoordinates fs coordFile lSnpsToIgnore = Ok d →
  convert_header lIndsToKeep true hline = Ok (lColIdxToKeep, Some hdr) →
  convert_line chrNb lSnpsToIgnore d lColIdxToKeep line = Ok (Some row) →
  length (Py.split (Py.slice_to_last line)) = length (Py.split (Py.rstrip hline)) →
  Forall (λ a, a ≠ "") (Py.split_sep "/" (Py.split (Py.slice_to_last line) !!! 1)) →
  ∃ n,
    length (Py.split hdr) = 5 + n ∧
    length (Py.split row) = 5 + 3 * n.
Proof.
  intros Hd Hhdr Hrow Hlen Halleles.
  rewrite convert_header_spec in Hhdr. injection Hhdr as <- <-.
  exists (length (header_names lIndsToKeep hline)). split.
  - rewrite split_header_line by apply header_names_tokens.
    rewrite length_app. done.
  - pose proof Hrow as Hrow'.
    apply convert_line_Some in Hrow'
      as (snpId & coord & alleles & a1 & a2 & H0 & Hign & Hcoord & H1 & Hsplit & ->).
    rewrite (list_lookup_total_correct _ _ _ H1), Hsplit in Halleles.
    apply Forall_cons in Halleles as [Hne1 [Hne2 _]%Forall_cons].
    pose proof (split_tokens (Py.slice_to_last line)) as Htoks.
    rewrite Forall_forall in Htoks.
    assert (is_token snpId = true) as Hid by (by eapply Htoks, list_elem_of_lookup_2).
    assert (is_token coord = true) as Hc.
    { apply getNewSnpCoordinates_tokens in Hd.
      destruct (d !! snpId) as [c|] eqn:Hlk.
      - subst. by apply (Hd snpId).
      - by eapply Htoks, list_elem_of_lookup_2. }
    assert (is_token alleles = true) as Hal by (by eapply Htoks, list_elem_of_lookup_2).
    pose proof (split_sep_chars not_space "/"%char alleles (is_token_all_chars _ Hal)) as Hp.
    rewrite Hsplit in Hp. apply Forall_cons in Hp as [Hs1 [Hs2 _]%Forall_cons].
    rewrite split_row_line_all by (done || by apply is_token_spec).
    cbn [length]. rewrite dosage_fields_length, length_fmap.
    rewrite (kept_columns_header lIndsToKeep (Py.split (Py.rstrip hline))) by done.
    rewrite header_cols_length.
    unfold header_names. lia.
Qed.

Lemma X11_rows_match_header_witness :
  ∃ n,
    length (Py.split (ln "chr id coord a1 a2 NA1 NA2")) = 5 + n ∧
    length (Py.split (ln "chr1 rs1 150 A G 1 0 0 0 1 0")) = 5 + 3 * n.
Proof.
  apply (X11_rows_match_header sample_fs "coord.bed.gz" 1 [] {[ "rs1" := "150" ]}
           ["NA1"; "NA2"] (ln hm_header) [11; 12] _
           (ln "rs1 A/G chr1 100 + b36 c p a l QC+ AA AG")).
  - vm_compute. reflexivity.
  - vm_compute. reflexivity.
  - vm_compute. reflexivity.
  - vm_compute. reflexivity.
  - vm_compute. repeat constructor; discriminate.
Defined.

(** X12.  The columns kept bear on the dosage text only: whether a data
    line is written, skipped or stops the run, and on which error, is
    the same for every choice of columns, and the row written is the row
    for no column at all with the dosage text put before its
    terminator. *)
Theorem X12_columns_only_add_dosages chrNb lSnpsToIgnore d lColIdxToKeep line :
  convert_line chrNb lSnpsToIgnore d lColIdxToKeep line
  = match convert_line chrNb lSnpsToIgnore d [] line with
    | Ok (Some base) =>
        Ok (Some (Py.slice_to_last base +:+ calls_text lColIdxToKeep line
                  +:+ String Py.LF ""))
    | Ok None => Ok None
    | Raise e => Raise e
    end.
Proof.
  unfold convert_line, calls_text.
  destruct (getitem _ 0) as [snpId|]; cbn [mbind result_bind]; [|done].
  destruct (Py.list_in snpId lSnpsToIgnore); [done|].
  destruct (match d !! snpId with Some c => _ | None => _ end) as [coord|];
    cbn [mbind result_bind]; [|done].
  destruct (getitem _ 1) as [alleles|] eqn:H1; cbn [mbind result_bind]; [|done].
  apply getitem_Ok in H1. rewrite (list_lookup_total_correct _ _ _ H1).
  destruct (Py.split_sep "/" alleles) as [|a1 [|a2 [|? ?]]]; try done.
  rewrite !row_calls_spec by apply range_Forall_lt. cbn [mbind result_bind].
  rewrite (filter_none (λ i, i ∈ [])) by (intros i; apply not_elem_of_nil).
  cbn [fmap list_fmap concat_str foldr]. rewrite str_app_nil_r, slice_to_last_snoc.
  unfold kept_columns. by rewrite str_app_assoc.
Qed.

(** ** Runs that complete, runs that stop *)

Section completion.
Implicit Types outH lines : list string.
Implicit Types d : gmap string string.

(** A well-formed data line never stops the run. *)
Lemma convert_line_well_formed chrNb lSnpsToIgnore d lColIdxToKeep line :
  well_formed_row line = true →
  ∃ o, convert_line chrNb lSnpsToIgnore d lColIdxToKeep line = Ok o.
Proof.
  unfold well_formed_row. intros [Hlen Hsep]%andb_true_iff.
  apply bool_decide_eq_true in Hlen, Hsep.
  set (lToks := Py.split (Py.slice_to_last line)) in *.
  destruct (lookup_lt_is_Some_2 lToks 0) as [snpId H0]; [lia|].
  destruct (lookup_lt_is_Some_2 lToks 1) as [alleles H1]; [lia|].
  destruct (lookup_lt_is_Some_2 lToks 3) as [pos H3]; [lia|].
  rewrite (list_lookup_total_correct _ _ _ H1) in Hsep.
  unfold convert_line. fold lToks.
  rewrite (getitem_lookup _ _ _ H0). cbn [mbind result_bind].
  destruct (Py.list_in snpId lSnpsToIgnore); [by eexists|].
  assert (∃ coord, match d !! snpId with
                   | Some c => Ok c
                   | None => getitem lToks 3
                   end = Ok coord) as [coord ->].
  { destruct (d !! snpId); [by eexists|]. rewrite (getitem_lookup _ _ _ H3). by eexists. }
  cbn [mbind result_bind]. rewrite (getitem_lookup _ _ _ H1). cbn [mbind result_bind].
  destruct (Py.split_sep "/" alleles) as [|a1 [|a2 [|? ?]]]; try done.
  rewrite row_calls_spec by apply range_Forall_lt. cbn [mbind result_bind].
  by eexists.
Qed.

Lemma convert_lines_well_formed chrNb lSnpsToIgnore d lColIdxToKeep lines outH :
  forallb well_formed_row lines = true →
  ∃ out, convert_lines chrNb lSnpsToIgnore d lColIdxToKeep lines outH = (out, Ok tt).
Proof.
  revert outH. induction lines as [|line lines IH]; intros outH Hwf; [by eexists|].
  cbn [forallb] in Hwf. apply andb_true_iff in Hwf as [Hline Hwf].
  cbn [convert_lines].
  destruct (convert_line_well_formed chrNb lSnpsToIgnore d lColIdxToKeep line Hline)
    as [[s|] ->]; by apply IH.
Qed.

Lemma convertHapMapToImpute_well_formed fs inPattern chrNb lSnpsToIgnore d lIndsToKeep
    outH isFirstFile :
  is_Some (fs !! hmFile inPattern chrNb) →
  forallb well_formed_row (data_lines fs inPattern chrNb) = true →
  ∃ out,
    convertHapMapToImpute fs inPattern chrNb lSnpsToIgnore d lIndsToKeep outH isFirstFile
    = (out, Ok tt).
Proof.
  intros [content Hfs]. unfold data_lines, convertHapMapToImpute, open. rewrite Hfs.
  rewrite <-readlines_tail. destruct (Py.readline content) as [hline rest].
  rewrite convert_header_spec. cbn [snd]. apply convert_lines_well_formed.
Qed.

Lemma main_chrs_well_formed fs inPattern lSnpsToIgnore d lIndsToKeep chrs outH isFirstFile :
  forallb (λ chrNb, bool_decide (is_Some (fs !! hmFile inPattern chrNb)) &&
                    forallb well_formed_row (data_lines fs inPattern chrNb)) chrs = true →
  ∃ out,
    main_chrs fs inPattern lSnpsToIgnore d lIndsToKeep chrs outH isFirstFile
    = (out, Ok tt).
Proof.
  revert outH isFirstFile. induction chrs as [|chrNb chrs IH];
    intros outH isFirstFile Hwf; [by eexists|].
  cbn [forallb] in Hwf.
  apply andb_true_iff in Hwf as [[Hfs Hlines]%andb_true_iff Hwf].
  apply bool_decide_eq_true in Hfs. cbn [main_chrs].
  destruct (convertHapMapToImpute_well_formed fs inPattern chrNb lSnpsToIgnore d
              lIndsToKeep outH isFirstFile Hfs Hlines) as [out ->].
  by apply IH.
Qed.

End completion.

(** X13.  A run completes when the three loaders do, the output file
    can be opened for writing and is none of the chromosome files of the
    run (so that opening and writing it leaves what is read as it is),
    every chromosome file asked for can be read, and every data line of
    these files has four tokens or more and an allele token with exactly
    one slash: no error is raised and the output is written to the
    end. *)
Theorem X13_well_formed_run_completes writable fs p lSnpsToIgnore d lIndsToKeep :
  loadFileWithListOfSnpsToIgnore fs (snpIgnoreFile p) = Ok lSnpsToIgnore →
  getNewSnpCoordinates fs (snpCoordFile p) lSnpsToIgnore = Ok d →
  loadFileWithListOfIndsToKeep fs (indsToKeepFile p) = Ok lIndsToKeep →
  writable (outFile p) = true →
  outFile p ∉ hmFile (inPattern p) <$> lChrs p →
  forallb (λ chrNb, bool_decide (is_Some (fs !! hmFile (inPattern p) chrNb)) &&
                    forallb well_formed_row (data_lines fs (inPattern p) chrNb))
    (lChrs p) = true →
  ∃ out, main writable fs p = (Some out, Ok tt).
Proof.
  intros Hign Hd Hinds Hw _ Hwf. unfold main, open_w. rewrite Hign, Hd, Hinds, Hw.
  destruct (main_chrs_well_formed fs (inPattern p) lSnpsToIgnore d lIndsToKeep
              (lChrs p) [] true Hwf) as [out ->].
  by exists out.
Qed.

Lemma X13_well_formed_run_witness :
  ∃ out,
    main sample_writable sample_fs
      (Params "in_CHR.gz" "out.gz" [1%Z; 2%Z] "coord.bed.gz" "ignore.txt" "keep.txt")
    = (Some out, Ok tt).
Proof.
  apply (X13_well_formed_run_completes sample_writable sample_fs
           (Params "in_CHR.gz" "out.gz" [1%Z; 2%Z] "coord.bed.gz" "ignore.txt" "keep.txt")
           ["rs1"] ∅ ["NA2"; "NA7"]).
  - vm_compute. reflexivity.
  - vm_compute. reflexivity.
  - vm_compute. reflexivity.
  - reflexivity.
  - apply (bool_decide_eq_true_1 _). vm_compute. reflexivity.
  - vm_compute. reflexivity.
Defined.

(** X14.  A data line without any token (a blank line) stops the
    conversion on [IndexError], even when an exclusion list is given:
    the rows of the lines before it stay written, and the lines after it
    are not read. *)
Theorem X14_blank_data_line_stops
    chrNb lSnpsToIgnore d lColIdxToKeep pre bad post outH out :
  convert_lines chrNb lSnpsToIgnore d lColIdxToKeep pre outH = (out, Ok tt) →
  Py.split (Py.slice_to_last bad) = [] →
  convert_lines chrNb lSnpsToIgnore d lColIdxToKeep (pre ++ bad :: post) outH
  = (out, Raise IndexError).
Proof.
  intros Hpre Hbad. rewrite convert_lines_app, Hpre. cbn [convert_lines].
  unfold convert_line. by rewrite Hbad.
Qed.

Lemma X14_blank_data_line_witness :
  convert_lines 1 [] ∅ [12]
    ([ln "rs1 A/G chr1 100 + b36 c p a l QC+ AA AG"] ++ ln ""
       :: [ln "rs2 C/T chr1 200 + b36 c p a l QC+ TT NN"])
    [ln "chr id coord a1 a2 NA2"]
  = ([ln "chr id coord a1 a2 NA2"; ln "chr1 rs1 100 A G 0 1 0"], Raise IndexError).
Proof.
  apply X14_blank_data_line_stops.
  - vm_compute. reflexivity.
  - vm_compute. reflexivity.
Defined.

(** ** The path of a chromosome file *)

Section paths.
Implicit Types s pre post new : string.

Lemma is_substring_cons a c s : is_substring a s → is_substring a (String c s).
Proof. intros (x & y & ->). by exists (String c x), y. Qed.

(** Without an occurrence of [old] nothing is replaced. *)
Lemma replace_absent old new s :
  ¬ is_substring old s → Py.replace old new s = s.
Proof.
  unfold Py.replace. induction s as [|c s IH]; intros Hno; [done|].
  cbn [Py.replace_go].
  destruct (String.prefix old (String c s)) eqn:Hp.
  - exfalso. apply Hno. apply prefix_spec in Hp as [y Hy]. by exists "", y.
  - f_equal. apply IH. intros Hsub. by apply Hno, is_substring_cons.
Qed.

(** The first occurrence of [CHR] is replaced, and the text after it is
    gone through in turn. *)
Lemma replace_first_CHR new pre post :
  ¬ is_substring "CHR" (pre +:+ "CH") →
  Py.replace "CHR" new (pre +:+ "CHR" +:+ post)
  = pre +:+ new +:+ Py.replace "CHR" new post.
Proof.
  unfold Py.replace. induction pre as [|c pre IH]; intros Hno.
  { rewrite !str_app_nil_l. by destruct post. }
  rewrite !(str_app_cons c pre). cbn [Py.replace_go].
  destruct (String.prefix "CHR" (String c (pre +:+ "CHR" +:+ post))) eqn:Hp.
  - exfalso. apply prefix_spec in Hp as [y Hy].
    destruct pre as [|b1 [|b2 pre]]; rewrite ?str_app_cons, ?str_app_nil_l in Hy;
      try (by simplify_eq).
    apply Hno. injection Hy as -> -> -> _.
    exists "", (pre +:+ "CH"). by rewrite !str_app_cons.
  - f_equal. apply IH. intros Hsub. apply Hno. rewrite str_app_cons.
    by apply is_substring_cons.
Qed.

Lemma format_int_NilEmpty n :
  Py.format_int n = NilEmpty.string_of_int (Z.to_int n).
Proof.
  unfold Py.format_int. destruct n as [|p|p]; [done| |]; simpl;
    unfold NilZero.string_of_uint;
    pose proof (DecimalPos.Unsigned.to_uint_nonnil p);
    by destruct (Pos.to_uint p).
Qed.

Lemma format_int_inj n n' : Py.format_int n = Py.format_int n' → n = n'.
Proof.
  rewrite !format_int_NilEmpty. intros Heq.
  apply (f_equal NilEmpty.int_of_string) in Heq. rewrite !NilEmpty.isi in Heq.
  injection Heq as Heq. by apply DecimalZ.to_int_inj.
Qed.

End paths.

(** X15.  A pattern without [CHR] names the same file, the pattern
    itself, for every chromosome: each chromosome of the list then reads
    that one file. *)
Theorem X15_pattern_without_CHR inPattern chrNb :
  ¬ is_substring "CHR" inPattern →
  hmFile inPattern chrNb = inPattern.
Proof. apply replace_absent. Qed.

Lemma X15_pattern_without_CHR_witness : hmFile "data/genotypes.txt.gz" 7 = "data/genotypes.txt.gz".
Proof.
  apply X15_pattern_without_CHR.
  apply (bool_decide_eq_false_1 _). vm_compute. reflexivity.
Defined.

(** X16.  For a pattern with one occurrence of [CHR], the file read for
    a chromosome is the pattern with [chr] and the chromosome number in
    decimal at that place, and different chromosome numbers read
    different files. *)
Theorem X16_pattern_with_one_CHR pre post chrNb chrNb' :
  ¬ is_substring "CHR" (pre +:+ "CH") →
  ¬ is_substring "CHR" post →
  chrNb ≠ chrNb' →
  hmFile (pre +:+ "CHR" +:+ post) chrNb
  = pre +:+ "chr" +:+ Py.format_int chrNb +:+ post ∧
  hmFile (pre +:+ "CHR" +:+ post) chrNb ≠ hmFile (pre +:+ "CHR" +:+ post) chrNb'.
Proof.
  intros Hpre Hpost Hne.
  assert (∀ n, hmFile (pre +:+ "CHR" +:+ post) n
               = pre +:+ "chr" +:+ Py.format_int n +:+ post) as Hfile.
  { intros n. unfold hmFile. rewrite replace_first_CHR by done.
    by rewrite replace_absent, str_app_assoc. }
  split; [done|]. rewrite !Hfile. intros Heq. apply Hne.
  apply (inj (String.app pre)), (inj (String.app "chr")) in Heq.
  apply format_int_inj.
  assert (String.length (Py.format_int chrNb) = String.length (Py.format_int chrNb'))
    as Hlen.
  { apply (f_equal String.length) in Heq. rewrite !str_app_length in Heq. lia. }
  by destruct (str_app_inj_length _ _ _ _ Hlen Heq).
Qed.

Lemma X16_pattern_with_one_CHR_witness :
  hmFile ("data/C" +:+ "CHR" +:+ "2.txt.gz") 1
  = "data/C" +:+ "chr" +:+ Py.format_int 1 +:+ "2.txt.gz" ∧
  hmFile ("data/C" +:+ "CHR" +:+ "2.txt.gz") 1
  ≠ hmFile ("data/C" +:+ "CHR" +:+ "2.txt.gz") 12.
Proof.
  apply (X16_pattern_with_one_CHR "data/C" "2.txt.gz" 1 12).
  - apply (bool_decide_eq_false_1 _). vm_compute. reflexivity.
  - apply (bool_decide_eq_false_1 _). vm_compute. reflexivity.
  - discriminate.
Defined.

(** ** What the filters change *)

Section filters.
Implicit Types outH rows lines : list string.
Implicit Types d : gmap string string.

(** The exclusion list bears on a line through the test of its marker
    only. *)
Lemma convert_line_exclusion chrNb (lSnpsToIgnore lSnpsToIgnore' : list string) d
    lColIdxToKeep line snpId :
  Py.split (Py.slice_to_last line) !! 0 = Some snpId →
  snpId ∉ lSnpsToIgnore → snpId ∉ lSnpsToIgnore' →
  convert_line chrNb lSnpsToIgnore' d lColIdxToKeep line
  = convert_line chrNb lSnpsToIgnore d lColIdxToKeep line.
Proof.
  intros H0 Hign Hign'. unfold convert_line.
  rewrite (getitem_lookup _ _ _ H0). cbn [mbind result_bind]. unfold Py.list_in.
  by rewrite !bool_decide_eq_false_2.
Qed.

Lemma convert_lines_more_excluded chrNb (lSnpsToIgnore lSnpsToIgnore' : list string) d
    lColIdxToKeep lines outH outH' rows :
  lSnpsToIgnore ⊆ lSnpsToIgnore' →
  convert_lines chrNb lSnpsToIgnore d lColIdxToKeep lines outH = (outH ++ rows, Ok tt) →
  ∃ rows',
    convert_lines chrNb lSnpsToIgnore' d lColIdxToKeep lines outH'
    = (outH' ++ rows', Ok tt) ∧
    rows' `sublist_of` rows.
Proof.
  intros Hsub. revert outH outH' rows.
  induction lines as [|line lines IH]; intros outH outH' rows Hout.
  { injection Hout as Hout. rewrite <-(app_nil_r outH) in Hout at 1.
    apply (inj (app outH)) in Hout as <-. exists []. by rewrite app_nil_r. }
  cbn [convert_lines] in Hout |- *.
  destruct (convert_line chrNb lSnpsToIgnore d lColIdxToKeep line)
    as [[s|]|e] eqn:Hline; [| |done].
  - destruct (convert_lines_out chrNb lSnpsToIgnore d lColIdxToKeep lines (outH ++ [s]))
      as (rows1 & Hrows1 & _).
    rewrite Hout in Hrows1. cbn [fst] in Hrows1.
    rewrite <-(assoc_L (++)) in Hrows1. apply (inj (app outH)) in Hrows1 as ->.
    rewrite (assoc_L (++)) in Hout.
    pose proof Hline as Hsome.
    apply convert_line_Some in Hsome as (snpId & _ & _ & _ & _ & H0 & Hign & _).
    destruct (decide (snpId ∈ lSnpsToIgnore')) as [Hin|Hnin].
    + assert (convert_line chrNb lSnpsToIgnore' d lColIdxToKeep line = Ok None) as ->.
      { unfold convert_line. rewrite (getitem_lookup _ _ _ H0).
        cbn [mbind result_bind]. unfold Py.list_in. by rewrite bool_decide_eq_true_2. }
      destruct (IH _ outH' _ Hout) as (rows' & -> & Hsl).
      exists rows'. split; [done|]. by apply sublist_cons.
    + rewrite (convert_line_exclusion _ _ _ _ _ _ _ H0 Hign Hnin), Hline.
      destruct (IH _ (outH' ++ [s]) _ Hout) as (rows' & -> & Hsl).
      exists (s :: rows'). split; [by rewrite <-(assoc_L (++))|]. by apply sublist_skip.
  - assert (convert_line chrNb lSnpsToIgnore' d lColIdxToKeep line = Ok None) as ->.
    { unfold convert_line, getitem in Hline |- *.
      destruct (_ !! 0) as [snpId|]; cbn [mbind result_bind] in Hline |- *; [|done].
      unfold Py.list_in in *.
      destruct (decide (snpId ∈ lSnpsToIgnore)) as [Hin|Hnin].
      - rewrite bool_decide_eq_true_2; [done|]. by apply Hsub.
      - rewrite bool_decide_eq_false_2 in Hline by done.
        destruct (match d !! snpId with Some c => _ | None => _ end);
          cbn [mbind result_bind] in Hline; [|done].
        destruct (_ !! 1); cbn [mbind result_bind] in Hline; [|done].
        destruct (Py.split_sep _ _) as [|a1 [|a2 [|? ?]]]; try done.
        by destruct (row_calls _ _ _ _ _ _). }
    by apply IH with outH.
Qed.

End filters.

(** X17.  The coordinate dictionary changes nothing but the coordinate
    field: a data line that gives a row without any override gives, with
    a dictionary, the same row with the third field replaced by the
    dictionary value of its marker, if there is one. *)
Theorem X17_override_changes_coordinate_only
    chrNb lSnpsToIgnore d lColIdxToKeep line row0 :
  convert_line chrNb lSnpsToIgnore ∅ lColIdxToKeep line = Ok (Some row0) →
  ∃ snpId coord0 a1 a2 triples,
    Py.split (Py.slice_to_last line) !! 0 = Some snpId ∧
    Py.split (Py.slice_to_last line) !! 3 = Some coord0 ∧
    row0 = row_line chrNb snpId coord0 a1 a2 triples ∧
    convert_line chrNb lSnpsToIgnore d lColIdxToKeep line
    = Ok (Some (row_line chrNb snpId (default coord0 (d !! snpId)) a1 a2 triples)).
Proof.
  intros Hrow0. pose proof Hrow0 as Hsome.
  apply convert_line_Some in Hsome
    as (snpId & coord0 & alleles & a1 & a2 & H0 & Hign & Hcoord & H1 & Hsplit & ->).
  rewrite lookup_empty in Hcoord.
  exists snpId, coord0, a1, a2. eexists. split_and!; [done|done|done|].
  unfold convert_line.
  rewrite (getitem_lookup _ _ _ H0). cbn [mbind result_bind]. unfold Py.list_in.
  rewrite bool_decide_eq_false_2 by done.
  destruct (d !! snpId) as [c|]; cbn [mbind result_bind default];
    rewrite ?(getitem_lookup _ _ _ Hcoord); cbn [mbind result_bind];
    rewrite (getitem_lookup _ _ _ H1); cbn [mbind result_bind];
    rewrite Hsplit, row_calls_spec by apply range_Forall_lt;
    cbn [mbind result_bind];
    unfold row_line, kept_columns; rewrite <-list_fmap_compose;
    by rewrite !str_app_assoc.
Qed.

Lemma X17_override_witness :
  ∃ snpId coord0 a1 a2 triples,
    Py.split (Py.slice_to_last (ln "rs1 A/G chr1 100 + b36 c p a l QC+ AA AG")) !! 0
    = Some snpId ∧
    Py.split (Py.slice_to_last (ln "rs1 A/G chr1 100 + b36 c p a l QC+ AA AG")) !! 3
    = Some coord0 ∧
    ln "chr1 rs1 100 A G 1 0 0 0 1 0" = row_line 1 snpId coord0 a1 a2 triples ∧
    convert_line 1 [] {[ "rs1" := "150" ]} [11; 12]
      (ln "rs1 A/G chr1 100 + b36 c p a l QC+ AA AG")
    = Ok (Some (row_line 1 snpId
                  (default coord0 (({[ "rs1" := "150" ]} : gmap string string) !! snpId))
                  a1 a2 triples)).
Proof.
  apply (X17_override_changes_coordinate_only 1 [] {[ "rs1" := "150" ]} [11; 12]).
  vm_compute. reflexivity.
Defined.

(** X18.  Excluding more markers never adds a row nor an error: when the
    data lines of a file are converted without error under an exclusion
    list, they are too under any larger list, and the rows then written
    are rows written before, in the same order. *)
Theorem X18_more_exclusion_fewer_rows
    chrNb (lSnpsToIgnore lSnpsToIgnore' : list string) d lColIdxToKeep lines outH rows :
  lSnpsToIgnore ⊆ lSnpsToIgnore' →
  convert_lines chrNb lSnpsToIgnore d lColIdxToKeep lines outH = (outH ++ rows, Ok tt) →
  ∃ rows',
    convert_lines chrNb lSnpsToIgnore' d lColIdxToKeep lines outH
    = (outH ++ rows', Ok tt) ∧
    rows' `sublist_of` rows.
Proof. apply convert_lines_more_excluded. Qed.

Lemma X18_more_exclusion_witness :
  ∃ rows',
    convert_lines 1 ["rs1"] ∅ [12]
      [ln "rs1 A/G chr1 100 + b36 c p a l QC+ AA AG";
       ln "rs2 C/T chr1 200 + b36 c p a l QC+ TT NN"]
      [ln "chr id coord a1 a2 NA2"]
    = ([ln "chr id coord a1 a2 NA2"] ++ rows', Ok tt) ∧
    rows' `sublist_of` [ln "chr1 rs1 100 A G 0 1 0"; ln "chr1 rs2 200 C T 0 0 0"].
Proof.
  apply (X18_more_exclusion_fewer_rows 1 [] ["rs1"]).
  - apply list_subseteq_nil.
  - vm_compute. reflexivity.
Defined.
